(** * StreamPro synthetic data generator (generate_data.py)

    A shallow embedding of the generator and the properties of the event
    log it produces.

    Modelling decisions, all of them about library code the script calls:

    - The two seeded generators (Python's [random] and [numpy.random]) are
      streams of raw draws, [nat -> N], read left to right.  Every library
      call that consumes randomness reads one raw draw and decodes it into
      the range the library documents, so each value the library can
      return is the decoding of some stream.  What a seed maps to (the
      Mersenne Twister) is left as a parameter, [seeding].
    - [datetime] values are counts of microseconds since 0001-01-01T00:00:00
      and [timedelta] values are counts of microseconds, both with the range
      checks of the library ([OverflowError]).  [isoformat()] and
      [str(date)] are injective renderings and are left out: the [timestamp]
      field of a row holds the datetime itself.
    - [datetime.utcnow()] is read twice in a run; both readings are inputs.
    - The four files are represented by the tables that are serialised into
      them. *)

From Stdlib Require Import ZArith List String Ascii Bool Lia Permutation Sorted.
From Stdlib Require Import Decimal DecimalString DecimalNat.
Import ListNotations.

Local Open Scope Z_scope.

(* ------------------------------------------------------------------ *)
(** ** Exceptions and the state of a run *)

Inductive exn : Type :=
| ValueError
| IndexError
| OverflowError.

Inductive result (A : Type) : Type :=
| Ok (a : A)
| Raise (e : exn).

Arguments Ok {A} a.
Arguments Raise {A} e.

(** One row of events.jsonl, the dict built in [generate_events]. *)
Record event : Type := mk_event {
  timestamp : Z;
  account_id : string;
  user_id : string;
  video_id : option string;
  session_id : string;
  event_name : string;
  value : option Z;
  device : string;
  device_os : string;
  app_version : string;
  network_type : string;
  ip : string;
  country : string
}.

(** Rows of users.csv, videos.csv and devices.csv. *)
Record user_row : Type := mk_user_row {
  u_user_id : string;
  u_signup_date : Z;
  u_subscription_tier : string;
  u_age_group : string;
  u_gender : string
}.

Record video_row : Type := mk_video_row {
  v_video_id : string;
  v_title : string;
  v_genre : string;
  v_duration_seconds : Z;
  v_patent_id : string
}.

Record device_row : Type := mk_device_row {
  d_device : string;
  d_device_model : string;
  d_os_version : string
}.

(** The mutable objects of a run: the two generators, each a stream and the
    number of draws already consumed, and the lists the generators append
    to ([users], [videos] and [rows] in the source). *)
Record world : Type := mk_world {
  py_draws : nat -> N;
  py_used : nat;
  np_draws : nat -> N;
  np_used : nat;
  w_users : list user_row;
  w_videos : list video_row;
  w_rows : list event
}.

(** Computations that read and update the world and may raise; the world
    at the point of the exception is kept. *)
Definition M (A : Type) : Type := world -> result A * world.

Definition ret {A} (a : A) : M A := fun w => (Ok a, w).

Definition raise {A} (e : exn) : M A := fun w => (Raise e, w).

Definition bind {A B} (m : M A) (f : A -> M B) : M B :=
  fun w =>
    match m w with
    | (Ok a, w') => f a w'
    | (Raise e, w') => (Raise e, w')
    end.

Definition lift {A} (r : result A) : M A := fun w => (r, w).

Declare Scope gen_scope.
Delimit Scope gen_scope with gen.
Notation "x <- c ;; k" := (bind c (fun x => k))
  (at level 61, c at next level, right associativity) : gen_scope.
Notation "' p <- c ;; k" := (bind c (fun p => k))
  (at level 61, p pattern, c at next level, right associativity) : gen_scope.
Notation "c ;;; k" := (bind c (fun _ => k))
  (at level 61, right associativity) : gen_scope.
Local Open Scope gen_scope.

(** [for x in xs: body], with the loop-carried variables as [s]. *)
Fixpoint for_each {A S} (body : A -> S -> M S) (xs : list A) (s : S) : M S :=
  match xs with
  | [] => ret s
  | x :: xs' => s' <- body x s ;; for_each body xs' s'
  end.

(** [range(n)]: empty when [n <= 0]. *)
Definition range (n : Z) : list nat := seq 0 (Z.to_nat n).

(* ------------------------------------------------------------------ *)
(** ** datetime and timedelta *)

Definition us_per_second : Z := 1000000.
Definition us_per_day : Z := 86400 * us_per_second.

(** [timedelta.max.days] *)
Definition MAX_DELTA_DAYS : Z := 999999999.

(** [date.max.toordinal()], the ordinal of 9999-12-31. *)
Definition MAX_ORDINAL : Z := 3652059.

(** A timedelta is normalised to days, seconds and microseconds; the
    constructor refuses it when the days are out of range. *)
Definition timedelta_us (us : Z) : result Z :=
  if (- MAX_DELTA_DAYS <=? us / us_per_day) && (us / us_per_day <=? MAX_DELTA_DAYS)
  then Ok us else Raise OverflowError.

Definition timedelta_days (d : Z) : result Z := timedelta_us (d * us_per_day).
Definition timedelta_hours (h : Z) : result Z := timedelta_us (h * 3600 * us_per_second).
Definition timedelta_minutes (m : Z) : result Z := timedelta_us (m * 60 * us_per_second).
Definition timedelta_seconds (s : Z) : result Z := timedelta_us (s * us_per_second).

(** [dt + td] and [dt - td] on datetimes. *)
Definition datetime_add (dt td : Z) : result Z :=
  let r := dt + td in
  if (0 <=? r) && (r <? MAX_ORDINAL * us_per_day) then Ok r else Raise OverflowError.

Definition datetime_sub (dt td : Z) : result Z := datetime_add dt (- td).

(** [dt.date()], as a proleptic Gregorian ordinal. *)
Definition date_of (dt : Z) : Z := dt / us_per_day + 1.

(** [d - td] on dates: only the days of [td] count. *)
Definition date_sub (d td : Z) : result Z :=
  let r := d - td / us_per_day in
  if (1 <=? r) && (r <=? MAX_ORDINAL) then Ok r else Raise OverflowError.

(* ------------------------------------------------------------------ *)
(** ** String formatting *)

Local Open Scope string_scope.

(** [str(n)] and [f"{n}"] for an int. *)
Definition str (n : Z) : string := NilZero.string_of_int (Z.to_int n).

Fixpoint zeros (k : nat) (d : uint) : uint :=
  match k with
  | O => d
  | S k' => D0 (zeros k' d)
  end.

(** [f"{i:0{w}d}"] for [i >= 0]: the decimal digits, padded on the left
    with zeros to width [w]. *)
Definition fmt_0d (w : nat) (i : nat) : string :=
  let d := Nat.to_uint i in
  NilEmpty.string_of_uint (zeros (w - nb_digits d) d).

(* ------------------------------------------------------------------ *)
(** ** The random module and numpy.random *)

Definition py_next : M N := fun w =>
  (Ok (py_draws w (py_used w)),
   mk_world (py_draws w) (S (py_used w)) (np_draws w) (np_used w)
            (w_users w) (w_videos w) (w_rows w)).

Definition np_next : M N := fun w =>
  (Ok (np_draws w (np_used w)),
   mk_world (py_draws w) (py_used w) (np_draws w) (S (np_used w))
            (w_users w) (w_videos w) (w_rows w)).

(** [random._randbelow(n)] for [n > 0]: a value in [0, n). *)
Definition randbelow (n : Z) : M Z :=
  r <- py_next ;; ret ((Z.of_N r mod n)%Z).

(** [random.randint(a, b)]: an int in [a, b], both ends included;
    ValueError when the range is empty. *)
Definition randint (a b : Z) : M Z :=
  if (b <? a)%Z then raise ValueError
  else r <- randbelow (b - a + 1)%Z ;; ret (a + r)%Z.

(** [random.choice(seq)]: IndexError on an empty sequence. *)
Definition choice {A} (xs : list A) : M A :=
  match xs with
  | [] => raise IndexError
  | _ :: _ =>
      i <- randbelow (Z.of_nat (List.length xs)) ;;
      match nth_error xs (Z.to_nat i) with
      | Some x => ret x
      | None => raise IndexError
      end
  end.

(** Removal of the element at position [i]. *)
Definition remove_at {A} (i : nat) (xs : list A) : list A :=
  (firstn i xs ++ skipn (S i) xs)%list.

Fixpoint sample_loop {A} (k : nat) (pool : list A) : M (list A) :=
  match k with
  | O => ret []
  | S k' =>
      j <- randbelow (Z.of_nat (List.length pool)) ;;
      match nth_error pool (Z.to_nat j) with
      | Some x => rest <- sample_loop k' (remove_at (Z.to_nat j) pool) ;; ret (x :: rest)
      | None => raise IndexError
      end
  end.

(** [random.sample(population, k)]: [k] elements taken at pairwise
    distinct positions, in selection order; ValueError when [k] is
    negative or larger than the population. *)
Definition sample {A} (population : list A) (k : Z) : M (list A) :=
  if ((k <? 0) || (Z.of_nat (List.length population) <? k))%Z then raise ValueError
  else sample_loop (Z.to_nat k) population.

(** [random.random()] returns [k / 2^53] for an integer [0 <= k < 2^53];
    this is the numerator [k]. *)
Definition random_random : M Z :=
  r <- py_next ;; ret ((Z.of_N r mod 2 ^ 53)%Z).

(** The double nearest to 0.12 is [8646911284551352 / 2^56], so
    [k / 2^53 < 0.12] holds exactly when [k < 1080863910568919]. *)
Definition lt_0_12 (k : Z) : bool := (k <? 1080863910568919)%Z.

(** [np.random.poisson(lam=1.8)]: a non-negative int. *)
Definition np_random_poisson : M Z :=
  r <- np_next ;; ret (Z.of_N r).

(** [int(np.random.exponential(scale=12))]: the draw is a non-negative
    float, of which the program keeps the integer part. *)
Definition int_np_random_exponential : M Z :=
  r <- np_next ;; ret (Z.of_N r).

(* ------------------------------------------------------------------ *)
(** ** The lists the generators append to *)

Definition set_users (l : list user_row) : M unit := fun w =>
  (Ok tt, mk_world (py_draws w) (py_used w) (np_draws w) (np_used w)
                   l (w_videos w) (w_rows w)).

Definition set_videos (l : list video_row) : M unit := fun w =>
  (Ok tt, mk_world (py_draws w) (py_used w) (np_draws w) (np_used w)
                   (w_users w) l (w_rows w)).

Definition set_rows (l : list event) : M unit := fun w =>
  (Ok tt, mk_world (py_draws w) (py_used w) (np_draws w) (np_used w)
                   (w_users w) (w_videos w) l).

Definition get_users : M (list user_row) := fun w => (Ok (w_users w), w).
Definition get_videos : M (list video_row) := fun w => (Ok (w_videos w), w).
Definition get_rows : M (list event) := fun w => (Ok (w_rows w), w).

(** [users.append(r)], [videos.append(r)], [rows.append(r)] *)
Definition users_append (r : user_row) : M unit := fun w =>
  set_users (w_users w ++ [r])%list w.

Definition videos_append (r : video_row) : M unit := fun w =>
  set_videos (w_videos w ++ [r])%list w.

Definition rows_append (r : event) : M unit := fun w =>
  set_rows (w_rows w ++ [r])%list w.

(* ------------------------------------------------------------------ *)
(** ** The generator *)

Record GeneratorConfig : Type := mk_config {
  out_dir : string;
  days : Z;
  users : Z;
  videos : Z;
  seed : Z
}.

(** The body of [for i in range(cfg.users)]. *)
Definition generate_users_body (cfg : GeneratorConfig) (today : Z)
    (i : nat) (_ : unit) : M unit :=
  let user_id := "u_" ++ fmt_0d 5 i in
  k <- randint 1 (days cfg + 7) ;;
  td <- lift (timedelta_days k) ;;
  signup_date <- lift (date_sub today td) ;;
  subscription_tier <- choice ["free"; "basic"; "premium"] ;;
  age_group <- choice ["18-24"; "25-34"; "35-44"; "45-54"; "55+"] ;;
  gender <- choice ["female"; "male"; "other"; "prefer_not_to_say"] ;;
  users_append (mk_user_row user_id signup_date subscription_tier age_group gender).

(** [generate_users(cfg)]; [utcnow] is the clock reading taken on entry. *)
Definition generate_users (cfg : GeneratorConfig) (utcnow : Z) : M (list user_row) :=
  let today := date_of utcnow in
  set_users [] ;;;
  for_each (generate_users_body cfg today) (range (users cfg)) tt ;;;
  get_users.

Definition genres : list string :=
  ["drama"; "comedy"; "documentary"; "action"; "horror"; "sci-fi"; "fantasy"; "romance"].

(** The body of [for i in range(cfg.videos)]. *)
Definition generate_videos_body (i : nat) (_ : unit) : M unit :=
  let video_id := "v_" ++ fmt_0d 5 i in
  let title := "Video " ++ str (Z.of_nat i) in
  genre <- choice genres ;;
  duration_seconds <- randint 30 3600 ;;
  p <- randint 1000 9999 ;;
  let patent_id := "pat_" ++ str p in
  videos_append (mk_video_row video_id title genre duration_seconds patent_id).

(** [generate_videos(cfg)] *)
Definition generate_videos (cfg : GeneratorConfig) : M (list video_row) :=
  set_videos [] ;;;
  for_each generate_videos_body (range (videos cfg)) tt ;;;
  get_videos.

(** [generate_devices()]: the cross product, in loop order. *)
Definition generate_devices : list device_row :=
  let device_types := ["mobile"; "tablet"; "desktop"] in
  let device_models := ["A1"; "A2"; "B1"; "B2"; "C1"] in
  let os_versions := ["iOS 16"; "Android 13"; "Windows 11"; "macOS 14"] in
  flat_map (fun d =>
    flat_map (fun m =>
      map (fun o => mk_device_row d m o) os_versions) device_models) device_types.

Definition accounts : list string := ["acct_1"; "acct_2"; "acct_3"].
Definition device_types : list string := ["mobile"; "tablet"; "desktop"].
Definition device_os_options : list string := ["iOS"; "Android"; "Windows"; "macOS"].
Definition app_versions : list string := ["1.0.0"; "1.1.0"; "1.2.0"; "2.0.0"; "2.1.0"].
Definition network_types : list string := ["wifi"; "4G"; "5G"].
Definition countries : list string :=
  ["US"; "CA"; "GB"; "DE"; "FR"; "BR"; "IN"; "AU"; "JP"].

(** The fields that all rows of one session share. *)
Record session_fields : Type := mk_session_fields {
  sf_account_id : string;
  sf_user_id : string;
  sf_session_id : string;
  sf_device : string;
  sf_device_os : string;
  sf_app_version : string;
  sf_network_type : string;
  sf_ip : string;
  sf_country : string
}.

(** The dict literal of a row: the session's fields and the four that vary. *)
Definition row (sf : session_fields) (ts : Z) (vid : option string)
    (name : string) (val : option Z) : event :=
  mk_event ts (sf_account_id sf) (sf_user_id sf) vid (sf_session_id sf) name val
           (sf_device sf) (sf_device_os sf) (sf_app_version sf)
           (sf_network_type sf) (sf_ip sf) (sf_country sf).

(** The body of [for _ in range(num_chunks)]; the loop-carried variables
    are [t] and [session_watch_seconds]. *)
Definition chunk_body (sf : session_fields) (watched_videos : list string)
    (_ : nat) (st : Z * Z) : M (Z * Z) :=
  let '(t, session_watch_seconds) := st in
  d <- randint 1 50 ;;
  td <- lift (timedelta_seconds d) ;;
  t <- lift (datetime_add t td) ;;
  x <- int_np_random_exponential ;;
  let value := (x + 1)%Z in
  let session_watch_seconds := (session_watch_seconds + value)%Z in
  vid <- choice watched_videos ;;
  rows_append (row sf t (Some vid) "watch_time" (Some value)) ;;;
  r <- random_random ;;
  (if lt_0_12 r then
     td1 <- lift (timedelta_seconds 1) ;;
     ts <- lift (datetime_add t td1) ;;
     vid2 <- choice watched_videos ;;
     name <- choice ["like"; "heart"] ;;
     rows_append (row sf ts (Some vid2) name None)
   else ret tt) ;;;
  ret (t, session_watch_seconds).

(** The body of [for s in range(num_sessions)]; the loop-carried variables
    are [session_time] and [first_login_emitted]. *)
Definition session_body (video_ids : list string) (user_id : string)
    (s : nat) (st : Z * bool) : M (Z * bool) :=
  let '(session_time, first_login_emitted) := st in
  account_id <- choice accounts ;;
  let session_id := "s_" ++ user_id ++ "_" ++ fmt_0d 4 s in
  device <- choice device_types ;;
  device_os <- choice device_os_options ;;
  app_version <- choice app_versions ;;
  network_type <- choice network_types ;;
  ip1 <- randint 0 255 ;;
  ip2 <- randint 0 255 ;;
  ip3 <- randint 1 254 ;;
  let ip := "10." ++ str ip1 ++ "." ++ str ip2 ++ "." ++ str ip3 in
  country <- choice countries ;;
  let sf := mk_session_fields account_id user_id session_id device device_os
                              app_version network_type ip country in
  (if negb first_login_emitted then
     td <- lift (timedelta_minutes 5) ;;
     ts <- lift (datetime_sub session_time td) ;;
     rows_append (row sf ts None "first_login" None)
   else ret tt) ;;;
  rows_append (row sf session_time None "session_start" None) ;;;
  num_chunks <- randint 1 10 ;;
  k <- randint 1 4 ;;
  watched_videos <- sample video_ids (Z.min (Z.of_nat (List.length video_ids)) k) ;;
  '(t, session_watch_seconds) <-
      for_each (chunk_body sf watched_videos) (range num_chunks) (session_time, 0%Z) ;;
  slack <- randint 0 60 ;;
  td <- lift (timedelta_seconds (session_watch_seconds + slack)) ;;
  end_time <- lift (datetime_add session_time td) ;;
  rows_append (row sf end_time None "session_end" None) ;;;
  gap <- randint 10 600 ;;
  td <- lift (timedelta_minutes gap) ;;
  session_time <- lift (datetime_add end_time td) ;;
  ret (session_time, true).

(** The body of [for user_id in user_ids]. *)
Definition user_body (cfg : GeneratorConfig) (base_dt : Z) (video_ids : list string)
    (user_id : string) (_ : unit) : M unit :=
  p <- np_random_poisson ;;
  let num_sessions := (p + 1)%Z in
  h <- randint 0 (days cfg * 24) ;;
  td <- lift (timedelta_hours h) ;;
  session_time <- lift (datetime_add base_dt td) ;;
  for_each (session_body video_ids user_id) (range num_sessions) (session_time, false) ;;;
  ret tt.

(** [generate_events(cfg, users_df, videos_df)]; [utcnow] is the clock
    reading taken on entry. *)
Definition generate_events (cfg : GeneratorConfig) (utcnow : Z)
    (users_df : list user_row) (videos_df : list video_row) : M (list event) :=
  td <- lift (timedelta_days (days cfg)) ;;
  base_dt <- lift (datetime_sub utcnow td) ;;
  set_rows [] ;;;
  let user_ids := map u_user_id users_df in
  let video_ids := map v_video_id videos_df in
  for_each (user_body cfg base_dt video_ids) user_ids tt ;;;
  get_rows.

(** What a seed turns each generator into. *)
Record seeding : Type := mk_seeding {
  random_stream : Z -> nat -> N;
  np_random_stream : Z -> nat -> N
}.

(** [random.seed(s)] accepts every int. *)
Definition random_seed (sd : seeding) (s : Z) : M unit := fun w =>
  (Ok tt, mk_world (random_stream sd s) 0 (np_draws w) (np_used w)
                   (w_users w) (w_videos w) (w_rows w)).

(** [np.random.seed(s)] raises ValueError unless [0 <= s < 2^32]. *)
Definition np_random_seed (sd : seeding) (s : Z) : M unit := fun w =>
  if ((0 <=? s) && (s <? 2 ^ 32))%Z then
    (Ok tt, mk_world (py_draws w) (py_used w) (np_random_stream sd s) 0
                     (w_users w) (w_videos w) (w_rows w))
  else (Raise ValueError, w).

(** The two readings of [datetime.utcnow()] in a run, in call order. *)
Record clock : Type := mk_clock {
  utcnow_users : Z;
  utcnow_events : Z
}.

(** The tables behind the four files. *)
Record outputs : Type := mk_outputs {
  users_csv : list user_row;
  videos_csv : list video_row;
  devices_csv : list device_row;
  events_jsonl : list event
}.

(** [write_outputs(cfg)] *)
Definition write_outputs (sd : seeding) (clk : clock) (cfg : GeneratorConfig) : M outputs :=
  random_seed sd (seed cfg) ;;;
  np_random_seed sd (seed cfg) ;;;
  users_df <- generate_users cfg (utcnow_users clk) ;;
  videos_df <- generate_videos cfg ;;
  let devices_df := generate_devices in
  events <- generate_events cfg (utcnow_events clk) users_df videos_df ;;
  ret (mk_outputs users_df videos_df devices_df events).

(* ------------------------------------------------------------------ *)
(** ** The shape of an event log

    What one pass of each loop of [generate_events] emits, as data: a
    chunk is one iteration of the chunk loop, a session one iteration of
    the session loop, a block one iteration of the user loop. *)

Local Open Scope Z_scope.
Local Open Scope list_scope.

Record chunk : Type := mk_chunk {
  ck_time : Z;
  ck_value : Z;
  ck_video : string;
  ck_reaction : option (string * string)
}.

Definition watch_row (sf : session_fields) (c : chunk) : event :=
  row sf (ck_time c) (Some (ck_video c)) "watch_time" (Some (ck_value c)).

Definition reaction_rows (sf : session_fields) (c : chunk) : list event :=
  match ck_reaction c with
  | Some (vid, name) => [row sf (ck_time c + us_per_second) (Some vid) name None]
  | None => []
  end.

Definition chunk_rows (sf : session_fields) (c : chunk) : list event :=
  watch_row sf c :: reaction_rows sf c.

Record session : Type := mk_session {
  ss_fields : session_fields;
  ss_login : bool;
  ss_start : Z;
  ss_watched : list string;
  ss_chunks : list chunk;
  ss_end : Z
}.

Definition login_row (s : session) : event :=
  row (ss_fields s) (ss_start s - 5 * 60 * us_per_second) None "first_login" None.

Definition start_row (s : session) : event :=
  row (ss_fields s) (ss_start s) None "session_start" None.

Definition end_row (s : session) : event :=
  row (ss_fields s) (ss_end s) None "session_end" None.

Definition session_rows (s : session) : list event :=
  (if ss_login s then [login_row s] else [])
  ++ start_row s
  :: flat_map (chunk_rows (ss_fields s)) (ss_chunks s)
  ++ [end_row s].

Record user_block : Type := mk_user_block {
  ub_user : string;
  ub_sessions : list session
}.

Definition block_rows (b : user_block) : list event :=
  flat_map session_rows (ub_sessions b).

Definition all_sessions (blocks : list user_block) : list session :=
  flat_map ub_sessions blocks.

(** Each chunk advances the time pointer by 1 to 50 seconds. *)
Fixpoint chunk_times (t : Z) (cs : list chunk) : Prop :=
  match cs with
  | [] => True
  | c :: cs' =>
      (exists d, 1 <= d <= 50 /\ ck_time c = t + d * us_per_second) /\
      chunk_times (ck_time c) cs'
  end.

Definition chunk_ok (watched : list string) (c : chunk) : Prop :=
  1 <= ck_value c /\
  In (ck_video c) watched /\
  forall vid name, ck_reaction c = Some (vid, name) ->
    In vid watched /\ (name = "like"%string \/ name = "heart"%string).

(** [session_watch_seconds] after the chunk loop. *)
Definition watch_seconds (cs : list chunk) : Z :=
  fold_right (fun c acc => ck_value c + acc) 0 cs.

(** [l] is made of elements of [population] at pairwise distinct
    positions. *)
Definition selection (population l : list string) : Prop :=
  exists rest, Permutation (l ++ rest) population.

(** A drawn subset of the catalogue: [min(len(video_ids), k)] videos for
    some [k] in [1, 4]. *)
Definition watched_subset (video_ids watched : list string) : Prop :=
  selection video_ids watched /\
  exists k, 1 <= k <= 4 /\
    Z.of_nat (List.length watched) = Z.min (Z.of_nat (List.length video_ids)) k.

Definition session_ok (video_ids : list string) (s : session) : Prop :=
  (1 <= List.length (ss_chunks s) <= 10)%nat /\
  chunk_times (ss_start s) (ss_chunks s) /\
  Forall (chunk_ok (ss_watched s)) (ss_chunks s) /\
  (exists slack, 0 <= slack <= 60 /\
     ss_end s = ss_start s + (watch_seconds (ss_chunks s) + slack) * us_per_second) /\
  watched_subset video_ids (ss_watched s).

(** [f"s_{user_id}_{s:04d}"] *)
Definition session_id_of (user : string) (s : nat) : string :=
  ("s_" ++ user ++ "_" ++ fmt_0d 4 s)%string.

(** The sessions of one user from index [s] on, the first of them starting
    at [t]; consecutive sessions are 10 to 600 minutes apart. *)
Fixpoint sessions_from (user : string) (s : nat) (first_login_emitted : bool)
    (t : Z) (ss : list session) : Prop :=
  match ss with
  | [] => True
  | x :: ss' =>
      sf_user_id (ss_fields x) = user /\
      sf_session_id (ss_fields x) = session_id_of user s /\
      ss_login x = negb first_login_emitted /\
      ss_start x = t /\
      exists gap, 10 <= gap <= 600 /\
        sessions_from user (S s) true (ss_end x + gap * 60 * us_per_second) ss'
  end.

Definition block_ok (cfg : GeneratorConfig) (base_dt : Z) (video_ids : list string)
    (b : user_block) : Prop :=
  ub_sessions b <> [] /\
  Forall (session_ok video_ids) (ub_sessions b) /\
  exists h, 0 <= h <= days cfg * 24 /\
    sessions_from (ub_user b) 0 false (base_dt + h * 3600 * us_per_second) (ub_sessions b).

(** A log is well shaped when it is the rows of one block per user, in the
    order of the user ids. *)
Definition log_shape (cfg : GeneratorConfig) (base_dt : Z)
    (user_ids video_ids : list string) (log : list event) : Prop :=
  exists blocks,
    map ub_user blocks = user_ids /\
    Forall (block_ok cfg base_dt video_ids) blocks /\
    log = flat_map block_rows blocks.

(* ------------------------------------------------------------------ *)
(** ** Vocabulary of the properties of a log *)

Definition named (n : string) (e : event) : bool := String.eqb (event_name e) n.
Definition in_session (sid : string) (e : event) : bool := String.eqb (session_id e) sid.
Definition of_user (uid : string) (e : event) : bool := String.eqb (user_id e) uid.

(** watch_time, like and heart rows *)
Definition is_activity (e : event) : bool :=
  named "watch_time" e || named "like" e || named "heart" e.

Definition is_reaction (e : event) : bool :=
  named "like" e || named "heart" e.

Definition count (p : event -> bool) (log : list event) : nat :=
  List.length (filter p log).

(** The sum of the [value] fields, a null counting for nothing. *)
Definition sum_values (log : list event) : Z :=
  fold_right (fun e acc => match value e with Some v => v + acc | None => acc end) 0 log.

Definition occurs_session (sid : string) (log : list event) : Prop :=
  exists e, In e log /\ session_id e = sid.

Definition occurs_user (uid : string) (log : list event) : Prop :=
  exists e, In e log /\ user_id e = uid.

(** The window start, [base_dt], when it is representable. *)
Definition window_start (clk : clock) (cfg : GeneratorConfig) : Z :=
  utcnow_events clk - days cfg * us_per_day.

(** A process before [write_outputs] runs: the generators are in whatever
    state the interpreter left them in and no list exists yet. *)
Definition process (py : nat -> N) (py_pos : nat) (np : nat -> N) (np_pos : nat) : world :=
  mk_world py py_pos np np_pos [] [] [].

(** [f"u_{i:05d}"] and [f"v_{i:05d}"] *)
Definition user_id_of (i : nat) : string := ("u_" ++ fmt_0d 5 i)%string.
Definition video_id_of (i : nat) : string := ("v_" ++ fmt_0d 5 i)%string.

(** The character [c] does not occur in [s]. *)
Fixpoint free_of (c : ascii) (s : string) : Prop :=
  match s with
  | EmptyString => True
  | String a s' => a <> c /\ free_of c s'
  end.

(** The session id carried by the rows of a session. *)
Definition sid_of (s : session) : string := sf_session_id (ss_fields s).

(* ------------------------------------------------------------------ *)
(** ** The properties of a log *)

Local Open Scope string_scope.

(** Session bracketing: one session_start and one session_end per session
    id, the activity rows between them, in non-decreasing time order. *)
Definition session_bracketing (log : list event) : Prop :=
  forall sid, occurs_session sid log ->
    count (fun e => in_session sid e && named "session_start" e) log = 1%nat /\
    count (fun e => in_session sid e && named "session_end" e) log = 1%nat /\
    (forall es ee e, In es log -> In ee log -> In e log ->
       session_id es = sid -> event_name es = "session_start" ->
       session_id ee = sid -> event_name ee = "session_end" ->
       session_id e = sid -> is_activity e = true ->
       timestamp es <= timestamp e <= timestamp ee) /\
    StronglySorted Z.le
      (map timestamp (filter (fun e => in_session sid e && is_activity e) log)).

(** The same with the activity rows bounded by the session_start only. *)
Definition session_bracketing_from_start (log : list event) : Prop :=
  forall sid, occurs_session sid log ->
    count (fun e => in_session sid e && named "session_start" e) log = 1%nat /\
    count (fun e => in_session sid e && named "session_end" e) log = 1%nat /\
    (forall es e, In es log -> In e log ->
       session_id es = sid -> event_name es = "session_start" ->
       session_id e = sid -> is_activity e = true ->
       timestamp es < timestamp e) /\
    StronglySorted Z.le
      (map timestamp (filter (fun e => in_session sid e && is_activity e) log)).

(** The first session_start of every user is a whole number of hours
    after the window start, the number taken in [0, days*24) or in
    [0, days*24]. *)
Definition initial_cursor_half_open (cfg : GeneratorConfig) (base_dt : Z)
    (user_ids : list string) (log : list event) : Prop :=
  forall uid, In uid user_ids ->
    exists es, In es log /\ session_id es = session_id_of uid 0 /\
      event_name es = "session_start" /\
      exists h, 0 <= h < days cfg * 24 /\
        timestamp es = base_dt + h * 3600 * us_per_second.

Definition initial_cursor_closed (cfg : GeneratorConfig) (base_dt : Z)
    (user_ids : list string) (log : list event) : Prop :=
  forall uid, In uid user_ids ->
    (exists es, In es log /\ session_id es = session_id_of uid 0 /\
       event_name es = "session_start") /\
    forall es, In es log -> session_id es = session_id_of uid 0 ->
      event_name es = "session_start" ->
      exists h, 0 <= h <= days cfg * 24 /\
        timestamp es = base_dt + h * 3600 * us_per_second.

(** session_end = session_start + watched seconds + slack. *)
Definition session_end_law (log : list event) : Prop :=
  forall sid es ee, In es log -> In ee log ->
    session_id es = sid -> event_name es = "session_start" ->
    session_id ee = sid -> event_name ee = "session_end" ->
    (exists slack, 0 <= slack <= 60 /\
       timestamp ee =
       timestamp es +
       (sum_values (filter (fun e => in_session sid e && named "watch_time" e) log)
        + slack) * us_per_second) /\
    timestamp es <= timestamp ee.

(** One first_login per user, right before the user's first
    session_start and five minutes earlier. *)
Definition first_login_law (user_ids : list string) (log : list event) : Prop :=
  (forall uid, occurs_user uid log <-> In uid user_ids) /\
  forall uid, In uid user_ids ->
    count (fun e => of_user uid e && named "first_login" e) log = 1%nat /\
    exists l1 fl st l2,
      log = (l1 ++ fl :: st :: l2)%list /\
      user_id fl = uid /\ event_name fl = "first_login" /\
      user_id st = uid /\ event_name st = "session_start" /\
      (forall e, In e l1 -> user_id e <> uid) /\
      timestamp fl = timestamp st - 5 * 60 * us_per_second /\
      (forall e, In e log -> user_id e = uid -> event_name e = "session_start" ->
         timestamp st <= timestamp e).

(** The sessions of a user are in time order and do not overlap. *)
Definition session_order_law (log : list event) : Prop :=
  (forall uid k ee es, In ee log -> In es log ->
     session_id ee = session_id_of uid k -> event_name ee = "session_end" ->
     session_id es = session_id_of uid (S k) -> event_name es = "session_start" ->
     timestamp ee < timestamp es /\
     exists gap, 10 <= gap <= 600 /\
       timestamp es = timestamp ee + gap * 60 * us_per_second) /\
  (forall uid i j e1 e2, (i < j)%nat -> In e1 log -> In e2 log ->
     session_id e1 = session_id_of uid i -> event_name e1 = "session_start" ->
     session_id e2 = session_id_of uid j -> event_name e2 = "session_start" ->
     timestamp e1 < timestamp e2).

(** Which fields are null. *)
Definition null_discipline (log : list event) : Prop :=
  forall e, In e log ->
    (video_id e = None <->
     In (event_name e) ["first_login"; "session_start"; "session_end"]) /\
    (video_id e <> None <->
     In (event_name e) ["watch_time"; "like"; "heart"]) /\
    (value e <> None <-> event_name e = "watch_time").

(** Between one and ten watch_time rows per session. *)
Definition sessions_have_watch (log : list event) : Prop :=
  forall sid, occurs_session sid log ->
    (1 <= count (fun e => in_session sid e && named "watch_time" e) log <= 10)%nat.

(** A like or heart row comes right after a watch_time row of its
    session, one second later, with a video of the session's subset. *)
Definition reactions_follow_watch (video_ids : list string) (log : list event) : Prop :=
  forall l1 e l2, log = (l1 ++ e :: l2)%list -> is_reaction e = true ->
    (exists l0 wt, l1 = (l0 ++ [wt])%list /\
       event_name wt = "watch_time" /\
       session_id wt = session_id e /\
       timestamp e = timestamp wt + us_per_second) /\
    (exists watched, watched_subset video_ids watched /\
       forall a, In a log -> session_id a = session_id e -> is_activity a = true ->
         exists v, video_id a = Some v /\ In v watched).

Local Close Scope string_scope.

(** Every like or heart row of [l] comes right after a watch_time row of
    the same session, one second later. *)
Definition after_watch (l : list event) : Prop :=
  forall l1 e l2, l = l1 ++ e :: l2 -> is_reaction e = true ->
    exists l0 wt, l1 = l0 ++ [wt] /\
      event_name wt = "watch_time"%string /\
      session_id wt = session_id e /\
      timestamp e = timestamp wt + us_per_second.

(* ------------------------------------------------------------------ *)
(** ** Properties of a run *)

(** Two runs of one configuration give the same four tables, whatever the
    clock reads and whatever state the generators were in before. *)
Definition outputs_fixed_by_configuration : Prop :=
  forall sd cfg clk clk' py pu np nu py' pu' np' nu',
    fst (write_outputs sd clk cfg (process py pu np nu)) =
    fst (write_outputs sd clk' cfg (process py' pu' np' nu')).

(** A configuration with a non-positive count, or with no video id, is
    refused: the run raises, and no row of any table has been built. *)
Definition invalid_configuration_refused : Prop :=
  forall sd clk cfg py pu np nu,
    users cfg <= 0 \/ videos cfg <= 0 \/ days cfg <= 0 ->
    exists e w,
      write_outputs sd clk cfg (process py pu np nu) = (Raise e, w) /\
      w_users w = [] /\ w_videos w = [] /\ w_rows w = [].

(* ------------------------------------------------------------------ *)
(** ** Concrete runs *)

(** A stream of 53-bit draws from a linear congruential step. *)
Definition lcg_stream (salt s : Z) (n : nat) : Z :=
  ((s + salt + Z.of_nat n) * 6364136223846793005 + 1442695040888963407)
    mod 2 ^ 64 / 2 ^ 11.

Definition demo_seeding : seeding :=
  mk_seeding (fun s n => Z.to_N (lcg_stream 2 s n))
             (fun s n => Z.to_N (lcg_stream 3 s n mod 7)).

(** Both generators stuck on one value: every [randint(a, b)] yields
    [a + 49 mod (b - a + 1)], every numpy draw yields 0. *)
Definition stuck_seeding : seeding :=
  mk_seeding (fun _ _ => 49%N) (fun _ _ => 0%N).

(** 2024-01-01T12:00:00 and one second later. *)
Definition demo_clock : clock :=
  mk_clock (738885 * us_per_day + 43200 * us_per_second)
           (738885 * us_per_day + 43201 * us_per_second).

(** The same readings one day later. *)
Definition next_day_clock : clock :=
  mk_clock (utcnow_users demo_clock + us_per_day)
           (utcnow_events demo_clock + us_per_day).

Definition demo_process : world := process (fun _ => 0%N) 0 (fun _ => 0%N) 0.

Definition demo_config : GeneratorConfig := mk_config "data"%string 1 2 3 42.

(** One user, one video, one day. *)
Definition small_config : GeneratorConfig := mk_config "data"%string 1 1 1 42.

(** No user at all, otherwise the defaults of the command line. *)
Definition no_user_config : GeneratorConfig := mk_config "data"%string 7 0 80 42.

(** One user and an empty catalogue. *)
Definition no_video_config : GeneratorConfig := mk_config "data"%string 1 1 0 42.

Definition no_outputs : outputs := mk_outputs [] [] [] [].

(** The outputs of a run, nothing when it raises. *)
Definition outputs_of (r : result outputs * world) : outputs :=
  match fst r with
  | Ok out => out
  | Raise _ => no_outputs
  end.

Abbreviation demo_run :=
  (write_outputs demo_seeding demo_clock demo_config demo_process).

Definition demo_outputs : outputs := outputs_of demo_run.

Abbreviation stuck_run :=
  (write_outputs stuck_seeding demo_clock small_config demo_process).

Definition stuck_outputs : outputs := outputs_of stuck_run.

(** The row at position [n] of a log. *)
Definition null_row : event :=
  mk_event 0 "" "" None "" "" None "" "" "" "" "" "".

Definition row_at (n : nat) (log : list event) : event := nth n log null_row.

(** The signup date in the first row of users.csv, 0 when there is none. *)
Definition first_signup_date (r : result outputs) : Z :=
  match r with
  | Ok out =>
      match users_csv out with
      | u :: _ => u_signup_date u
      | [] => 0
      end
  | Raise _ => 0
  end.

(* ------------------------------------------------------------------ *)
(** ** The rows of the reference tables *)

Local Open Scope Z_scope.
Local Open Scope list_scope.

(** Row [i] of users.csv, [today] being the date of the clock reading. *)
Definition user_row_ok (cfg : GeneratorConfig) (today : Z) (i : nat) (r : user_row) : Prop :=
  u_user_id r = user_id_of i /\
  (exists k, 1 <= k <= days cfg + 7 /\ u_signup_date r = today - k) /\
  In (u_subscription_tier r) ["free"; "basic"; "premium"]%string /\
  In (u_age_group r) ["18-24"; "25-34"; "35-44"; "45-54"; "55+"]%string /\
  In (u_gender r) ["female"; "male"; "other"; "prefer_not_to_say"]%string.

(** Row [i] of videos.csv. *)
Definition video_row_ok (i : nat) (r : video_row) : Prop :=
  v_video_id r = video_id_of i /\
  v_title r = ("Video " ++ str (Z.of_nat i))%string /\
  In (v_genre r) genres /\
  30 <= v_duration_seconds r <= 3600 /\
  exists p, 1000 <= p <= 9999 /\ v_patent_id r = ("pat_" ++ str p)%string.

(** The three value lists of [generate_devices]. *)
Definition device_models : list string := ["A1"; "A2"; "B1"; "B2"; "C1"]%string.
Definition os_versions : list string :=
  ["iOS 16"; "Android 13"; "Windows 11"; "macOS 14"]%string.

(* ------------------------------------------------------------------ *)
(** ** More properties of a log *)

(** The session-scoped fields of a row. *)
Definition fields_of (e : event) : session_fields :=
  mk_session_fields (account_id e) (user_id e) (session_id e) (device e)
                    (device_os e) (app_version e) (network_type e) (ip e) (country e).

(** Every session id is [s_<user id>_<index>] and no two sessions share
    one. *)
Definition session_ids_unique (log : list event) : Prop :=
  NoDup (map session_id (filter (named "session_start") log)) /\
  forall e, In e log -> exists k, session_id e = session_id_of (user_id e) k.

Definition watch_values_positive (log : list event) : Prop :=
  forall e, In e log -> event_name e = "watch_time"%string ->
    exists v, value e = Some v /\ 1 <= v.

(** The rows of one session agree on every session-scoped field. *)
Definition session_fields_constant (log : list event) : Prop :=
  forall e1 e2, In e1 log -> In e2 log ->
    session_id e1 = session_id e2 -> fields_of e1 = fields_of e2.

(** Every user id and every video id of the log is in the tables. *)
Definition references_resolve (user_ids video_ids : list string)
    (log : list event) : Prop :=
  forall e, In e log ->
    In (user_id e) user_ids /\
    forall v, video_id e = Some v -> In v video_ids.

(** A session refers to at most four distinct videos. *)
Definition few_videos_per_session (video_ids : list string) (log : list event) : Prop :=
  forall sid, occurs_session sid log ->
    exists watched,
      NoDup watched /\ (List.length watched <= 4)%nat /\
      incl watched video_ids /\
      forall e v, In e log -> session_id e = sid -> video_id e = Some v ->
        In v watched.

(** The log is one non-empty run of rows per user, in the order of the
    users. *)
Definition grouped_by_user (user_ids : list string) (log : list event) : Prop :=
  exists segments,
    log = List.concat segments /\
    Forall2 (fun uid seg => seg <> [] /\ forall e, In e seg -> user_id e = uid)
            user_ids segments.

(** No session has more like and heart rows than watch_time rows. *)
Definition reactions_at_most_watches (log : list event) : Prop :=
  forall sid,
    (count (fun e => in_session sid e && is_reaction e) log
     <= count (fun e => in_session sid e && named "watch_time" e) log)%nat.

(** Every timestamp is a whole number of seconds from [base_dt], and not
    more than 300 seconds before it. *)
Definition on_grid (base_dt lo t : Z) : Prop :=
  exists n, lo <= n /\ t = base_dt + n * us_per_second.

Definition timestamps_on_grid (base_dt : Z) (log : list event) : Prop :=
  forall e, In e log -> on_grid base_dt (-300) (timestamp e).

(** A watch_time row comes at most 500 seconds after the session_start of
    its session, a like or heart row at most 501 seconds after it. *)
Definition activity_soon_after_start (log : list event) : Prop :=
  forall es e, In es log -> In e log ->
    session_id e = session_id es -> event_name es = "session_start"%string ->
    is_activity e = true ->
    timestamp e <= timestamp es + 501 * us_per_second /\
    (event_name e = "watch_time"%string ->
     timestamp e <= timestamp es + 500 * us_per_second).

(** The session-scoped fields are taken from the fixed lists, and the ip
    is [10.a.b.c] with [a], [b] in [0, 255] and [c] in [1, 254]. *)
Definition fields_ok (sf : session_fields) : Prop :=
  In (sf_account_id sf) accounts /\
  In (sf_device sf) device_types /\
  In (sf_device_os sf) device_os_options /\
  In (sf_app_version sf) app_versions /\
  In (sf_network_type sf) network_types /\
  In (sf_country sf) countries /\
  exists a b c,
    0 <= a <= 255 /\ 0 <= b <= 255 /\ 1 <= c <= 254 /\
    sf_ip sf = ("10." ++ str a ++ "." ++ str b ++ "." ++ str c)%string.

Definition row_fields_ok (log : list event) : Prop :=
  forall e, In e log -> fields_ok (fields_of e).

(* ------------------------------------------------------------------ *)
(** ** Vocabulary of the failures of a run *)

(** The exception of a result, if any. *)
Definition raised {A} (r : result A) : option exn :=
  match r with
  | Ok _ => None
  | Raise e => Some e
  end.

(** A computation that never raises [e], and one that moreover leaves
    [rows] alone. *)
Definition never (e : exn) {A} (m : M A) : Prop :=
  forall w r w', m w = (r, w') -> raised r <> Some e.

Definition quiet (e : exn) {A} (m : M A) : Prop :=
  forall w r w', m w = (r, w') ->
    w_rows w' = w_rows w /\ raised r <> Some e.

(** The outcome of a computation that stops on an exception, and on
    IndexError only when [rows] is [rows0] followed by a first_login and a
    session_start row. *)
Definition stops_after (rows0 : list event) {A} (r : result A)
    (rows1 : list event) : Prop :=
  exists e, raised r = Some e /\
    (e = IndexError ->
     exists e1 e2,
       rows1 = rows0 ++ [e1; e2] /\
       event_name e1 = "first_login"%string /\
       event_name e2 = "session_start"%string).

(** [days] far beyond what a timedelta can hold. *)
Definition far_config : GeneratorConfig := mk_config "data"%string 1000000000 1 1 42.

Abbreviation far_run :=
  (write_outputs demo_seeding demo_clock far_config demo_process).

Abbreviation no_video_run :=
  (write_outputs demo_seeding demo_clock no_video_config demo_process).

Abbreviation no_user_run :=
  (write_outputs demo_seeding demo_clock no_user_config demo_process).

(** A window of minus ten days. *)
Definition negative_days_config : GeneratorConfig := mk_config "data"%string (-10) 1 1 42.

Abbreviation negative_days_run :=
  (write_outputs demo_seeding demo_clock negative_days_config demo_process).

(* ------------------------------------------------------------------ *)
(** ** Vocabulary of the completion of a run *)

(** The first datetime that cannot be represented. *)
Definition DATETIME_END : Z := MAX_ORDINAL * us_per_day.

(** [m] returns from [w], with a value that satisfies [Q], and leaves the
    stream of numpy alone. *)
Definition returns {A} (m : M A) (w : world) (Q : A -> Prop) : Prop :=
  exists a w', m w = (Ok a, w') /\ np_draws w' = np_draws w /\ Q a.

(** Every draw of numpy is at most [B]. *)
Definition np_bounded (B : Z) (w : world) : Prop :=
  forall n, Z.of_N (np_draws w n) <= B.

(** The longest a session can last, gap included, in seconds: ten watch
    values, the slack and ten hours. *)
Definition session_span (B : Z) : Z := 10 * (B + 1) + 60 + 36000.

(* ------------------------------------------------------------------ *)
(** ** Vocabulary of the dependence on the clock *)

(** A row of users.csv with its signup date moved by [d] days, and a row
    of events.jsonl with its timestamp moved by [d] microseconds. *)
Definition shift_signup (d : Z) (r : user_row) : user_row :=
  mk_user_row (u_user_id r) (u_signup_date r + d) (u_subscription_tier r)
              (u_age_group r) (u_gender r).

Definition shift_timestamp (d : Z) (e : event) : event :=
  mk_event (timestamp e + d) (account_id e) (user_id e) (video_id e) (session_id e)
           (event_name e) (value e) (device e) (device_os e) (app_version e)
           (network_type e) (ip e) (country e).

(** [t'] is [t], [d] later. *)
Definition later (d : Z) (t t' : Z) : Prop := t' = t + d.

(** The loop-carried variables of the chunk loop and of the session loop,
    the time [d] later. *)
Definition later_state {S} (d : Z) (st st' : Z * S) : Prop :=
  st' = (fst st + d, snd st).

(** Two worlds with the generators in the same state and the same
    [videos], the signup dates of [users] [ddate] days apart and the
    timestamps of [rows] [dtime] microseconds apart. *)
Definition same_up_to_clock (ddate dtime : Z) (w w' : world) : Prop :=
  py_draws w' = py_draws w /\ py_used w' = py_used w /\
  np_draws w' = np_draws w /\ np_used w' = np_used w /\
  w_users w' = map (shift_signup ddate) (w_users w) /\
  w_videos w' = w_videos w /\
  w_rows w' = map (shift_timestamp dtime) (w_rows w).

(** When [m] and [m'] both return, from worlds that are the same up to
    the clock, their values are related by [R] and so are the worlds they
    leave. *)
Definition sim (ddate dtime : Z) {A} (R : A -> A -> Prop) (m m' : M A) : Prop :=
  forall w w' a w1 a' w1',
    same_up_to_clock ddate dtime w w' ->
    m w = (Ok a, w1) -> m' w' = (Ok a', w1') ->
    R a a' /\ same_up_to_clock ddate dtime w1 w1'.

(** The outputs of two runs that differ by the clock only. *)
Definition outputs_up_to_clock (ddate dtime : Z) (out out' : outputs) : Prop :=
  users_csv out' = map (shift_signup ddate) (users_csv out) /\
  videos_csv out' = videos_csv out /\
  devices_csv out' = devices_csv out /\
  events_jsonl out' = map (shift_timestamp dtime) (events_jsonl out).

Abbreviation next_day_run :=
  (write_outputs demo_seeding next_day_clock demo_config demo_process).

Definition next_day_outputs : outputs := outputs_of next_day_run.

(* ------------------------------------------------------------------ *)
(** ** Reasoning about computations *)

Local Open Scope Z_scope.
Local Open Scope list_scope.

Lemma bind_Ok {A B} (m : M A) (f : A -> M B) w b w' :
  bind m f w = (Ok b, w') ->
  exists a w1, m w = (Ok a, w1) /\ f a w1 = (Ok b, w').
Proof.
  unfold bind. destruct (m w) as [[a | e] w1]; intros H.
  - exists a, w1. split; [reflexivity | exact H].
  - discriminate H.
Qed.

Lemma bind_Raise {A B} (m : M A) (f : A -> M B) w e w' :
  bind m f w = (Raise e, w') ->
  m w = (Raise e, w') \/
  exists a w1, m w = (Ok a, w1) /\ f a w1 = (Raise e, w').
Proof.
  unfold bind. destruct (m w) as [[a | e1] w1]; intros H.
  - right. exists a, w1. split; [reflexivity | exact H].
  - left. inversion H. reflexivity.
Qed.

Lemma pair_of_fst {A B} (p : A * B) (a : A) : fst p = a -> p = (a, snd p).
Proof. destruct p as [x y]. simpl. intros ->. reflexivity. Qed.

Lemma bind_step {A B} (m : M A) (f : A -> M B) w a w1 :
  m w = (Ok a, w1) -> bind m f w = f a w1.
Proof. unfold bind. intros ->. reflexivity. Qed.

Lemma for_each_nil {A S} (body : A -> S -> M S) s :
  for_each body [] s = ret s.
Proof. reflexivity. Qed.

Lemma for_each_cons {A S} (body : A -> S -> M S) x xs s :
  for_each body (x :: xs) s = bind (body x s) (fun s' => for_each body xs s').
Proof. reflexivity. Qed.

(** The lists are untouched. *)
Definition same_lists (w w' : world) : Prop :=
  w_users w' = w_users w /\ w_videos w' = w_videos w /\ w_rows w' = w_rows w.

Lemma same_lists_refl w : same_lists w w.
Proof. repeat split. Qed.

Lemma same_lists_trans w1 w2 w3 :
  same_lists w1 w2 -> same_lists w2 w3 -> same_lists w1 w3.
Proof.
  intros (a & b & c) (a' & b' & c'). repeat split; congruence.
Qed.

Lemma ret_Ok {A} (a b : A) w w' : ret a w = (Ok b, w') -> b = a /\ w' = w.
Proof. unfold ret. intros H. inversion H. split; reflexivity. Qed.

Lemma lift_Ok {A} (r : result A) a w w' :
  lift r w = (Ok a, w') -> r = Ok a /\ w' = w.
Proof. unfold lift. intros H. inversion H. split; reflexivity. Qed.

Lemma py_next_Ok r w w' : py_next w = (Ok r, w') -> same_lists w w'.
Proof. unfold py_next. intros H. inversion H. repeat split. Qed.

Lemma np_next_Ok r w w' : np_next w = (Ok r, w') -> same_lists w w'.
Proof. unfold np_next. intros H. inversion H. repeat split. Qed.

Lemma randbelow_Ok n r w w' :
  0 < n -> randbelow n w = (Ok r, w') -> 0 <= r < n /\ same_lists w w'.
Proof.
  intros Hn H. unfold randbelow in H.
  apply bind_Ok in H. destruct H as (x & w1 & H1 & H).
  apply ret_Ok in H. destruct H as [-> ->].
  split; [apply Z.mod_pos_bound; exact Hn | eapply py_next_Ok; exact H1].
Qed.

Lemma randbelow_same_lists n r w w' :
  randbelow n w = (Ok r, w') -> same_lists w w'.
Proof.
  intros H. unfold randbelow in H.
  apply bind_Ok in H. destruct H as (x & w1 & H1 & H).
  apply ret_Ok in H. destruct H as [_ ->].
  eapply py_next_Ok; exact H1.
Qed.

Lemma randint_Ok a b r w w' :
  randint a b w = (Ok r, w') -> a <= r <= b /\ same_lists w w'.
Proof.
  unfold randint. destruct (b <? a) eqn:E; [discriminate |].
  apply Z.ltb_ge in E. intros H.
  apply bind_Ok in H. destruct H as (x & w1 & H1 & H).
  apply ret_Ok in H. destruct H as [-> ->].
  apply randbelow_Ok in H1; [| lia]. destruct H1 as [Hx Hs].
  split; [lia | exact Hs].
Qed.

Lemma choice_Ok {A} (xs : list A) x w w' :
  choice xs w = (Ok x, w') -> In x xs /\ same_lists w w'.
Proof.
  unfold choice. destruct xs as [| y ys]; [discriminate |].
  intros H. apply bind_Ok in H. destruct H as (i & w1 & H1 & H).
  apply randbelow_Ok in H1; [| simpl List.length; lia].
  destruct H1 as [_ Hs].
  destruct (nth_error (y :: ys) (Z.to_nat i)) as [z |] eqn:E; [| discriminate].
  apply ret_Ok in H. destruct H as [-> ->].
  split; [eapply nth_error_In; exact E | exact Hs].
Qed.

Lemma random_random_Ok r w w' :
  random_random w = (Ok r, w') -> 0 <= r < 2 ^ 53 /\ same_lists w w'.
Proof.
  unfold random_random. intros H.
  apply bind_Ok in H. destruct H as (x & w1 & H1 & H).
  apply ret_Ok in H. destruct H as [-> ->].
  split; [apply Z.mod_pos_bound; reflexivity | eapply py_next_Ok; exact H1].
Qed.

Lemma np_random_poisson_Ok r w w' :
  np_random_poisson w = (Ok r, w') -> 0 <= r /\ same_lists w w'.
Proof.
  unfold np_random_poisson. intros H.
  apply bind_Ok in H. destruct H as (x & w1 & H1 & H).
  apply ret_Ok in H. destruct H as [-> ->].
  split; [apply N2Z.is_nonneg | eapply np_next_Ok; exact H1].
Qed.

Lemma int_np_random_exponential_Ok r w w' :
  int_np_random_exponential w = (Ok r, w') -> 0 <= r /\ same_lists w w'.
Proof.
  unfold int_np_random_exponential. intros H.
  apply bind_Ok in H. destruct H as (x & w1 & H1 & H).
  apply ret_Ok in H. destruct H as [-> ->].
  split; [apply N2Z.is_nonneg | eapply np_next_Ok; exact H1].
Qed.

Lemma timedelta_us_Ok us td : timedelta_us us = Ok td -> td = us.
Proof.
  unfold timedelta_us.
  destruct ((- MAX_DELTA_DAYS <=? us / us_per_day) && (us / us_per_day <=? MAX_DELTA_DAYS));
    intros H; inversion H; reflexivity.
Qed.

Lemma datetime_add_Ok dt td r : datetime_add dt td = Ok r -> r = dt + td.
Proof.
  unfold datetime_add.
  destruct ((0 <=? dt + td) && (dt + td <? MAX_ORDINAL * us_per_day));
    intros H; inversion H; reflexivity.
Qed.

Lemma datetime_sub_Ok dt td r : datetime_sub dt td = Ok r -> r = dt - td.
Proof.
  unfold datetime_sub. intros H. apply datetime_add_Ok in H. lia.
Qed.

Lemma rows_append_Ok e u w w' :
  rows_append e w = (Ok u, w') -> w_rows w' = w_rows w ++ [e].
Proof. unfold rows_append, set_rows. intros H. inversion H. reflexivity. Qed.

Lemma users_append_Ok r u w w' :
  users_append r w = (Ok u, w') -> w_users w' = w_users w ++ [r].
Proof. unfold users_append, set_users. intros H. inversion H. reflexivity. Qed.

Lemma videos_append_Ok r u w w' :
  videos_append r w = (Ok u, w') -> w_videos w' = w_videos w ++ [r].
Proof. unfold videos_append, set_videos. intros H. inversion H. reflexivity. Qed.

(** One step of symbolic execution of a successful computation: split the
    leading bind of [H] and name the intermediate value and world. *)
Ltac bind_inv H a w1 H1 :=
  apply bind_Ok in H; destruct H as (a & w1 & H1 & H).

(* ------------------------------------------------------------------ *)
(** ** What a successful pass of each loop emits *)

Lemma lift_timedelta_Ok (f : Z -> result Z) (unit n td : Z) w w' :
  (forall x, f x = timedelta_us (x * unit)) ->
  lift (f n) w = (Ok td, w') -> td = n * unit /\ w' = w.
Proof.
  intros Hf H. apply lift_Ok in H. destruct H as [H ->].
  rewrite Hf in H. apply timedelta_us_Ok in H. split; [exact H | reflexivity].
Qed.

Lemma lift_seconds_Ok n td w w' :
  lift (timedelta_seconds n) w = (Ok td, w') -> td = n * us_per_second /\ w' = w.
Proof. apply lift_timedelta_Ok. reflexivity. Qed.

Lemma lift_minutes_Ok n td w w' :
  lift (timedelta_minutes n) w = (Ok td, w') -> td = n * (60 * us_per_second) /\ w' = w.
Proof.
  apply lift_timedelta_Ok. intros x. unfold timedelta_minutes. f_equal. lia.
Qed.

Lemma lift_hours_Ok n td w w' :
  lift (timedelta_hours n) w = (Ok td, w') -> td = n * (3600 * us_per_second) /\ w' = w.
Proof.
  apply lift_timedelta_Ok. intros x. unfold timedelta_hours. f_equal. lia.
Qed.

Lemma lift_days_Ok n td w w' :
  lift (timedelta_days n) w = (Ok td, w') -> td = n * us_per_day /\ w' = w.
Proof. apply lift_timedelta_Ok. reflexivity. Qed.

Lemma lift_datetime_add_Ok dt td r w w' :
  lift (datetime_add dt td) w = (Ok r, w') -> r = dt + td /\ w' = w.
Proof.
  intros H. apply lift_Ok in H. destruct H as [H ->].
  apply datetime_add_Ok in H. split; [exact H | reflexivity].
Qed.

Lemma lift_datetime_sub_Ok dt td r w w' :
  lift (datetime_sub dt td) w = (Ok r, w') -> r = dt - td /\ w' = w.
Proof.
  intros H. apply lift_Ok in H. destruct H as [H ->].
  apply datetime_sub_Ok in H. split; [exact H | reflexivity].
Qed.

(** Inversion of one primitive step [H : op w = (Ok a, w')]. *)
Ltac op_inv H :=
  first
    [ apply randint_Ok in H
    | apply choice_Ok in H
    | apply random_random_Ok in H
    | apply np_random_poisson_Ok in H
    | apply int_np_random_exponential_Ok in H
    | apply lift_seconds_Ok in H
    | apply lift_minutes_Ok in H
    | apply lift_hours_Ok in H
    | apply lift_days_Ok in H
    | apply lift_datetime_add_Ok in H
    | apply lift_datetime_sub_Ok in H
    | apply rows_append_Ok in H
    | apply ret_Ok in H ].

(** Split every bind of [H] and invert every primitive step. *)
Ltac run_inv H :=
  repeat
    (let a := fresh "a" in
     let w1 := fresh "w" in
     let H1 := fresh "S" in
     bind_inv H a w1 H1; try op_inv H1);
  try op_inv H.

(** Collapse the frame conditions collected by [run_inv]. *)
Ltac frames :=
  repeat match goal with
         | H : same_lists _ _ |- _ => destruct H as (_ & _ & H)
         | H : _ /\ same_lists _ _ |- _ => destruct H as [? H]
         | H : _ /\ ?w' = ?w |- _ => destruct H as [? H]
         end;
  subst.

Lemma chunk_body_Ok sf watched i t sws t' sws' w w' :
  chunk_body sf watched i (t, sws) w = (Ok (t', sws'), w') ->
  exists c,
    chunk_ok watched c /\
    (exists d, 1 <= d <= 50 /\ ck_time c = t + d * us_per_second) /\
    t' = ck_time c /\
    sws' = sws + ck_value c /\
    w_rows w' = w_rows w ++ chunk_rows sf c.
Proof.
  unfold chunk_body. intros H.
  bind_inv H d w1 S1. op_inv S1. destruct S1 as [Hd S1].
  bind_inv H td w2 S2. op_inv S2. destruct S2 as [-> ->].
  bind_inv H t1 w3 S3. op_inv S3. destruct S3 as [-> ->].
  bind_inv H x w4 S4. op_inv S4. destruct S4 as [Hx S4].
  bind_inv H vid w5 S5. op_inv S5. destruct S5 as [Hvid S5].
  bind_inv H u1 w6 S6. op_inv S6.
  bind_inv H r w7 S7. op_inv S7. destruct S7 as [_ S7].
  bind_inv H u2 w8 S8.
  apply ret_Ok in H. destruct H as [H ->]. inversion H; subst t' sws'; clear H.
  frames.
  destruct (lt_0_12 r).
  - bind_inv S8 td1 v1 T1. op_inv T1. destruct T1 as [-> ->].
    bind_inv S8 ts v2 T2. op_inv T2. destruct T2 as [-> ->].
    bind_inv S8 vid2 v3 T3. op_inv T3. destruct T3 as [Hvid2 T3].
    bind_inv S8 name v4 T4. op_inv T4. destruct T4 as [Hname T4].
    op_inv S8. frames.
    exists (mk_chunk (t + d * us_per_second) (x + 1) vid (Some (vid2, name))).
    unfold chunk_ok, chunk_rows, reaction_rows, watch_row. simpl.
    split; [| split; [| split; [| split]]].
    + split; [lia |]. split; [assumption |].
      intros v n E. inversion E; subst v n. split; [assumption |].
      simpl in Hname. intuition congruence.
    + exists d. split; [assumption | reflexivity].
    + reflexivity.
    + reflexivity.
    + rewrite S8, T4, T3, S7, S6, S5, S4, S1, Z.mul_1_l.
      rewrite <- app_assoc. reflexivity.
  - apply ret_Ok in S8. destruct S8 as [_ ->].
    exists (mk_chunk (t + d * us_per_second) (x + 1) vid None).
    unfold chunk_ok, chunk_rows, reaction_rows, watch_row. simpl.
    split; [| split; [| split; [| split]]].
    + split; [lia |]. split; [assumption |]. intros v n E. discriminate E.
    + exists d. split; [assumption | reflexivity].
    + reflexivity.
    + reflexivity.
    + rewrite S7, S6, S5, S4, S1. reflexivity.
Qed.

Lemma chunk_loop_Ok sf watched xs :
  forall t sws t' sws' w w',
    for_each (chunk_body sf watched) xs (t, sws) w = (Ok (t', sws'), w') ->
    exists cs,
      List.length cs = List.length xs /\
      Forall (chunk_ok watched) cs /\
      chunk_times t cs /\
      sws' = sws + watch_seconds cs /\
      w_rows w' = w_rows w ++ flat_map (chunk_rows sf) cs.
Proof.
  induction xs as [| i xs IH]; intros t sws t' sws' w w' H.
  - rewrite for_each_nil in H.
    apply ret_Ok in H. destruct H as [H ->]. inversion H; subst.
    exists []. simpl. rewrite app_nil_r.
    repeat split; [constructor | lia].
  - rewrite for_each_cons in H.
    bind_inv H st w1 S1. destruct st as [t1 sws1].
    apply chunk_body_Ok in S1.
    destruct S1 as (c & Hc & Hd & -> & -> & Hrows).
    apply IH in H. destruct H as (cs & Hlen & Hall & Htimes & -> & Hrows').
    exists (c :: cs). simpl.
    split; [congruence |].
    split; [constructor; assumption |].
    split; [split; assumption |].
    split; [lia |].
    rewrite Hrows', Hrows, <- app_assoc. reflexivity.
Qed.

Lemma remove_at_Permutation {A} (xs : list A) j x :
  nth_error xs j = Some x -> Permutation (x :: remove_at j xs) xs.
Proof.
  intros H. apply nth_error_split in H. destruct H as (l1 & l2 & -> & <-).
  unfold remove_at.
  rewrite firstn_app, firstn_all, Nat.sub_diag, firstn_O, app_nil_r.
  replace (S (List.length l1)) with (List.length l1 + 1)%nat by lia.
  rewrite skipn_app, skipn_all2 by lia.
  replace (List.length l1 + 1 - List.length l1)%nat with 1%nat by lia.
  simpl. apply Permutation_middle.
Qed.

Lemma sample_loop_Ok {A} k :
  forall (pool l : list A) w w',
    sample_loop k pool w = (Ok l, w') ->
    List.length l = k /\
    (exists rest, Permutation (l ++ rest) pool) /\
    same_lists w w'.
Proof.
  induction k as [| k IH]; intros pool l w w' H; simpl in H.
  - apply ret_Ok in H. destruct H as [-> ->].
    split; [reflexivity |]. split; [| apply same_lists_refl].
    exists pool. apply Permutation_refl.
  - bind_inv H j w1 S1.
    apply randbelow_same_lists in S1. rename S1 into Hs.
    destruct (nth_error pool (Z.to_nat j)) as [x |] eqn:E; [| discriminate H].
    bind_inv H rest w2 S2.
    apply ret_Ok in H. destruct H as [-> ->].
    apply IH in S2. destruct S2 as (Hlen & (others & Hperm) & Hs').
    split; [simpl; congruence |].
    split; [| eapply same_lists_trans; eassumption].
    exists others. simpl.
    eapply Permutation_trans; [| apply remove_at_Permutation; exact E].
    constructor. exact Hperm.
Qed.

Lemma sample_Ok (population l : list string) k w w' :
  sample population k w = (Ok l, w') ->
  0 <= k /\ Z.of_nat (List.length l) = k /\
  selection population l /\ same_lists w w'.
Proof.
  unfold sample.
  destruct ((k <? 0) || (Z.of_nat (List.length population) <? k)) eqn:E;
    [discriminate |].
  apply orb_false_iff in E. destruct E as [E1 E2].
  apply Z.ltb_ge in E1. intros H.
  apply sample_loop_Ok in H. destruct H as (Hlen & Hsel & Hs).
  split; [exact E1 |]. split; [lia |]. split; [exact Hsel | exact Hs].
Qed.

Lemma range_length n : List.length (range n) = Z.to_nat n.
Proof. unfold range. apply length_seq. Qed.

Lemma session_body_Ok video_ids user s t fl t' fl' w w' :
  session_body video_ids user s (t, fl) w = (Ok (t', fl'), w') ->
  exists x,
    sf_user_id (ss_fields x) = user /\
    sf_session_id (ss_fields x) = session_id_of user s /\
    ss_login x = negb fl /\
    ss_start x = t /\
    session_ok video_ids x /\
    fl' = true /\
    (exists gap, 10 <= gap <= 600 /\ t' = ss_end x + gap * 60 * us_per_second) /\
    w_rows w' = w_rows w ++ session_rows x.
Proof.
  unfold session_body. intros H.
  bind_inv H acct w1 S1. op_inv S1. destruct S1 as [_ S1].
  bind_inv H dev w2 S2. op_inv S2. destruct S2 as [_ S2].
  bind_inv H dev_os w3 S3. op_inv S3. destruct S3 as [_ S3].
  bind_inv H app_v w4 S4. op_inv S4. destruct S4 as [_ S4].
  bind_inv H net w5 S5. op_inv S5. destruct S5 as [_ S5].
  bind_inv H ip1 w6 S6. op_inv S6. destruct S6 as [_ S6].
  bind_inv H ip2 w7 S7. op_inv S7. destruct S7 as [_ S7].
  bind_inv H ip3 w8 S8. op_inv S8. destruct S8 as [_ S8].
  bind_inv H ctry w9 S9. op_inv S9. destruct S9 as [_ S9].
  match type of H with
  | context [row ?f _ None "session_start" None] => set (sf := f) in *
  end.
  bind_inv H u1 w10 L.
  bind_inv H u2 w11 S11. op_inv S11.
  bind_inv H num_chunks w12 S12. op_inv S12. destruct S12 as [Hn S12].
  bind_inv H k w13 S13. op_inv S13. destruct S13 as [Hk S13].
  bind_inv H watched w14 S14. apply sample_Ok in S14.
  destruct S14 as (_ & Hwlen & Hsel & S14).
  bind_inv H st w15 C. destruct st as [tc sws].
  apply chunk_loop_Ok in C.
  destruct C as (cs & Hlen & Hall & Htimes & Hsws & Hrows).
  rewrite range_length in Hlen. simpl in Hsws.
  bind_inv H slack w16 S16. op_inv S16. destruct S16 as [Hslack S16].
  bind_inv H td w17 S17. op_inv S17. destruct S17 as [-> ->].
  bind_inv H end_time w18 S18. op_inv S18. destruct S18 as [-> ->].
  bind_inv H u3 w19 S19. op_inv S19.
  bind_inv H gap w20 S20. op_inv S20. destruct S20 as [Hgap S20].
  bind_inv H td2 w21 S21. op_inv S21. destruct S21 as [-> ->].
  bind_inv H t2 w22 S22. op_inv S22. destruct S22 as [-> ->].
  apply ret_Ok in H. destruct H as [H ->]. inversion H; subst t' fl'; clear H.
  frames.
  exists (mk_session sf (negb fl) t watched cs
            (t + (watch_seconds cs + slack) * us_per_second)).
  simpl.
  split; [reflexivity |]. split; [reflexivity |]. split; [reflexivity |].
  split; [reflexivity |].
  split.
  { unfold session_ok. simpl.
    split; [lia |]. split; [exact Htimes |]. split; [exact Hall |].
    split; [exists slack; split; [exact Hslack | reflexivity] |].
    split; [exact Hsel |]. exists k. split; [exact Hk | exact Hwlen]. }
  split; [reflexivity |].
  split; [exists gap; split; [exact Hgap | lia] |].
  unfold session_rows. simpl.
  rewrite S20, S19, S16, Hrows, S14, S13, S12, S11.
  assert (HL : w_rows w10 =
               w_rows w ++
               (if negb fl
                then [row sf (t - 5 * 60 * us_per_second) None "first_login" None]
                else [])).
  { destruct (negb fl).
    - bind_inv L td5 v1 T1. op_inv T1. destruct T1 as [-> ->].
      bind_inv L ts v2 T2. op_inv T2. destruct T2 as [-> ->].
      op_inv L. rewrite L, S9, S8, S7, S6, S5, S4, S3, S2, S1.
      replace (5 * (60 * us_per_second)) with (5 * 60 * us_per_second) by lia.
      reflexivity.
    - apply ret_Ok in L. destruct L as [_ ->].
      rewrite S9, S8, S7, S6, S5, S4, S3, S2, S1, app_nil_r. reflexivity. }
  rewrite HL. rewrite <- !app_assoc. simpl. reflexivity.
Qed.

Lemma session_loop_Ok video_ids user n :
  forall s t fl t' fl' w w',
    for_each (session_body video_ids user) (seq s n) (t, fl) w = (Ok (t', fl'), w') ->
    exists ss,
      List.length ss = n /\
      Forall (session_ok video_ids) ss /\
      sessions_from user s fl t ss /\
      w_rows w' = w_rows w ++ flat_map session_rows ss.
Proof.
  induction n as [| n IH]; intros s t fl t' fl' w w' H.
  - simpl seq in H. rewrite for_each_nil in H.
    apply ret_Ok in H. destruct H as [_ ->].
    exists []. simpl. rewrite app_nil_r.
    repeat split. constructor.
  - simpl seq in H. rewrite for_each_cons in H.
    bind_inv H st w1 S1. destruct st as [t1 fl1].
    apply session_body_Ok in S1.
    destruct S1 as (x & Hu & Hsid & Hlogin & Hstart & Hok & -> & (gap & Hgap & ->) & Hrows).
    apply IH in H. destruct H as (ss & Hlen & Hall & Hfrom & Hrows').
    exists (x :: ss). simpl.
    split; [congruence |].
    split; [constructor; assumption |].
    split.
    { repeat (split; [assumption |]). exists gap. split; assumption. }
    rewrite Hrows', Hrows, <- app_assoc. reflexivity.
Qed.

Lemma user_body_Ok cfg base_dt video_ids user u w w' :
  user_body cfg base_dt video_ids user tt w = (Ok u, w') ->
  exists b,
    ub_user b = user /\
    block_ok cfg base_dt video_ids b /\
    w_rows w' = w_rows w ++ block_rows b.
Proof.
  unfold user_body. intros H.
  bind_inv H p w1 S1. op_inv S1. destruct S1 as [Hp S1].
  bind_inv H h w2 S2. op_inv S2. destruct S2 as [Hh S2].
  bind_inv H td w3 S3. op_inv S3. destruct S3 as [-> ->].
  bind_inv H t0 w4 S4. op_inv S4. destruct S4 as [-> ->].
  bind_inv H st w5 L. destruct st as [t' fl'].
  apply ret_Ok in H. destruct H as [_ ->].
  unfold range in L. apply session_loop_Ok in L.
  destruct L as (ss & Hlen & Hall & Hfrom & Hrows).
  frames.
  exists (mk_user_block user ss). unfold block_ok, block_rows. simpl.
  split; [reflexivity |]. split.
  - split.
    { intros ->. simpl in Hlen. lia. }
    split; [exact Hall |].
    exists h. split; [exact Hh |].
    exact Hfrom.
  - rewrite Hrows, S2, S1. reflexivity.
Qed.

Lemma user_loop_Ok cfg base_dt video_ids user_ids :
  forall u w w',
    for_each (user_body cfg base_dt video_ids) user_ids tt w = (Ok u, w') ->
    exists blocks,
      map ub_user blocks = user_ids /\
      Forall (block_ok cfg base_dt video_ids) blocks /\
      w_rows w' = w_rows w ++ flat_map block_rows blocks.
Proof.
  induction user_ids as [| user user_ids IH]; intros u w w' H.
  - rewrite for_each_nil in H. apply ret_Ok in H. destruct H as [_ ->].
    exists []. simpl. rewrite app_nil_r. repeat split. constructor.
  - rewrite for_each_cons in H.
    bind_inv H u1 w1 S1. destruct u1.
    apply user_body_Ok in S1. destruct S1 as (b & Hb & Hok & Hrows).
    apply IH in H. destruct H as (blocks & Hmap & Hall & Hrows').
    exists (b :: blocks). simpl.
    split; [congruence |].
    split; [constructor; assumption |].
    rewrite Hrows', Hrows, <- app_assoc. reflexivity.
Qed.

(** A successful [generate_events] returns a well-shaped log. *)
Lemma generate_events_shape cfg utcnow users_df videos_df log w w' :
  generate_events cfg utcnow users_df videos_df w = (Ok log, w') ->
  log_shape cfg (utcnow - days cfg * us_per_day)
            (map u_user_id users_df) (map v_video_id videos_df) log.
Proof.
  unfold generate_events. intros H.
  bind_inv H td w1 S1. op_inv S1. destruct S1 as [-> ->].
  bind_inv H base_dt w2 S2. op_inv S2. destruct S2 as [-> ->].
  bind_inv H u1 w3 S3.
  bind_inv H u2 w4 S4.
  apply user_loop_Ok in S4. destruct S4 as (blocks & Hmap & Hall & Hrows).
  unfold get_rows in H. inversion H; subst log w'; clear H.
  unfold set_rows in S3. inversion S3; subst w3; clear S3.
  simpl in Hrows.
  exists blocks. split; [exact Hmap |]. split; [exact Hall | exact Hrows].
Qed.

(* ------------------------------------------------------------------ *)
(** ** The reference tables *)

Lemma users_loop_Ok cfg today xs :
  forall u w w',
    for_each (generate_users_body cfg today) xs tt w = (Ok u, w') ->
    exists l, w_users w' = w_users w ++ l /\ map u_user_id l = map user_id_of xs.
Proof.
  induction xs as [| i xs IH]; intros u w w' H.
  - rewrite for_each_nil in H. apply ret_Ok in H. destruct H as [_ ->].
    exists []. rewrite app_nil_r. split; reflexivity.
  - rewrite for_each_cons in H.
    bind_inv H u1 w1 B. destruct u1. unfold generate_users_body in B.
    bind_inv B k v1 S1. op_inv S1. destruct S1 as [_ (S1 & _ & _)].
    bind_inv B td v2 S2. op_inv S2. destruct S2 as [_ ->].
    bind_inv B sgn v3 S3. apply lift_Ok in S3. destruct S3 as [_ ->].
    bind_inv B tier v4 S4. op_inv S4. destruct S4 as [_ (S4 & _ & _)].
    bind_inv B age v5 S5. op_inv S5. destruct S5 as [_ (S5 & _ & _)].
    bind_inv B gnd v6 S6. op_inv S6. destruct S6 as [_ (S6 & _ & _)].
    apply users_append_Ok in B.
    apply IH in H. destruct H as (l & Hl & Hids).
    eexists (_ :: l). split.
    + rewrite Hl, B, S6, S5, S4, S1, <- app_assoc. reflexivity.
    + simpl. rewrite Hids. reflexivity.
Qed.

Lemma generate_users_Ok cfg utcnow df w w' :
  generate_users cfg utcnow w = (Ok df, w') ->
  map u_user_id df = map user_id_of (range (users cfg)).
Proof.
  unfold generate_users. intros H.
  bind_inv H u1 w1 S1.
  bind_inv H u2 w2 S2.
  apply users_loop_Ok in S2. destruct S2 as (l & Hl & Hids).
  unfold get_users in H. inversion H; subst df w'; clear H.
  unfold set_users in S1. inversion S1; subst w1; clear S1.
  simpl in Hl. rewrite Hl. exact Hids.
Qed.

Lemma videos_loop_Ok xs :
  forall u w w',
    for_each generate_videos_body xs tt w = (Ok u, w') ->
    exists l, w_videos w' = w_videos w ++ l /\ map v_video_id l = map video_id_of xs.
Proof.
  induction xs as [| i xs IH]; intros u w w' H.
  - rewrite for_each_nil in H. apply ret_Ok in H. destruct H as [_ ->].
    exists []. rewrite app_nil_r. split; reflexivity.
  - rewrite for_each_cons in H.
    bind_inv H u1 w1 B. destruct u1. unfold generate_videos_body in B.
    bind_inv B gnr v1 S1. op_inv S1. destruct S1 as [_ (_ & S1 & _)].
    bind_inv B dur v2 S2. op_inv S2. destruct S2 as [_ (_ & S2 & _)].
    bind_inv B p v3 S3. op_inv S3. destruct S3 as [_ (_ & S3 & _)].
    apply videos_append_Ok in B.
    apply IH in H. destruct H as (l & Hl & Hids).
    eexists (_ :: l). split.
    + rewrite Hl, B, S3, S2, S1, <- app_assoc. reflexivity.
    + simpl. rewrite Hids. reflexivity.
Qed.

Lemma generate_videos_Ok cfg df w w' :
  generate_videos cfg w = (Ok df, w') ->
  map v_video_id df = map video_id_of (range (videos cfg)).
Proof.
  unfold generate_videos. intros H.
  bind_inv H u1 w1 S1.
  bind_inv H u2 w2 S2.
  apply videos_loop_Ok in S2. destruct S2 as (l & Hl & Hids).
  unfold get_videos in H. inversion H; subst df w'; clear H.
  unfold set_videos in S1. inversion S1; subst w1; clear S1.
  simpl in Hl. rewrite Hl. exact Hids.
Qed.

(** A successful run: the ids of the two tables and the shape of the log. *)
Lemma write_outputs_Ok sd clk cfg out w w' :
  write_outputs sd clk cfg w = (Ok out, w') ->
  map u_user_id (users_csv out) = map user_id_of (range (users cfg)) /\
  map v_video_id (videos_csv out) = map video_id_of (range (videos cfg)) /\
  devices_csv out = generate_devices /\
  log_shape cfg (window_start clk cfg)
            (map user_id_of (range (users cfg)))
            (map video_id_of (range (videos cfg)))
            (events_jsonl out).
Proof.
  unfold write_outputs. intros H.
  bind_inv H u1 w1 S1.
  bind_inv H u2 w2 S2.
  bind_inv H users_df w3 S3. apply generate_users_Ok in S3.
  bind_inv H videos_df w4 S4. apply generate_videos_Ok in S4.
  bind_inv H events w5 S5. apply generate_events_shape in S5.
  apply ret_Ok in H. destruct H as [-> ->]. simpl.
  rewrite S3, S4 in S5.
  repeat split; assumption.
Qed.

(* ------------------------------------------------------------------ *)
(** ** Identifiers are unambiguous *)

Lemma string_of_uint_inj d d' :
  NilEmpty.string_of_uint d = NilEmpty.string_of_uint d' -> d = d'.
Proof.
  intros H. apply (f_equal NilEmpty.uint_of_string) in H.
  rewrite !NilEmpty.usu in H. inversion H. reflexivity.
Qed.

Lemma of_uint_zeros k d : Nat.of_uint (zeros k d) = Nat.of_uint d.
Proof.
  induction k as [| k IH]; simpl; [reflexivity |].
  rewrite <- IH. reflexivity.
Qed.

Lemma fmt_0d_inj w i j : fmt_0d w i = fmt_0d w j -> i = j.
Proof.
  unfold fmt_0d. intros H. apply string_of_uint_inj in H.
  apply (f_equal Nat.of_uint) in H.
  rewrite !of_uint_zeros, !Unsigned.of_to in H. exact H.
Qed.

Lemma string_of_uint_free d : free_of "_" (NilEmpty.string_of_uint d).
Proof.
  induction d; simpl; try (split; [discriminate | assumption]). exact I.
Qed.

Lemma fmt_0d_free w i : free_of "_" (fmt_0d w i).
Proof. unfold fmt_0d. apply string_of_uint_free. Qed.

Lemma free_of_app c a s : free_of c (a ++ String c s)%string -> False.
Proof.
  induction a as [| x a IH]; simpl.
  - intros [H _]. apply H. reflexivity.
  - intros [_ H]. apply IH. exact H.
Qed.

(** A string is split in one way only at its last underscore. *)
Lemma split_last_underscore a :
  forall b x y,
    free_of "_" x -> free_of "_" y ->
    (a ++ String "_" x)%string = (b ++ String "_" y)%string ->
    a = b /\ x = y.
Proof.
  induction a as [| c a IH]; intros b x y Hx Hy H; destruct b as [| c' b]; simpl in H.
  - inversion H. split; reflexivity.
  - inversion H; subst. exfalso. eapply free_of_app. exact Hx.
  - inversion H; subst. exfalso. eapply free_of_app. exact Hy.
  - inversion H; subst. apply IH in H2; [| assumption | assumption].
    destruct H2 as [-> ->]. split; reflexivity.
Qed.

Lemma session_id_of_inj u u' i j :
  session_id_of u i = session_id_of u' j -> u = u' /\ i = j.
Proof.
  unfold session_id_of. simpl. intros H. inversion H as [H1]. clear H.
  apply split_last_underscore in H1; [| apply fmt_0d_free | apply fmt_0d_free].
  destruct H1 as [-> H1]. apply fmt_0d_inj in H1. split; [reflexivity | exact H1].
Qed.

Lemma user_id_of_inj i j : user_id_of i = user_id_of j -> i = j.
Proof.
  unfold user_id_of. simpl. intros H. inversion H as [H1].
  apply fmt_0d_inj in H1. exact H1.
Qed.

Lemma user_ids_NoDup n : NoDup (map user_id_of (range n)).
Proof.
  apply Finite.Injective_map_NoDup.
  - intros i j. apply user_id_of_inj.
  - apply seq_NoDup.
Qed.

(* ------------------------------------------------------------------ *)
(** ** Lists of rows *)

Lemma filter_flat_map {A B} (p : B -> bool) (f : A -> list B) xs :
  filter p (flat_map f xs) = flat_map (fun x => filter p (f x)) xs.
Proof.
  induction xs as [| x xs IH]; simpl; [reflexivity |].
  rewrite filter_app, IH. reflexivity.
Qed.

Lemma filter_andb {A} (p q : A -> bool) l :
  filter (fun x => p x && q x) l = filter q (filter p l).
Proof.
  induction l as [| x l IH]; simpl; [reflexivity |].
  destruct (p x); simpl; [destruct (q x) |]; rewrite IH; reflexivity.
Qed.

Lemma filter_all {A} (p : A -> bool) l :
  (forall x, In x l -> p x = true) -> filter p l = l.
Proof.
  induction l as [| x l IH]; intros H; simpl; [reflexivity |].
  rewrite (H x (or_introl eq_refl)), IH; [reflexivity |].
  intros y Hy. apply H. right. exact Hy.
Qed.

Lemma filter_none {A} (p : A -> bool) l :
  (forall x, In x l -> p x = false) -> filter p l = [].
Proof.
  induction l as [| x l IH]; intros H; simpl; [reflexivity |].
  rewrite (H x (or_introl eq_refl)). apply IH.
  intros y Hy. apply H. right. exact Hy.
Qed.

Lemma flat_map_nil {A B} (f : A -> list B) xs :
  (forall x, In x xs -> f x = []) -> flat_map f xs = [].
Proof.
  induction xs as [| x xs IH]; intros H; simpl; [reflexivity |].
  rewrite (H x (or_introl eq_refl)), IH; [reflexivity |].
  intros y Hy. apply H. right. exact Hy.
Qed.

(** In a concatenation of blocks with pairwise distinct keys, the rows
    carrying the key of a block are the rows of that block. *)
Lemma filter_by_key {A} (key : A -> string) (f : A -> list event)
    (kb : event -> string) xs :
  (forall y e, In y xs -> In e (f y) -> kb e = key y) ->
  NoDup (map key xs) ->
  forall x, In x xs ->
    filter (fun e => String.eqb (kb e) (key x)) (flat_map f xs) = f x.
Proof.
  induction xs as [| y xs IH]; intros Hkey Hnd x Hx; [destruct Hx |].
  simpl in Hnd. inversion Hnd as [| k ks Hnotin Hnd']; subst.
  simpl. rewrite filter_app.
  destruct Hx as [-> | Hx].
  - rewrite filter_all.
    + rewrite filter_none; [apply app_nil_r |].
      intros e He. apply in_flat_map in He. destruct He as (z & Hz & He).
      apply String.eqb_neq. intros E.
      rewrite (Hkey z e (or_intror Hz) He) in E.
      apply Hnotin. rewrite <- E. apply in_map. exact Hz.
    + intros e He. apply String.eqb_eq. apply Hkey; [left; reflexivity | exact He].
  - rewrite filter_none.
    + simpl. apply IH; [| exact Hnd' | exact Hx].
      intros z e Hz He. apply Hkey; [right; exact Hz | exact He].
    + intros e He. apply String.eqb_neq. intros E.
      rewrite (Hkey y e (or_introl eq_refl) He) in E.
      apply Hnotin. rewrite E. apply in_map. exact Hx.
Qed.

Lemma NoDup_map_key {A} (key : A -> string) xs x y :
  NoDup (map key xs) -> In x xs -> In y xs -> key x = key y -> x = y.
Proof.
  induction xs as [| z xs IH]; intros Hnd Hx Hy E; [destruct Hx |].
  simpl in Hnd. inversion Hnd as [| k ks Hnotin Hnd']; subst.
  destruct Hx as [-> | Hx], Hy as [-> | Hy].
  - reflexivity.
  - exfalso. apply Hnotin. rewrite E. apply in_map. exact Hy.
  - exfalso. apply Hnotin. rewrite <- E. apply in_map. exact Hx.
  - apply IH; assumption.
Qed.

(* ------------------------------------------------------------------ *)
(** ** The rows of a chunk and of a session *)

Lemma session_rows_eq s :
  session_rows s =
  (if ss_login s then [login_row s] else [])
  ++ start_row s :: flat_map (chunk_rows (ss_fields s)) (ss_chunks s) ++ [end_row s].
Proof. reflexivity. Qed.

(** Where a row of a session comes from. *)
Lemma in_session_rows e s :
  In e (session_rows s) ->
  (ss_login s = true /\ e = login_row s) \/
  e = start_row s \/
  (exists c, In c (ss_chunks s) /\ In e (chunk_rows (ss_fields s) c)) \/
  e = end_row s.
Proof.
  rewrite session_rows_eq. intros H.
  apply in_app_or in H. destruct H as [H | H].
  - destruct (ss_login s); [| destruct H].
    destruct H as [<- | []]. left. split; reflexivity.
  - destruct H as [<- | H]; [right; left; reflexivity |].
    apply in_app_or in H. destruct H as [H | H].
    + apply in_flat_map in H. right. right. left. exact H.
    + destruct H as [<- | []]. right. right. right. reflexivity.
Qed.

Lemma in_chunk_rows sf watched c e :
  chunk_ok watched c ->
  In e (chunk_rows sf c) ->
  e = watch_row sf c \/
  exists vid name,
    ck_reaction c = Some (vid, name) /\ In vid watched /\
    (name = "like"%string \/ name = "heart"%string) /\
    e = row sf (ck_time c + us_per_second) (Some vid) name None.
Proof.
  intros (_ & _ & Hr) H. unfold chunk_rows, reaction_rows in H.
  destruct H as [<- | H]; [left; reflexivity |].
  destruct (ck_reaction c) as [[vid name] |] eqn:E; [| destruct H].
  destruct H as [<- | []]. right. exists vid, name.
  destruct (Hr vid name eq_refl) as [Hv Hn].
  repeat split; assumption.
Qed.

Lemma session_rows_ids e s :
  In e (session_rows s) ->
  session_id e = sf_session_id (ss_fields s) /\
  user_id e = sf_user_id (ss_fields s).
Proof.
  intros H. apply in_session_rows in H.
  destruct H as [[_ ->] | [-> | [(c & _ & H) | ->]]]; try (split; reflexivity).
  unfold chunk_rows, reaction_rows in H.
  destruct H as [<- | H]; [split; reflexivity |].
  destruct (ck_reaction c) as [[vid name] |]; [| destruct H].
  destruct H as [<- | []]. split; reflexivity.
Qed.

(** Selecting rows by name, in a chunk and in a session. *)
Lemma filter_chunk_rows (q : string -> bool) sf watched c :
  chunk_ok watched c ->
  q "like"%string = q "heart"%string ->
  filter (fun e => q (event_name e)) (chunk_rows sf c) =
  (if q "watch_time"%string then [watch_row sf c] else [])
  ++ (if q "like"%string then reaction_rows sf c else []).
Proof.
  intros (_ & _ & Hr) Hq. unfold chunk_rows, reaction_rows.
  destruct (ck_reaction c) as [[vid name] |].
  - destruct (Hr vid name eq_refl) as [_ [-> | ->]]; simpl; rewrite <- ?Hq;
      destruct (q "watch_time"%string), (q "like"%string); reflexivity.
  - simpl. destruct (q "watch_time"%string), (q "like"%string); reflexivity.
Qed.

Lemma filter_session_rows (q : string -> bool) video_ids x :
  session_ok video_ids x ->
  q "like"%string = q "heart"%string ->
  filter (fun e => q (event_name e)) (session_rows x) =
  (if ss_login x && q "first_login"%string then [login_row x] else [])
  ++ (if q "session_start"%string then [start_row x] else [])
  ++ flat_map (fun c =>
       (if q "watch_time"%string then [watch_row (ss_fields x) c] else [])
       ++ (if q "like"%string then reaction_rows (ss_fields x) c else []))
     (ss_chunks x)
  ++ (if q "session_end"%string then [end_row x] else []).
Proof.
  intros (_ & _ & Hall & _) Hq.
  rewrite session_rows_eq, filter_app. f_equal.
  { destruct (ss_login x); simpl; [| reflexivity].
    destruct (q "first_login"%string); reflexivity. }
  replace (start_row x :: flat_map (chunk_rows (ss_fields x)) (ss_chunks x) ++ [end_row x])
    with ([start_row x] ++ flat_map (chunk_rows (ss_fields x)) (ss_chunks x) ++ [end_row x])
    by reflexivity.
  rewrite 2 filter_app. apply f_equal2; [| apply f_equal2].
  - simpl. destruct (q "session_start"%string); reflexivity.
  - rewrite filter_flat_map.
    rewrite Forall_forall in Hall.
    clear - Hall Hq. induction (ss_chunks x) as [| c cs IH]; cbn [flat_map]; [reflexivity |].
    rewrite (filter_chunk_rows q _ (ss_watched x)); [| apply Hall; left; reflexivity | exact Hq].
    rewrite IH; [reflexivity |]. intros y Hy. apply Hall. right. exact Hy.
  - simpl. destruct (q "session_end"%string); reflexivity.
Qed.

Lemma flat_map_singleton {A B} (f : A -> B) xs :
  flat_map (fun x => [f x] ++ []) xs = map f xs.
Proof.
  induction xs as [| x xs IH]; [reflexivity |].
  cbn [flat_map map]. rewrite IH. reflexivity.
Qed.

Section Session.

Variable video_ids : list string.
Variable x : session.
Hypothesis x_ok : session_ok video_ids x.

Lemma filter_session_start :
  filter (named "session_start") (session_rows x) = [start_row x].
Proof.
  unfold named.
  rewrite (filter_session_rows (fun m => String.eqb m "session_start") video_ids x x_ok eq_refl).
  rewrite andb_false_r. simpl. rewrite flat_map_nil; reflexivity.
Qed.

Lemma filter_session_end :
  filter (named "session_end") (session_rows x) = [end_row x].
Proof.
  unfold named.
  rewrite (filter_session_rows (fun m => String.eqb m "session_end") video_ids x x_ok eq_refl).
  rewrite andb_false_r. simpl. rewrite flat_map_nil; reflexivity.
Qed.

Lemma filter_first_login :
  filter (named "first_login") (session_rows x) =
  if ss_login x then [login_row x] else [].
Proof.
  unfold named.
  rewrite (filter_session_rows (fun m => String.eqb m "first_login") video_ids x x_ok eq_refl).
  rewrite andb_true_r. simpl. rewrite flat_map_nil; [| reflexivity].
  apply app_nil_r.
Qed.

Lemma filter_watch_time :
  filter (named "watch_time") (session_rows x) =
  map (watch_row (ss_fields x)) (ss_chunks x).
Proof.
  unfold named.
  rewrite (filter_session_rows (fun m => String.eqb m "watch_time") video_ids x x_ok eq_refl).
  rewrite andb_false_r. simpl. rewrite app_nil_r.
  apply (flat_map_singleton (watch_row (ss_fields x))).
Qed.

Lemma filter_activity :
  filter is_activity (session_rows x) =
  flat_map (chunk_rows (ss_fields x)) (ss_chunks x).
Proof.
  unfold is_activity, named.
  rewrite (filter_session_rows
             (fun m => String.eqb m "watch_time" || String.eqb m "like"
                       || String.eqb m "heart")
             video_ids x x_ok eq_refl).
  rewrite andb_false_r. simpl. apply app_nil_r.
Qed.

(** The rows of a session by name. *)
Lemma session_start_row e :
  In e (session_rows x) -> event_name e = "session_start"%string -> e = start_row x.
Proof.
  intros He Hn.
  assert (H : In e (filter (named "session_start") (session_rows x))).
  { apply filter_In. split; [exact He |]. unfold named. rewrite Hn. reflexivity. }
  rewrite filter_session_start in H. destruct H as [<- | []]. reflexivity.
Qed.

Lemma session_end_row e :
  In e (session_rows x) -> event_name e = "session_end"%string -> e = end_row x.
Proof.
  intros He Hn.
  assert (H : In e (filter (named "session_end") (session_rows x))).
  { apply filter_In. split; [exact He |]. unfold named. rewrite Hn. reflexivity. }
  rewrite filter_session_end in H. destruct H as [<- | []]. reflexivity.
Qed.

Lemma in_start_row : In (start_row x) (session_rows x).
Proof. rewrite session_rows_eq. apply in_or_app. right. left. reflexivity. Qed.

Lemma in_end_row : In (end_row x) (session_rows x).
Proof.
  rewrite session_rows_eq. apply in_or_app. right. right.
  apply in_or_app. right. left. reflexivity.
Qed.

End Session.

Lemma us_per_second_pos : 0 < us_per_second.
Proof. reflexivity. Qed.

Lemma watch_seconds_lower watched cs :
  Forall (chunk_ok watched) cs -> Z.of_nat (List.length cs) <= watch_seconds cs.
Proof.
  induction 1 as [| c cs (Hv & _) _ IH]; simpl watch_seconds; simpl List.length; lia.
Qed.

Lemma sum_values_watch_rows sf cs :
  sum_values (map (watch_row sf) cs) = watch_seconds cs.
Proof.
  induction cs as [| c cs IH]; simpl; [reflexivity |]. rewrite <- IH. reflexivity.
Qed.

(** A session ends after it starts. *)
Lemma session_start_lt_end video_ids x :
  session_ok video_ids x -> ss_start x < ss_end x.
Proof.
  intros (Hlen & _ & Hall & (slack & Hslack & ->) & _).
  apply watch_seconds_lower in Hall.
  pose proof us_per_second_pos. nia.
Qed.

(** The activity rows of a session come after its start, in
    non-decreasing time order. *)
Lemma chunk_rows_times sf watched cs :
  forall t,
    chunk_times t cs -> Forall (chunk_ok watched) cs ->
    Forall (fun e => t + us_per_second <= timestamp e) (flat_map (chunk_rows sf) cs) /\
    StronglySorted Z.le (map timestamp (flat_map (chunk_rows sf) cs)).
Proof.
  pose proof us_per_second_pos as Hu.
  induction cs as [| c cs IH]; intros t Ht Hall; simpl.
  - split; constructor.
  - destruct Ht as [(d & Hd & Htc) Ht]. inversion Hall as [| c' cs' Hc Hall']; subst.
    destruct (IH _ Ht Hall') as [Hge Hsorted].
    assert (Hrest : Forall (fun e => ck_time c + us_per_second <= timestamp e)
                      (reaction_rows sf c ++ flat_map (chunk_rows sf) cs)).
    { apply Forall_app. split; [| exact Hge].
      unfold reaction_rows. destruct (ck_reaction c) as [[vid name] |]; constructor.
      - simpl. lia.
      - constructor. }
    split.
    + constructor.
      * simpl. nia.
      * eapply Forall_impl; [| exact Hrest]. simpl. intros e He. nia.
    + constructor.
      * rewrite map_app. unfold reaction_rows.
        destruct (ck_reaction c) as [[vid name] |]; simpl; [| exact Hsorted].
        constructor; [exact Hsorted |].
        apply Forall_map. eapply Forall_impl; [| exact Hge]. simpl. intros e He. lia.
      * apply Forall_map. eapply Forall_impl; [| exact Hrest].
        simpl. intros e He. lia.
Qed.

(* ------------------------------------------------------------------ *)
(** ** The sessions of one user, in time *)

Lemma sessions_from_starts video_ids user ss :
  forall s fl t,
    sessions_from user s fl t ss -> Forall (session_ok video_ids) ss ->
    Forall (fun y => t <= ss_start y) ss.
Proof.
  pose proof us_per_second_pos as Hu.
  induction ss as [| x ss IH]; intros s fl t H Hall; [constructor |].
  simpl in H. destruct H as (_ & _ & _ & Hstart & gap & Hgap & H).
  inversion Hall as [| x' ss' Hx Hall']; subst.
  constructor; [lia |].
  apply session_start_lt_end in Hx.
  eapply Forall_impl; [| eapply IH; eassumption].
  simpl. intros y Hy. nia.
Qed.

Lemma sessions_from_consecutive user ss :
  forall s fl t k y1 y2,
    sessions_from user s fl t ss ->
    nth_error ss k = Some y1 -> nth_error ss (S k) = Some y2 ->
    exists gap, 10 <= gap <= 600 /\
      ss_start y2 = ss_end y1 + gap * 60 * us_per_second.
Proof.
  induction ss as [| x ss IH]; intros s fl t k y1 y2 H E1 E2.
  - destruct k; discriminate E1.
  - simpl in H. destruct H as (_ & _ & _ & _ & gap & Hgap & H).
    destruct k as [| k]; simpl in E1, E2.
    + inversion E1; subst x.
      destruct ss as [| z ss]; [discriminate E2 |]. inversion E2; subst z.
      simpl in H. destruct H as (_ & _ & _ & Hstart & _).
      exists gap. split; [exact Hgap | exact Hstart].
    + eapply IH; eassumption.
Qed.

Lemma sessions_from_increasing video_ids user ss :
  forall s fl t i j y1 y2,
    sessions_from user s fl t ss -> Forall (session_ok video_ids) ss ->
    nth_error ss i = Some y1 -> nth_error ss j = Some y2 -> (i < j)%nat ->
    ss_start y1 < ss_start y2.
Proof.
  pose proof us_per_second_pos as Hu.
  induction ss as [| x ss IH]; intros s fl t i j y1 y2 H Hall E1 E2 Hij.
  - destruct i; discriminate E1.
  - simpl in H. destruct H as (_ & _ & _ & Hstart & gap & Hgap & H).
    inversion Hall as [| x' ss' Hx Hall']; subst.
    destruct j as [| j]; [lia |]. simpl in E2.
    destruct i as [| i]; simpl in E1.
    + inversion E1; subst x.
      pose proof (sessions_from_starts _ _ _ _ _ _ H Hall') as Hge.
      rewrite Forall_forall in Hge. apply nth_error_In in E2. apply Hge in E2.
      apply session_start_lt_end in Hx. nia.
    + eapply IH; try eassumption. lia.
Qed.

(** Only the session that finds [first_login_emitted] false emits a
    first_login row. *)
Lemma filter_first_login_sessions video_ids user ss :
  forall s fl t,
    sessions_from user s fl t ss -> Forall (session_ok video_ids) ss ->
    filter (named "first_login") (flat_map session_rows ss) =
    match ss with
    | x :: _ => if fl then [] else [login_row x]
    | [] => []
    end.
Proof.
  induction ss as [| x ss IH]; intros s fl t H Hall; [reflexivity |].
  simpl in H. destruct H as (_ & _ & Hlogin & _ & gap & _ & H).
  inversion Hall as [| x' ss' Hx Hall']; subst.
  cbn [flat_map]. rewrite filter_app, (filter_first_login video_ids x Hx), Hlogin.
  rewrite (IH _ _ _ H Hall').
  destruct fl, ss; reflexivity.
Qed.

(* ------------------------------------------------------------------ *)
(** ** The sessions of a well-shaped log *)

Lemma sessions_from_ids user ss :
  forall s fl t,
    sessions_from user s fl t ss ->
    map sid_of ss = map (session_id_of user) (seq s (List.length ss)).
Proof.
  induction ss as [| x ss IH]; intros s fl t H; simpl; [reflexivity |].
  simpl in H. destruct H as (_ & Hsid & _ & _ & gap & _ & H).
  f_equal; [exact Hsid | eapply IH; exact H].
Qed.

Lemma sessions_from_nth user ss :
  forall s fl t k x,
    sessions_from user s fl t ss ->
    nth_error ss k = Some x ->
    sf_user_id (ss_fields x) = user /\ sid_of x = session_id_of user (s + k).
Proof.
  induction ss as [| y ss IH]; intros s fl t k x H E.
  - destruct k; discriminate E.
  - simpl in H. destruct H as (Hu & Hsid & _ & _ & gap & _ & H).
    destruct k as [| k]; simpl in E.
    + inversion E; subst y. rewrite Nat.add_0_r. split; assumption.
    + replace (s + S k)%nat with (S s + k)%nat by lia.
      eapply IH; eassumption.
Qed.

Lemma session_ids_NoDup_one user ss s fl t :
  sessions_from user s fl t ss -> NoDup (map sid_of ss).
Proof.
  intros H. rewrite (sessions_from_ids _ _ _ _ _ H).
  apply Finite.Injective_map_NoDup; [| apply seq_NoDup].
  intros i j E. apply session_id_of_inj in E. apply E.
Qed.

Section Log.

Variable cfg : GeneratorConfig.
Variable base_dt : Z.
Variable video_ids : list string.

(** Every session of a block belongs to the block's user. *)
Lemma block_session_ids b x :
  block_ok cfg base_dt video_ids b ->
  In x (ub_sessions b) ->
  exists k, nth_error (ub_sessions b) k = Some x /\
            sf_user_id (ss_fields x) = ub_user b /\
            sid_of x = session_id_of (ub_user b) k.
Proof.
  intros (_ & _ & h & _ & Hfrom) Hx.
  apply In_nth_error in Hx. destruct Hx as [k Hk].
  exists k. split; [exact Hk |].
  eapply sessions_from_nth in Hfrom; [| exact Hk]. exact Hfrom.
Qed.

Lemma all_sessions_NoDup blocks :
  Forall (block_ok cfg base_dt video_ids) blocks ->
  NoDup (map ub_user blocks) ->
  NoDup (map sid_of (all_sessions blocks)).
Proof.
  induction blocks as [| b blocks IH]; intros Hok Hnd; [constructor |].
  inversion Hok as [| b' bs' Hb Hok']; subst.
  simpl in Hnd. inversion Hnd as [| k ks Hnotin Hnd']; subst.
  unfold all_sessions. simpl. rewrite map_app.
  apply NoDup_app.
  - destruct Hb as (_ & _ & h & _ & Hfrom).
    eapply session_ids_NoDup_one. exact Hfrom.
  - apply IH; assumption.
  - intros sid H1 H2.
    apply in_map_iff in H1. destruct H1 as (x & Hx & Hin).
    apply in_map_iff in H2. destruct H2 as (y & Hy & Hin').
    apply in_flat_map in Hin'. destruct Hin' as (b2 & Hb2 & Hyin).
    destruct (block_session_ids b x Hb Hin) as (k1 & _ & _ & E1).
    assert (Hb2ok : block_ok cfg base_dt video_ids b2).
    { rewrite Forall_forall in Hok'. apply Hok'. exact Hb2. }
    destruct (block_session_ids b2 y Hb2ok Hyin) as (k2 & _ & _ & E2).
    rewrite E1 in Hx. rewrite E2 in Hy. rewrite <- Hy in Hx.
    apply session_id_of_inj in Hx. destruct Hx as [Hu _].
    apply Hnotin. rewrite Hu. apply in_map. exact Hb2.
Qed.

Variable blocks : list user_block.
Hypothesis blocks_ok : Forall (block_ok cfg base_dt video_ids) blocks.
Hypothesis users_NoDup : NoDup (map ub_user blocks).

Let log : list event := flat_map block_rows blocks.

Lemma log_by_session : log = flat_map session_rows (all_sessions blocks).
Proof.
  unfold log, all_sessions. clear blocks_ok users_NoDup.
  induction blocks as [| b bs IH]; simpl; [reflexivity |].
  rewrite flat_map_app, IH. reflexivity.
Qed.

Lemma in_all_sessions x :
  In x (all_sessions blocks) <-> exists b, In b blocks /\ In x (ub_sessions b).
Proof. unfold all_sessions. apply in_flat_map. Qed.

Lemma all_sessions_ok x : In x (all_sessions blocks) -> session_ok video_ids x.
Proof.
  intros H. apply in_all_sessions in H. destruct H as (b & Hb & Hx).
  rewrite Forall_forall in blocks_ok. destruct (blocks_ok b Hb) as (_ & Hall & _).
  rewrite Forall_forall in Hall. apply Hall. exact Hx.
Qed.

(** Every row belongs to a session. *)
Lemma log_row_session e :
  In e log -> exists x, In x (all_sessions blocks) /\ In e (session_rows x).
Proof. rewrite log_by_session. apply in_flat_map. Qed.

Lemma session_rows_in_log x e :
  In x (all_sessions blocks) -> In e (session_rows x) -> In e log.
Proof.
  intros Hx He. rewrite log_by_session. apply in_flat_map. exists x.
  split; assumption.
Qed.

(** The rows of the log that carry the id of a session are the rows of
    that session, in order. *)
Lemma session_filter x :
  In x (all_sessions blocks) ->
  filter (in_session (sid_of x)) log = session_rows x.
Proof.
  intros Hx. rewrite log_by_session.
  apply (filter_by_key sid_of session_rows session_id).
  - intros y e _ He. apply session_rows_ids in He. apply He.
  - apply all_sessions_NoDup; assumption.
  - exact Hx.
Qed.

Lemma occurs_session_inv sid :
  occurs_session sid log ->
  exists x, In x (all_sessions blocks) /\ sid_of x = sid.
Proof.
  intros (e & He & Hsid). apply log_row_session in He.
  destruct He as (x & Hx & He). exists x. split; [exact Hx |].
  apply session_rows_ids in He. destruct He as [He _]. unfold sid_of. congruence.
Qed.

(** A row with the id of a session is a row of that session. *)
Lemma row_of_session x e :
  In x (all_sessions blocks) -> In e log -> session_id e = sid_of x ->
  In e (session_rows x).
Proof.
  intros Hx He Hsid. rewrite <- (session_filter x Hx).
  apply filter_In. split; [exact He |].
  unfold in_session. apply String.eqb_eq. exact Hsid.
Qed.


Lemma start_row_of_session x e :
  In x (all_sessions blocks) -> In e log ->
  session_id e = sid_of x -> event_name e = "session_start"%string ->
  e = start_row x.
Proof.
  intros Hx He Hsid Hn.
  eapply session_start_row; [apply all_sessions_ok; exact Hx | | exact Hn].
  apply row_of_session; assumption.
Qed.

Lemma end_row_of_session x e :
  In x (all_sessions blocks) -> In e log ->
  session_id e = sid_of x -> event_name e = "session_end"%string ->
  e = end_row x.
Proof.
  intros Hx He Hsid Hn.
  eapply session_end_row; [apply all_sessions_ok; exact Hx | | exact Hn].
  apply row_of_session; assumption.
Qed.

(** Counting the rows of one name in one session. *)
Lemma filter_session_named sid n x :
  In x (all_sessions blocks) -> sid_of x = sid ->
  filter (fun e => in_session sid e && named n e) log =
  filter (named n) (session_rows x).
Proof.
  intros Hx <-. rewrite filter_andb, session_filter by exact Hx. reflexivity.
Qed.

(* ---------------------------------------------------------------- *)
(** *** Null discipline *)

Lemma log_null_discipline : null_discipline log.
Proof.
  intros e He. apply log_row_session in He. destruct He as (x & Hx & He).
  pose proof (all_sessions_ok x Hx) as (_ & _ & Hall & _).
  apply in_session_rows in He.
  destruct He as [[_ ->] | [-> | [(c & Hc & He) | ->]]];
    try (simpl; repeat split; intros; try discriminate; try tauto;
         try (left; reflexivity); try (right; left; reflexivity);
         try (right; right; left; reflexivity);
         intuition discriminate).
  rewrite Forall_forall in Hall.
  apply (in_chunk_rows _ _ _ _ (Hall c Hc)) in He.
  destruct He as [-> | (vid & name & _ & _ & [-> | ->] & ->)];
    simpl; repeat split; intros; try discriminate; try tauto;
      try (left; reflexivity); try (right; left; reflexivity);
      try (right; right; left; reflexivity);
      intuition discriminate.
Qed.

(* ---------------------------------------------------------------- *)
(** *** Watch activity in every session *)

Lemma log_sessions_have_watch : sessions_have_watch log.
Proof.
  intros sid Hocc. apply occurs_session_inv in Hocc. destruct Hocc as (x & Hx & Hsid).
  unfold count. rewrite (filter_session_named sid _ x Hx Hsid).
  pose proof (all_sessions_ok x Hx) as Hok.
  rewrite (filter_watch_time video_ids x Hok), length_map.
  destruct Hok as (Hlen & _). exact Hlen.
Qed.

(* ---------------------------------------------------------------- *)
(** *** The end of a session *)

Lemma log_session_end_law : session_end_law log.
Proof.
  intros sid es ee Hes Hee Hsid1 Hn1 Hsid2 Hn2.
  assert (Hocc : occurs_session sid log) by (exists es; split; assumption).
  apply occurs_session_inv in Hocc. destruct Hocc as (x & Hx & Hsid).
  pose proof (all_sessions_ok x Hx) as Hok.
  rewrite (start_row_of_session x es Hx Hes) by congruence.
  rewrite (end_row_of_session x ee Hx Hee) by congruence.
  rewrite (filter_session_named sid _ x Hx Hsid).
  rewrite (filter_watch_time video_ids x Hok), sum_values_watch_rows.
  simpl. split.
  - destruct Hok as (_ & _ & _ & (slack & Hslack & Hend) & _).
    exists slack. split; [exact Hslack | exact Hend].
  - apply Z.lt_le_incl. eapply session_start_lt_end. exact Hok.
Qed.

(* ---------------------------------------------------------------- *)
(** *** Session bracketing *)

Lemma log_session_bracketing : session_bracketing_from_start log.
Proof.
  intros sid Hocc. apply occurs_session_inv in Hocc. destruct Hocc as (x & Hx & Hsid).
  pose proof (all_sessions_ok x Hx) as Hok.
  unfold count.
  rewrite !(filter_session_named sid _ x Hx Hsid).
  rewrite (filter_session_start video_ids x Hok), (filter_session_end video_ids x Hok).
  split; [reflexivity |]. split; [reflexivity |].
  assert (Hact : filter (fun e => in_session sid e && is_activity e) log =
                 flat_map (chunk_rows (ss_fields x)) (ss_chunks x)).
  { subst sid. rewrite filter_andb, session_filter by exact Hx.
    apply (filter_activity video_ids x Hok). }
  destruct Hok as (_ & Htimes & Hall & _).
  destruct (chunk_rows_times (ss_fields x) _ _ _ Htimes Hall) as [Hge Hsorted].
  split.
  - intros es e Hes He Hsid1 Hn1 Hsid2 Hact2.
    rewrite (start_row_of_session x es Hx Hes) by congruence.
    assert (Hin : In e (filter (fun e => in_session sid e && is_activity e) log)).
    { apply filter_In. split; [exact He |].
      unfold in_session. rewrite Hsid2, String.eqb_refl, Hact2. reflexivity. }
    rewrite Hact in Hin. rewrite Forall_forall in Hge. apply Hge in Hin.
    simpl. pose proof us_per_second_pos. lia.
  - rewrite Hact. exact Hsorted.
Qed.

(* ---------------------------------------------------------------- *)
(** *** Rows, blocks and session indices *)

Lemma block_rows_user b e :
  In b blocks -> In e (block_rows b) -> user_id e = ub_user b.
Proof.
  intros Hb He. unfold block_rows in He. apply in_flat_map in He.
  destruct He as (x & Hx & He).
  rewrite Forall_forall in blocks_ok.
  destruct (block_session_ids b x (blocks_ok b Hb) Hx) as (k & _ & Hu & _).
  apply session_rows_ids in He. destruct He as [_ He]. congruence.
Qed.

Lemma block_filter b :
  In b blocks -> filter (of_user (ub_user b)) log = block_rows b.
Proof.
  intros Hb. apply (filter_by_key ub_user block_rows user_id).
  - intros y e Hy He. apply block_rows_user; assumption.
  - exact users_NoDup.
  - exact Hb.
Qed.

Lemma log_row_indexed e :
  In e log ->
  exists b k y,
    In b blocks /\ nth_error (ub_sessions b) k = Some y /\
    In e (session_rows y) /\
    session_id e = session_id_of (ub_user b) k /\
    user_id e = ub_user b.
Proof.
  intros He. unfold log in He. apply in_flat_map in He.
  destruct He as (b & Hb & He).
  pose proof (block_rows_user b e Hb He) as Hu.
  unfold block_rows in He. apply in_flat_map in He. destruct He as (y & Hy & He).
  rewrite Forall_forall in blocks_ok.
  destruct (block_session_ids b y (blocks_ok b Hb) Hy) as (k & Hk & _ & Hsid).
  exists b, k, y. repeat split; try assumption.
  apply session_rows_ids in He. destruct He as [He _]. unfold sid_of in Hsid. congruence.
Qed.

(** A row with the id of session [k] of [uid] is a row of the session at
    index [k] of the block of [uid]. *)
Lemma log_row_at uid k e :
  In e log -> session_id e = session_id_of uid k ->
  exists b y,
    In b blocks /\ ub_user b = uid /\
    nth_error (ub_sessions b) k = Some y /\ In e (session_rows y).
Proof.
  intros He Hsid. apply log_row_indexed in He.
  destruct He as (b & k' & y & Hb & Hk & He & Hsid' & _).
  rewrite Hsid in Hsid'. apply session_id_of_inj in Hsid'.
  destruct Hsid' as [-> ->]. exists b, y. repeat split; assumption.
Qed.

Lemma block_session_ok b k y :
  In b blocks -> nth_error (ub_sessions b) k = Some y -> session_ok video_ids y.
Proof.
  intros Hb Hk. apply all_sessions_ok. apply in_all_sessions.
  exists b. split; [exact Hb | eapply nth_error_In; exact Hk].
Qed.

(* ---------------------------------------------------------------- *)
(** *** Reactions follow a watch_time row *)

Lemma after_watch_nil : after_watch [].
Proof. intros l1 e l2 H. destruct l1; discriminate H. Qed.

Lemma after_watch_app a b : after_watch a -> after_watch b -> after_watch (a ++ b).
Proof.
  intros Ha Hb l1 e l2 H Hr.
  apply app_eq_app in H. destruct H as (l & [[H1 H2] | [H1 H2]]).
  - destruct l as [| y l].
    + rewrite app_nil_r in H1. simpl in H2. subst.
      destruct (Hb [] e l2 eq_refl Hr) as (l0 & wt & H & _).
      destruct l0; discriminate H.
    + simpl in H2. inversion H2; subst y l2.
      apply (Ha l1 e l H1 Hr).
  - destruct (Hb l e l2 H2 Hr) as (l0 & wt & -> & Hwt).
    exists (a ++ l0), wt. split; [| exact Hwt].
    rewrite H1, app_assoc. reflexivity.
Qed.

Lemma after_watch_flat_map {A} (f : A -> list event) xs :
  (forall y, In y xs -> after_watch (f y)) -> after_watch (flat_map f xs).
Proof.
  induction xs as [| y xs IH]; intros H; simpl; [apply after_watch_nil |].
  apply after_watch_app; [apply H; left; reflexivity |].
  apply IH. intros z Hz. apply H. right. exact Hz.
Qed.

Lemma after_watch_single e : is_reaction e = false -> after_watch [e].
Proof.
  intros He l1 e' l2 H Hr.
  destruct l1 as [| y l1]; [| destruct l1; discriminate H].
  inversion H; subst. congruence.
Qed.

Lemma after_watch_chunk sf watched c :
  chunk_ok watched c -> after_watch (chunk_rows sf c).
Proof.
  intros (_ & _ & Hr). unfold chunk_rows, reaction_rows.
  destruct (ck_reaction c) as [[vid name] |]; [| apply after_watch_single; reflexivity].
  intros l1 e l2 H He.
  destruct l1 as [| y l1]; [inversion H; subst; discriminate He |].
  destruct l1 as [| z l1]; [| destruct l1; discriminate H].
  inversion H; subst.
  exists [], (watch_row sf c). repeat split.
Qed.

Lemma after_watch_session x :
  session_ok video_ids x -> after_watch (session_rows x).
Proof.
  intros (_ & _ & Hall & _). rewrite session_rows_eq.
  apply after_watch_app.
  - destruct (ss_login x); [apply after_watch_single; reflexivity | apply after_watch_nil].
  - apply (after_watch_app [start_row x]); [apply after_watch_single; reflexivity |].
    apply after_watch_app; [| apply after_watch_single; reflexivity].
    apply after_watch_flat_map. intros c Hc.
    rewrite Forall_forall in Hall. eapply after_watch_chunk. apply Hall. exact Hc.
Qed.

Lemma log_after_watch : after_watch log.
Proof.
  rewrite log_by_session. apply after_watch_flat_map.
  intros x Hx. apply after_watch_session. apply all_sessions_ok. exact Hx.
Qed.

(** The videos of the activity rows of a session are in its subset. *)
Lemma session_activity_videos x a :
  In x (all_sessions blocks) -> In a log ->
  session_id a = sid_of x -> is_activity a = true ->
  exists v, video_id a = Some v /\ In v (ss_watched x).
Proof.
  intros Hx Ha Hsid Hact.
  pose proof (all_sessions_ok x Hx) as Hok.
  assert (Hin : In a (filter is_activity (session_rows x))).
  { apply filter_In. split; [apply row_of_session; assumption | exact Hact]. }
  rewrite (filter_activity video_ids x Hok) in Hin.
  apply in_flat_map in Hin. destruct Hin as (c & Hc & Hin).
  destruct Hok as (_ & _ & Hall & _). rewrite Forall_forall in Hall.
  pose proof (Hall c Hc) as Hcok.
  apply (in_chunk_rows _ _ _ _ Hcok) in Hin.
  destruct Hin as [-> | (vid & name & _ & Hvid & _ & ->)].
  - exists (ck_video c). split; [reflexivity |]. apply Hcok.
  - exists vid. split; [reflexivity | exact Hvid].
Qed.

Lemma log_reactions_follow_watch : reactions_follow_watch video_ids log.
Proof.
  intros l1 e l2 H Hr. split; [apply (log_after_watch l1 e l2 H Hr) |].
  assert (He : In e log) by (rewrite H; apply in_elt).
  assert (Hocc : occurs_session (session_id e) log) by (exists e; split; [exact He | reflexivity]).
  apply occurs_session_inv in Hocc. destruct Hocc as (x & Hx & Hsid).
  exists (ss_watched x). split.
  - apply (all_sessions_ok x Hx).
  - intros a Ha Hsa Hact. apply session_activity_videos; [assumption | assumption | congruence | assumption].
Qed.

(* ---------------------------------------------------------------- *)
(** *** The order of the sessions of a user *)

Lemma log_session_order_law : session_order_law log.
Proof.
  split.
  - intros uid k ee es Hee Hes Hsid1 Hn1 Hsid2 Hn2.
    destruct (log_row_at uid k ee Hee Hsid1) as (b1 & y1 & Hb1 & Hu1 & Hk1 & Hin1).
    destruct (log_row_at uid (S k) es Hes Hsid2) as (b2 & y2 & Hb2 & Hu2 & Hk2 & Hin2).
    assert (b2 = b1) by (apply (NoDup_map_key ub_user blocks); congruence).
    subst b2.
    rewrite (session_end_row video_ids y1 (block_session_ok b1 k y1 Hb1 Hk1) ee Hin1 Hn1).
    rewrite (session_start_row video_ids y2 (block_session_ok b1 _ y2 Hb1 Hk2) es Hin2 Hn2).
    simpl.
    rewrite Forall_forall in blocks_ok.
    destruct (blocks_ok b1 Hb1) as (_ & _ & h & _ & Hfrom).
    destruct (sessions_from_consecutive _ _ _ _ _ _ _ _ Hfrom Hk1 Hk2) as (gap & Hgap & E).
    split; [| exists gap; split; [exact Hgap | exact E]].
    pose proof us_per_second_pos. nia.
  - intros uid i j e1 e2 Hij He1 He2 Hsid1 Hn1 Hsid2 Hn2.
    destruct (log_row_at uid i e1 He1 Hsid1) as (b1 & y1 & Hb1 & Hu1 & Hk1 & Hin1).
    destruct (log_row_at uid j e2 He2 Hsid2) as (b2 & y2 & Hb2 & Hu2 & Hk2 & Hin2).
    assert (b2 = b1) by (apply (NoDup_map_key ub_user blocks); congruence).
    subst b2.
    rewrite (session_start_row video_ids y1 (block_session_ok b1 _ y1 Hb1 Hk1) e1 Hin1 Hn1).
    rewrite (session_start_row video_ids y2 (block_session_ok b1 _ y2 Hb1 Hk2) e2 Hin2 Hn2).
    simpl.
    rewrite Forall_forall in blocks_ok.
    destruct (blocks_ok b1 Hb1) as (_ & Hall & h & _ & Hfrom).
    eapply sessions_from_increasing; eassumption.
Qed.

(* ---------------------------------------------------------------- *)
(** *** The first session of a user *)

(** The block of a user starts with the session that logs in. *)
Lemma block_head b :
  In b blocks ->
  exists x0 rest h,
    ub_sessions b = x0 :: rest /\
    ss_login x0 = true /\
    sid_of x0 = session_id_of (ub_user b) 0 /\
    sf_user_id (ss_fields x0) = ub_user b /\
    0 <= h <= days cfg * 24 /\
    ss_start x0 = base_dt + h * 3600 * us_per_second.
Proof.
  intros Hb. rewrite Forall_forall in blocks_ok.
  destruct (blocks_ok b Hb) as (Hne & _ & h & Hh & Hfrom).
  destruct (ub_sessions b) as [| x0 rest]; [congruence |].
  simpl in Hfrom. destruct Hfrom as (Hu & Hsid & Hlogin & Hstart & _).
  exists x0, rest, h. repeat split; try assumption; lia.
Qed.

Lemma log_initial_cursor :
  initial_cursor_closed cfg base_dt (map ub_user blocks) log.
Proof.
  intros uid Huid. apply in_map_iff in Huid. destruct Huid as (b & Hu & Hb).
  split.
  - destruct (block_head b Hb) as (x0 & rest & h & Hss & _ & Hsid & _).
    exists (start_row x0). split; [| split; [| reflexivity]].
    + apply (session_rows_in_log x0); [| apply in_start_row].
      apply in_all_sessions. exists b. split; [exact Hb |]. rewrite Hss. left. reflexivity.
    + simpl. unfold sid_of in Hsid. congruence.
  - intros es Hes Hsid Hn.
    destruct (log_row_at uid 0 es Hes Hsid) as (b1 & y & Hb1 & Hu1 & Hk & Hin).
    rewrite (session_start_row video_ids y (block_session_ok b1 _ y Hb1 Hk) es Hin Hn).
    destruct (block_head b1 Hb1) as (x0 & rest & h & Hss & _ & _ & _ & Hh & Hstart).
    rewrite Hss in Hk. simpl in Hk. inversion Hk; subst y.
    exists h. split; [exact Hh | exact Hstart].
Qed.

(* ---------------------------------------------------------------- *)
(** *** first_login *)

Lemma log_users uid : occurs_user uid log <-> In uid (map ub_user blocks).
Proof.
  split.
  - intros (e & He & Hu). apply log_row_indexed in He.
    destruct He as (b & _ & _ & Hb & _ & _ & _ & Hu').
    apply in_map_iff. exists b. split; [congruence | exact Hb].
  - intros H. apply in_map_iff in H. destruct H as (b & Hu & Hb).
    destruct (block_head b Hb) as (x0 & rest & h & Hss & _ & _ & Hu0 & _).
    exists (start_row x0). split; [| simpl; congruence].
    apply (session_rows_in_log x0); [| apply in_start_row].
    apply in_all_sessions. exists b. split; [exact Hb |]. rewrite Hss. left. reflexivity.
Qed.

Lemma log_first_login_law : first_login_law (map ub_user blocks) log.
Proof.
  split; [exact log_users |].
  intros uid Huid. apply in_map_iff in Huid. destruct Huid as (b & Hu & Hb).
  destruct (block_head b Hb) as (x0 & rest & h & Hss & Hlogin & _ & Hu0 & _).
  pose proof blocks_ok as Hall. rewrite Forall_forall in Hall.
  destruct (Hall b Hb) as (_ & Hsok & h' & _ & Hfrom).
  split.
  - unfold count. rewrite filter_andb. subst uid. rewrite (block_filter b Hb).
    unfold block_rows.
    rewrite (filter_first_login_sessions video_ids _ _ _ _ _ Hfrom Hsok), Hss.
    reflexivity.
  - destruct (in_split b blocks Hb) as (bs1 & bs2 & Hsplit).
    exists (flat_map block_rows bs1), (login_row x0), (start_row x0),
           ((flat_map (chunk_rows (ss_fields x0)) (ss_chunks x0) ++ [end_row x0])
            ++ flat_map session_rows rest ++ flat_map block_rows bs2).
    split.
    { unfold log. rewrite Hsplit, flat_map_app. f_equal.
      cbn [flat_map]. unfold block_rows at 1. rewrite Hss. cbn [flat_map].
      rewrite session_rows_eq, Hlogin. simpl.
      rewrite <- !app_assoc. reflexivity. }
    split; [simpl; congruence |]. split; [reflexivity |].
    split; [simpl; congruence |]. split; [reflexivity |].
    split.
    { intros e He Hue. apply in_flat_map in He. destruct He as (b' & Hb' & He).
      assert (Hb'in : In b' blocks).
      { rewrite Hsplit. apply in_or_app. left. exact Hb'. }
      pose proof (block_rows_user b' e Hb'in He) as Hu'.
      pose proof users_NoDup as Hnd. rewrite Hsplit, map_app in Hnd. simpl in Hnd.
      apply NoDup_remove_2 in Hnd. apply Hnd. apply in_or_app. left.
      apply in_map_iff. exists b'. split; [congruence | exact Hb']. }
    split; [reflexivity |].
    intros e He Hue Hn.
    apply log_row_indexed in He.
    destruct He as (b' & k & y & Hb' & Hk & Hin & _ & Hu').
    assert (b' = b) by (apply (NoDup_map_key ub_user blocks); congruence).
    subst b'.
    rewrite (session_start_row video_ids y (block_session_ok b _ y Hb Hk) e Hin Hn).
    simpl.
    pose proof (sessions_from_starts video_ids _ _ _ _ _ Hfrom Hsok) as Hge.
    rewrite Forall_forall in Hge.
    pose proof (Hge y (nth_error_In _ _ Hk)) as Hy.
    pose proof (Hge x0) as Hx0. rewrite Hss in Hfrom. simpl in Hfrom.
    destruct Hfrom as (_ & _ & _ & Hstart0 & _). lia.
Qed.

End Log.

(* ------------------------------------------------------------------ *)
(** ** The log of a run *)

(** The log of a successful run is made of one well-formed block per
    user, and no two blocks are of the same user. *)
Lemma run_log sd clk cfg out w w' :
  write_outputs sd clk cfg w = (Ok out, w') ->
  exists blocks,
    events_jsonl out = flat_map block_rows blocks /\
    map ub_user blocks = map u_user_id (users_csv out) /\
    Forall (block_ok cfg (window_start clk cfg) (map v_video_id (videos_csv out))) blocks /\
    NoDup (map ub_user blocks).
Proof.
  intros H. apply write_outputs_Ok in H.
  destruct H as (Hu & Hv & _ & blocks & Hmap & Hok & Hlog).
  exists blocks. rewrite Hu, Hv, Hmap.
  repeat split; try assumption; try reflexivity.
  apply user_ids_NoDup.
Qed.

(** C3, as far as the code goes. For every session id of the log there is
    exactly one session_start and exactly one session_end; every
    watch_time, like and heart row of the session is later than its
    session_start, and these rows are in non-decreasing time order. The
    session_end gives no upper bound. *)
Theorem session_rows_bracketed_from_start sd clk cfg w out w' :
  write_outputs sd clk cfg w = (Ok out, w') ->
  session_bracketing_from_start (events_jsonl out).
Proof.
  intros H. apply run_log in H. destruct H as (blocks & -> & _ & Hok & Hnd).
  eapply log_session_bracketing; eassumption.
Qed.

Lemma session_rows_bracketed_from_start_witness :
  demo_run = (Ok demo_outputs, snd demo_run) /\
  session_bracketing_from_start (events_jsonl demo_outputs).
Proof.
  assert (H : fst demo_run = Ok demo_outputs) by (vm_compute; reflexivity).
  apply pair_of_fst in H.
  split; [exact H |].
  exact (session_rows_bracketed_from_start _ _ _ _ _ _ H).
Defined.

(** C3 as stated fails: with every step of the time pointer at 50 seconds
    and every watch value at 1, the second watch_time row of the session
    is 100 seconds after session_start and session_end 59 seconds after. *)
Lemma session_bracketing_counterexample :
  ~ (forall sd clk cfg w out w',
       write_outputs sd clk cfg w = (Ok out, w') ->
       session_bracketing (events_jsonl out)).
Proof.
  intros H.
  assert (Hrun : fst stuck_run = Ok stuck_outputs) by (vm_compute; reflexivity).
  apply pair_of_fst in Hrun.
  pose proof (H _ _ _ _ _ _ Hrun "s_u_00000_0000"%string) as Hs. clear H.
  assert (Hin : forall n, (n < 23)%nat ->
                  In (row_at n (events_jsonl stuck_outputs)) (events_jsonl stuck_outputs)).
  { intros n Hn. unfold row_at. apply nth_In.
    replace (List.length (events_jsonl stuck_outputs)) with 23%nat
      by (vm_compute; reflexivity).
    exact Hn. }
  assert (Hocc : occurs_session "s_u_00000_0000" (events_jsonl stuck_outputs)).
  { exists (row_at 1 (events_jsonl stuck_outputs)).
    split; [apply Hin; lia | vm_compute; reflexivity]. }
  apply Hs in Hocc. clear Hs.
  destruct Hocc as (_ & _ & Hb & _).
  assert (Hle : timestamp (row_at 1 (events_jsonl stuck_outputs))
                <= timestamp (row_at 4 (events_jsonl stuck_outputs))
                <= timestamp (row_at 22 (events_jsonl stuck_outputs))).
  { apply Hb;
      match goal with
      | |- In _ _ => apply Hin; lia
      | |- _ => vm_compute; reflexivity
      end. }
  assert (Hgt : timestamp (row_at 22 (events_jsonl stuck_outputs))
                < timestamp (row_at 4 (events_jsonl stuck_outputs)))
    by (vm_compute; reflexivity).
  lia.
Qed.

(** C4, as far as the code goes. The first session_start of every user is
    at the window start plus a whole number of hours taken in
    [0, days*24], both ends included. *)
Theorem initial_cursor_in_closed_window sd clk cfg w out w' :
  write_outputs sd clk cfg w = (Ok out, w') ->
  initial_cursor_closed cfg (window_start clk cfg)
    (map u_user_id (users_csv out)) (events_jsonl out).
Proof.
  intros H. apply run_log in H. destruct H as (blocks & -> & <- & Hok & Hnd).
  eapply log_initial_cursor; eassumption.
Qed.

Lemma initial_cursor_in_closed_window_witness :
  demo_run = (Ok demo_outputs, snd demo_run) /\
  initial_cursor_closed demo_config (window_start demo_clock demo_config)
    (map u_user_id (users_csv demo_outputs)) (events_jsonl demo_outputs).
Proof.
  assert (H : fst demo_run = Ok demo_outputs) by (vm_compute; reflexivity).
  apply pair_of_fst in H.
  split; [exact H |].
  exact (initial_cursor_in_closed_window _ _ _ _ _ _ H).
Defined.

(** In the stuck run the only session starts at the clock reading itself,
    the end of the window. *)
Lemma stuck_session_start es :
  In es (events_jsonl stuck_outputs) ->
  event_name es = "session_start"%string ->
  timestamp es = utcnow_events demo_clock.
Proof.
  intros Hin Hn.
  assert (Hall : forallb (fun e => negb (named "session_start" e)
                                   || (timestamp e =? utcnow_events demo_clock))
                         (events_jsonl stuck_outputs) = true)
    by (vm_compute; reflexivity).
  rewrite forallb_forall in Hall. specialize (Hall es Hin).
  unfold named in Hall. rewrite Hn, String.eqb_refl in Hall.
  cbn [negb orb] in Hall. apply Z.eqb_eq in Hall. exact Hall.
Qed.

(** C4 as stated fails: with days = 1 and the draw of [randint(0, 24)]
    equal to 24, the first session starts 24 hours after the window
    start, which is outside [0, 24). *)
Lemma initial_cursor_counterexample :
  ~ (forall sd clk cfg w out w',
       write_outputs sd clk cfg w = (Ok out, w') ->
       initial_cursor_half_open cfg (window_start clk cfg)
         (map u_user_id (users_csv out)) (events_jsonl out)).
Proof.
  intros H.
  assert (Hrun : fst stuck_run = Ok stuck_outputs) by (vm_compute; reflexivity).
  apply pair_of_fst in Hrun.
  pose proof (H stuck_seeding demo_clock small_config demo_process
                stuck_outputs (snd stuck_run) Hrun "u_00000"%string) as Hhalf.
  destruct Hhalf as (es & Hin & Hsid & Hn & h & Hh & Hts).
  { vm_compute. left. reflexivity. }
  rewrite (stuck_session_start es Hin Hn) in Hts.
  unfold window_start, us_per_day, us_per_second in Hts.
  change (days small_config) with 1 in Hh, Hts.
  lia.
Qed.

(** C5. For every session, the timestamp of session_end is the timestamp
    of session_start plus the sum of the session's watch_time values plus
    a slack of 0 to 60 seconds; so session_end is not before
    session_start. *)
Theorem session_end_is_start_plus_watch_plus_slack sd clk cfg w out w' :
  write_outputs sd clk cfg w = (Ok out, w') ->
  session_end_law (events_jsonl out).
Proof.
  intros H. apply run_log in H. destruct H as (blocks & -> & _ & Hok & Hnd).
  eapply log_session_end_law; eassumption.
Qed.

Lemma session_end_is_start_plus_watch_plus_slack_witness :
  demo_run = (Ok demo_outputs, snd demo_run) /\
  session_end_law (events_jsonl demo_outputs).
Proof.
  assert (H : fst demo_run = Ok demo_outputs) by (vm_compute; reflexivity).
  apply pair_of_fst in H.
  split; [exact H |].
  exact (session_end_is_start_plus_watch_plus_slack _ _ _ _ _ _ H).
Defined.

(** C6. The users of the log are the users of users.csv; each of them has
    exactly one first_login row, placed right before the user's first
    session_start with no row of the user before it, and timestamped 5
    minutes before that session_start, which is the earliest
    session_start of the user. *)
Theorem one_first_login_per_user sd clk cfg w out w' :
  write_outputs sd clk cfg w = (Ok out, w') ->
  first_login_law (map u_user_id (users_csv out)) (events_jsonl out).
Proof.
  intros H. apply run_log in H. destruct H as (blocks & -> & <- & Hok & Hnd).
  eapply log_first_login_law; eassumption.
Qed.

Lemma one_first_login_per_user_witness :
  demo_run = (Ok demo_outputs, snd demo_run) /\
  first_login_law (map u_user_id (users_csv demo_outputs)) (events_jsonl demo_outputs).
Proof.
  assert (H : fst demo_run = Ok demo_outputs) by (vm_compute; reflexivity).
  apply pair_of_fst in H.
  split; [exact H |].
  exact (one_first_login_per_user _ _ _ _ _ _ H).
Defined.

(** C7. For every user, session k+1 starts after session k ends, 10 to
    600 minutes later, and the session_start timestamps increase strictly
    with the session index. *)
Theorem sessions_of_a_user_in_order sd clk cfg w out w' :
  write_outputs sd clk cfg w = (Ok out, w') ->
  session_order_law (events_jsonl out).
Proof.
  intros H. apply run_log in H. destruct H as (blocks & -> & _ & Hok & Hnd).
  eapply log_session_order_law; eassumption.
Qed.

Lemma sessions_of_a_user_in_order_witness :
  demo_run = (Ok demo_outputs, snd demo_run) /\
  session_order_law (events_jsonl demo_outputs).
Proof.
  assert (H : fst demo_run = Ok demo_outputs) by (vm_compute; reflexivity).
  apply pair_of_fst in H.
  split; [exact H |].
  exact (sessions_of_a_user_in_order _ _ _ _ _ _ H).
Defined.

(** C8. In every row, video_id is null exactly for first_login,
    session_start and session_end, non-null exactly for watch_time, like
    and heart, and value is non-null exactly for watch_time. *)
Theorem null_fields_by_event_name sd clk cfg w out w' :
  write_outputs sd clk cfg w = (Ok out, w') ->
  null_discipline (events_jsonl out).
Proof.
  intros H. apply run_log in H. destruct H as (blocks & -> & _ & Hok & Hnd).
  eapply log_null_discipline; eassumption.
Qed.

Lemma null_fields_by_event_name_witness :
  demo_run = (Ok demo_outputs, snd demo_run) /\
  null_discipline (events_jsonl demo_outputs).
Proof.
  assert (H : fst demo_run = Ok demo_outputs) by (vm_compute; reflexivity).
  apply pair_of_fst in H.
  split; [exact H |].
  exact (null_fields_by_event_name _ _ _ _ _ _ H).
Defined.

(** C9. Every session of the log has at least one and at most ten
    watch_time rows, one per chunk. *)
Theorem every_session_has_watch_time sd clk cfg w out w' :
  write_outputs sd clk cfg w = (Ok out, w') ->
  sessions_have_watch (events_jsonl out).
Proof.
  intros H. apply run_log in H. destruct H as (blocks & -> & _ & Hok & Hnd).
  eapply log_sessions_have_watch; eassumption.
Qed.

Lemma every_session_has_watch_time_witness :
  demo_run = (Ok demo_outputs, snd demo_run) /\
  sessions_have_watch (events_jsonl demo_outputs).
Proof.
  assert (H : fst demo_run = Ok demo_outputs) by (vm_compute; reflexivity).
  apply pair_of_fst in H.
  split; [exact H |].
  exact (every_session_has_watch_time _ _ _ _ _ _ H).
Defined.

(** C10. Every like or heart row comes right after a watch_time row of the
    same session, one second later, and the videos of all activity rows
    of its session belong to one subset drawn from the catalogue. *)
Theorem reaction_follows_its_watch_time sd clk cfg w out w' :
  write_outputs sd clk cfg w = (Ok out, w') ->
  reactions_follow_watch (map v_video_id (videos_csv out)) (events_jsonl out).
Proof.
  intros H. apply run_log in H. destruct H as (blocks & -> & _ & Hok & Hnd).
  eapply log_reactions_follow_watch; eassumption.
Qed.

Lemma reaction_follows_its_watch_time_witness :
  demo_run = (Ok demo_outputs, snd demo_run) /\
  reactions_follow_watch (map v_video_id (videos_csv demo_outputs))
    (events_jsonl demo_outputs).
Proof.
  assert (H : fst demo_run = Ok demo_outputs) by (vm_compute; reflexivity).
  apply pair_of_fst in H.
  split; [exact H |].
  exact (reaction_follows_its_watch_time _ _ _ _ _ _ H).
Defined.

(* ------------------------------------------------------------------ *)
(** ** Determinism *)

(* ------------------------------------------------------------------ *)
(** ** Two runs at two clocks, side by side *)

Section Clock.

Variables ddate dtime : Z.

Lemma sim_ret {A} (R : A -> A -> Prop) a a' : R a a' -> sim ddate dtime R (ret a) (ret a').
Proof.
  intros HR w w' x w1 x' w1' Hw H H'.
  apply ret_Ok in H, H'. destruct H as [-> ->]. destruct H' as [-> ->].
  split; assumption.
Qed.

Lemma sim_raise {A} (R : A -> A -> Prop) e (m' : M A) : sim ddate dtime R (raise e) m'.
Proof. intros w w' x w1 x' w1' Hw H H'. discriminate H. Qed.

Lemma sim_bind {A B} (R : A -> A -> Prop) (Q : B -> B -> Prop)
    (m m' : M A) (f f' : A -> M B) :
  sim ddate dtime R m m' ->
  (forall a a', R a a' -> sim ddate dtime Q (f a) (f' a')) ->
  sim ddate dtime Q (bind m f) (bind m' f').
Proof.
  intros Hm Hf w w' b w2 b' w2' Hw H H'.
  bind_inv H a w1 H1. bind_inv H' a' w1' H1'.
  destruct (Hm _ _ _ _ _ _ Hw H1 H1') as [Ha Hw1].
  exact (Hf a a' Ha _ _ _ _ _ _ Hw1 H H').
Qed.

Lemma sim_for_each {A S} (R : S -> S -> Prop) (body body' : A -> S -> M S) xs :
  (forall x s s', R s s' -> sim ddate dtime R (body x s) (body' x s')) ->
  forall s s', R s s' -> sim ddate dtime R (for_each body xs s) (for_each body' xs s').
Proof.
  intros Hbody. induction xs as [| x xs IH]; intros s s' Hs.
  - rewrite !for_each_nil. apply sim_ret. exact Hs.
  - rewrite !for_each_cons. eapply sim_bind; [apply Hbody; exact Hs |].
    intros s1 s1' Hs1. apply IH. exact Hs1.
Qed.

(** The draws do not look at the clock. *)
Lemma sim_py_next : sim ddate dtime eq py_next py_next.
Proof.
  intros w w' a w1 a' w1' (Hpd & Hpu & Hnd & Hnu & Hus & Hvs & Hrs) H H'.
  unfold py_next in H, H'. inversion H; subst a w1. inversion H'; subst a' w1'.
  split; [rewrite Hpd, Hpu; reflexivity |].
  unfold same_up_to_clock. cbn. rewrite Hpu. repeat split; assumption.
Qed.

Lemma sim_np_next : sim ddate dtime eq np_next np_next.
Proof.
  intros w w' a w1 a' w1' (Hpd & Hpu & Hnd & Hnu & Hus & Hvs & Hrs) H H'.
  unfold np_next in H, H'. inversion H; subst a w1. inversion H'; subst a' w1'.
  split; [rewrite Hnd, Hnu; reflexivity |].
  unfold same_up_to_clock. cbn. rewrite Hnu. repeat split; assumption.
Qed.

Ltac sim_eq L :=
  eapply sim_bind;
  [ L
  | let a := fresh "a" in
    let a' := fresh "a'" in
    let E := fresh "E" in
    intros a a' E; cbv beta in E; try subst a' ].

Lemma sim_randbelow n : sim ddate dtime eq (randbelow n) (randbelow n).
Proof.
  unfold randbelow. sim_eq ltac:(apply sim_py_next). apply sim_ret. reflexivity.
Qed.

Lemma sim_randint a b : sim ddate dtime eq (randint a b) (randint a b).
Proof.
  unfold randint. destruct (b <? a); [apply sim_raise |].
  sim_eq ltac:(apply sim_randbelow). apply sim_ret. reflexivity.
Qed.

Lemma sim_choice {A} (xs : list A) : sim ddate dtime eq (choice xs) (choice xs).
Proof.
  unfold choice. destruct xs as [| y ys]; [apply sim_raise |].
  sim_eq ltac:(apply sim_randbelow).
  destruct (nth_error (y :: ys) (Z.to_nat a)); [apply sim_ret; reflexivity | apply sim_raise].
Qed.

Lemma sim_sample_loop {A} k : forall pool : list A,
  sim ddate dtime eq (sample_loop k pool) (sample_loop k pool).
Proof.
  induction k as [| k IH]; intros pool; cbn [sample_loop].
  - apply sim_ret. reflexivity.
  - sim_eq ltac:(apply sim_randbelow).
    destruct (nth_error pool (Z.to_nat a)); [| apply sim_raise].
    sim_eq ltac:(apply IH). apply sim_ret. reflexivity.
Qed.

Lemma sim_sample {A} (population : list A) k :
  sim ddate dtime eq (sample population k) (sample population k).
Proof.
  unfold sample.
  destruct ((k <? 0) || (Z.of_nat (List.length population) <? k));
    [apply sim_raise | apply sim_sample_loop].
Qed.

Lemma sim_random_random : sim ddate dtime eq random_random random_random.
Proof.
  unfold random_random. sim_eq ltac:(apply sim_py_next). apply sim_ret. reflexivity.
Qed.

Lemma sim_np_random_poisson : sim ddate dtime eq np_random_poisson np_random_poisson.
Proof.
  unfold np_random_poisson. sim_eq ltac:(apply sim_np_next). apply sim_ret. reflexivity.
Qed.

Lemma sim_int_np_random_exponential :
  sim ddate dtime eq int_np_random_exponential int_np_random_exponential.
Proof.
  unfold int_np_random_exponential. sim_eq ltac:(apply sim_np_next).
  apply sim_ret. reflexivity.
Qed.

Lemma sim_lift {A} (R : A -> A -> Prop) (r r' : result A) :
  (forall a a', r = Ok a -> r' = Ok a' -> R a a') ->
  sim ddate dtime R (lift r) (lift r').
Proof.
  intros HR w w' a w1 a' w1' Hw H H'.
  unfold lift in H, H'. inversion H; subst. inversion H'; subst.
  split; [apply HR; reflexivity | exact Hw].
Qed.

(** A duration is the same at both clocks. *)
Lemma sim_duration (r : result Z) : sim ddate dtime eq (lift r) (lift r).
Proof. apply sim_lift. intros a a' -> H. inversion H. reflexivity. Qed.

(** A datetime computed from a datetime [dtime] later is [dtime] later. *)
Lemma sim_datetime_add t td :
  sim ddate dtime (later dtime) (lift (datetime_add t td)) (lift (datetime_add (t + dtime) td)).
Proof.
  apply sim_lift. intros a a' H H'.
  apply datetime_add_Ok in H, H'. unfold later. lia.
Qed.

Lemma sim_datetime_sub t td :
  sim ddate dtime (later dtime) (lift (datetime_sub t td)) (lift (datetime_sub (t + dtime) td)).
Proof.
  apply sim_lift. intros a a' H H'.
  apply datetime_sub_Ok in H, H'. unfold later. lia.
Qed.

Lemma date_sub_Ok d td r : date_sub d td = Ok r -> r = d - td / us_per_day.
Proof.
  unfold date_sub.
  destruct ((1 <=? d - td / us_per_day) && (d - td / us_per_day <=? MAX_ORDINAL));
    intros H; inversion H; reflexivity.
Qed.

Lemma sim_date_sub d td :
  sim ddate dtime (later ddate) (lift (date_sub d td)) (lift (date_sub (d + ddate) td)).
Proof.
  apply sim_lift. intros a a' H H'.
  apply date_sub_Ok in H, H'. unfold later. lia.
Qed.

(** The rows appended at the two clocks differ by the clock only. *)
Lemma sim_rows_append sf t vid name val :
  sim ddate dtime (fun _ _ => True)
       (rows_append (row sf t vid name val))
       (rows_append (row sf (t + dtime) vid name val)).
Proof.
  intros w w' a w1 a' w1' (Hpd & Hpu & Hnd & Hnu & Hus & Hvs & Hrs) H H'.
  unfold rows_append, set_rows in H, H'.
  inversion H; subst a w1. inversion H'; subst a' w1'.
  split; [exact I |]. unfold same_up_to_clock. cbn.
  repeat split; try assumption.
  rewrite Hrs, map_app. reflexivity.
Qed.

Lemma sim_users_append uid d tier age gnd :
  sim ddate dtime (fun _ _ => True)
       (users_append (mk_user_row uid d tier age gnd))
       (users_append (mk_user_row uid (d + ddate) tier age gnd)).
Proof.
  intros w w' a w1 a' w1' (Hpd & Hpu & Hnd & Hnu & Hus & Hvs & Hrs) H H'.
  unfold users_append, set_users in H, H'.
  inversion H; subst a w1. inversion H'; subst a' w1'.
  split; [exact I |]. unfold same_up_to_clock. cbn.
  repeat split; try assumption.
  rewrite Hus, map_app. reflexivity.
Qed.

Lemma sim_videos_append r :
  sim ddate dtime (fun _ _ => True) (videos_append r) (videos_append r).
Proof.
  intros w w' a w1 a' w1' (Hpd & Hpu & Hnd & Hnu & Hus & Hvs & Hrs) H H'.
  unfold videos_append, set_videos in H, H'.
  inversion H; subst a w1. inversion H'; subst a' w1'.
  split; [exact I |]. unfold same_up_to_clock. cbn.
  repeat split; try assumption.
  rewrite Hvs. reflexivity.
Qed.

Lemma sim_set_users : sim ddate dtime (fun _ _ => True) (set_users []) (set_users []).
Proof.
  intros w w' a w1 a' w1' (Hpd & Hpu & Hnd & Hnu & Hus & Hvs & Hrs) H H'.
  unfold set_users in H, H'. inversion H; subst a w1. inversion H'; subst a' w1'.
  split; [exact I |]. unfold same_up_to_clock. cbn. repeat split; assumption.
Qed.

Lemma sim_set_videos : sim ddate dtime (fun _ _ => True) (set_videos []) (set_videos []).
Proof.
  intros w w' a w1 a' w1' (Hpd & Hpu & Hnd & Hnu & Hus & Hvs & Hrs) H H'.
  unfold set_videos in H, H'. inversion H; subst a w1. inversion H'; subst a' w1'.
  split; [exact I |]. unfold same_up_to_clock. cbn. repeat split; assumption.
Qed.

Lemma sim_set_rows : sim ddate dtime (fun _ _ => True) (set_rows []) (set_rows []).
Proof.
  intros w w' a w1 a' w1' (Hpd & Hpu & Hnd & Hnu & Hus & Hvs & Hrs) H H'.
  unfold set_rows in H, H'. inversion H; subst a w1. inversion H'; subst a' w1'.
  split; [exact I |]. unfold same_up_to_clock. cbn. repeat split; assumption.
Qed.

Lemma sim_get_users :
  sim ddate dtime (fun l l' => l' = map (shift_signup ddate) l) get_users get_users.
Proof.
  intros w w' a w1 a' w1' Hw H H'.
  unfold get_users in H, H'. inversion H; subst a w1. inversion H'; subst a' w1'.
  split; [apply Hw | exact Hw].
Qed.

Lemma sim_get_videos : sim ddate dtime eq get_videos get_videos.
Proof.
  intros w w' a w1 a' w1' Hw H H'.
  unfold get_videos in H, H'. inversion H; subst a w1. inversion H'; subst a' w1'.
  split; [symmetry; apply Hw | exact Hw].
Qed.

Lemma sim_get_rows :
  sim ddate dtime (fun l l' => l' = map (shift_timestamp dtime) l) get_rows get_rows.
Proof.
  intros w w' a w1 a' w1' Hw H H'.
  unfold get_rows in H, H'. inversion H; subst a w1. inversion H'; subst a' w1'.
  split; [apply Hw | exact Hw].
Qed.

Ltac sim_later L :=
  eapply sim_bind;
  [ L
  | let a := fresh "t" in
    let a' := fresh "t'" in
    let E := fresh "E" in
    intros a a' E; unfold later in E; subst a' ].

Ltac sim_unit L :=
  eapply sim_bind; [ L | intros _ _ _ ].

(** The loops of [generate_events], the clock read [dtime] later. *)
Lemma sim_chunk_body sf watched i t sws :
  sim ddate dtime (later_state dtime)
       (chunk_body sf watched i (t, sws))
       (chunk_body sf watched i (t + dtime, sws)).
Proof.
  unfold chunk_body.
  sim_eq ltac:(apply sim_randint).
  sim_eq ltac:(apply sim_duration).
  sim_later ltac:(apply sim_datetime_add).
  sim_eq ltac:(apply sim_int_np_random_exponential).
  sim_eq ltac:(apply sim_choice).
  sim_unit ltac:(apply sim_rows_append).
  sim_eq ltac:(apply sim_random_random).
  eapply sim_bind with (R := fun _ _ => True).
  - destruct (lt_0_12 a3); [| apply sim_ret; exact I].
    sim_eq ltac:(apply sim_duration).
    sim_later ltac:(apply sim_datetime_add).
    sim_eq ltac:(apply sim_choice).
    sim_eq ltac:(apply sim_choice).
    apply sim_rows_append.
  - intros _ _ _. apply sim_ret. reflexivity.
Qed.

Lemma sim_session_body video_ids uid s t fl :
  sim ddate dtime (later_state dtime)
       (session_body video_ids uid s (t, fl))
       (session_body video_ids uid s (t + dtime, fl)).
Proof.
  unfold session_body.
  sim_eq ltac:(apply sim_choice).
  sim_eq ltac:(apply sim_choice).
  sim_eq ltac:(apply sim_choice).
  sim_eq ltac:(apply sim_choice).
  sim_eq ltac:(apply sim_choice).
  sim_eq ltac:(apply sim_randint).
  sim_eq ltac:(apply sim_randint).
  sim_eq ltac:(apply sim_randint).
  sim_eq ltac:(apply sim_choice).
  eapply sim_bind with (R := fun _ _ => True).
  { destruct (negb fl); [| apply sim_ret; exact I].
    sim_eq ltac:(apply sim_duration).
    sim_later ltac:(apply sim_datetime_sub).
    apply sim_rows_append. }
  intros _ _ _.
  sim_unit ltac:(apply sim_rows_append).
  sim_eq ltac:(apply sim_randint).
  sim_eq ltac:(apply sim_randint).
  sim_eq ltac:(apply sim_sample).
  eapply sim_bind.
  { apply sim_for_each with (R := later_state dtime).
    - intros x [t1 sws1] st' ->. apply sim_chunk_body.
    - reflexivity. }
  intros [t1 sws] st' ->. cbn [fst snd].
  sim_eq ltac:(apply sim_randint).
  sim_eq ltac:(apply sim_duration).
  sim_later ltac:(apply sim_datetime_add).
  sim_unit ltac:(apply sim_rows_append).
  sim_eq ltac:(apply sim_randint).
  sim_eq ltac:(apply sim_duration).
  sim_later ltac:(apply sim_datetime_add).
  apply sim_ret. reflexivity.
Qed.

Lemma sim_user_body cfg base_dt video_ids uid :
  sim ddate dtime (fun _ _ => True)
       (user_body cfg base_dt video_ids uid tt)
       (user_body cfg (base_dt + dtime) video_ids uid tt).
Proof.
  unfold user_body.
  sim_eq ltac:(apply sim_np_random_poisson).
  sim_eq ltac:(apply sim_randint).
  sim_eq ltac:(apply sim_duration).
  sim_later ltac:(apply sim_datetime_add).
  eapply sim_bind.
  { apply sim_for_each with (R := later_state dtime).
    - intros x [t1 fl1] st' ->. apply sim_session_body.
    - reflexivity. }
  intros _ _ _. apply sim_ret. exact I.
Qed.

(** [generate_events] reads the user ids only of [users_df]. *)
Lemma sim_generate_events cfg utcnow users_df users_df' videos_df :
  map u_user_id users_df' = map u_user_id users_df ->
  sim ddate dtime (fun l l' => l' = map (shift_timestamp dtime) l)
       (generate_events cfg utcnow users_df videos_df)
       (generate_events cfg (utcnow + dtime) users_df' videos_df).
Proof.
  intros Hids. unfold generate_events. rewrite Hids.
  sim_eq ltac:(apply sim_duration).
  sim_later ltac:(apply sim_datetime_sub).
  sim_unit ltac:(apply sim_set_rows).
  eapply sim_bind.
  { apply sim_for_each with (R := fun _ _ => True).
    - intros uid [] [] _. apply sim_user_body.
    - exact I. }
  intros _ _ _. apply sim_get_rows.
Qed.

Lemma sim_generate_users cfg utcnow utcnow' :
  date_of utcnow' = date_of utcnow + ddate ->
  sim ddate dtime (fun l l' => l' = map (shift_signup ddate) l)
       (generate_users cfg utcnow) (generate_users cfg utcnow').
Proof.
  intros Hd. unfold generate_users. rewrite Hd.
  sim_unit ltac:(apply sim_set_users).
  eapply sim_bind.
  { apply sim_for_each with (R := fun _ _ => True).
    - intros i [] [] _. unfold generate_users_body.
      sim_eq ltac:(apply sim_randint).
      sim_eq ltac:(apply sim_duration).
      sim_later ltac:(apply sim_date_sub).
      sim_eq ltac:(apply sim_choice).
      sim_eq ltac:(apply sim_choice).
      sim_eq ltac:(apply sim_choice).
      apply sim_users_append.
    - exact I. }
  intros _ _ _. apply sim_get_users.
Qed.

(** [generate_videos] does not read the clock. *)
Lemma sim_generate_videos cfg : sim ddate dtime eq (generate_videos cfg) (generate_videos cfg).
Proof.
  unfold generate_videos.
  sim_unit ltac:(apply sim_set_videos).
  eapply sim_bind.
  { apply sim_for_each with (R := fun _ _ => True).
    - intros i [] [] _. unfold generate_videos_body.
      sim_eq ltac:(apply sim_choice).
      sim_eq ltac:(apply sim_randint).
      sim_eq ltac:(apply sim_randint).
      apply sim_videos_append.
    - exact I. }
  intros _ _ _. apply sim_get_videos.
Qed.

(** Seeding brings any two processes to the same state of the
    generators. *)
Lemma seeded_same_up_to_clock sd s py pu np nu py' pu' np' nu' u w1 u' w1' :
  (random_seed sd s ;;; np_random_seed sd s) (process py pu np nu) = (Ok u, w1) ->
  (random_seed sd s ;;; np_random_seed sd s) (process py' pu' np' nu') = (Ok u', w1') ->
  same_up_to_clock ddate dtime w1 w1'.
Proof.
  unfold bind, random_seed, np_random_seed, process. cbn.
  destruct ((0 <=? s) && (s <? _)); [| intros H; discriminate H].
  intros H H'. inversion H; subst. inversion H'; subst.
  unfold same_up_to_clock. cbn. repeat split.
Qed.

End Clock.

Lemma map_shift_signup_0 l : map (shift_signup 0) l = l.
Proof.
  rewrite <- (map_id l) at 2. apply map_ext. intros [uid d tier age gnd].
  unfold shift_signup. cbn. rewrite Z.add_0_r. reflexivity.
Qed.

Lemma map_shift_timestamp_0 l : map (shift_timestamp 0) l = l.
Proof.
  rewrite <- (map_id l) at 2. apply map_ext. intros e. destruct e.
  unfold shift_timestamp. cbn. rewrite Z.add_0_r. reflexivity.
Qed.

Lemma write_outputs_seeded sd clk cfg w :
  write_outputs sd clk cfg w =
  ((random_seed sd (seed cfg) ;;; np_random_seed sd (seed cfg)) ;;;
   (users_df <- generate_users cfg (utcnow_users clk) ;;
    videos_df <- generate_videos cfg ;;
    events <- generate_events cfg (utcnow_events clk) users_df videos_df ;;
    ret (mk_outputs users_df videos_df generate_devices events))) w.
Proof.
  unfold write_outputs, bind.
  destruct (random_seed sd (seed cfg) w) as [[u | e] w1]; [| reflexivity].
  destruct (np_random_seed sd (seed cfg) w1) as [[u1 | e] w2]; reflexivity.
Qed.

(** C2, as far as the code goes. Two runs of one configuration that both
    complete, at any two readings of the clock and from any prior state
    of the generators, give the same videos.csv and the same devices.csv;
    their users.csv differ only by the signup dates, all moved by the
    number of days between the dates of the two runs, and their
    events.jsonl only by the timestamps, all moved by the time between
    the readings of the clock in [generate_events]. So users.csv is the
    same for two runs on one date, events.jsonl for two runs that read
    the same instant, and all four files when both hold. *)
Theorem outputs_fixed_up_to_the_clock
    sd cfg clk clk' py pu np nu py' pu' np' nu' out out' w1 w1' :
  write_outputs sd clk cfg (process py pu np nu) = (Ok out, w1) ->
  write_outputs sd clk' cfg (process py' pu' np' nu') = (Ok out', w1') ->
  outputs_up_to_clock (date_of (utcnow_users clk') - date_of (utcnow_users clk))
                      (utcnow_events clk' - utcnow_events clk) out out' /\
  (date_of (utcnow_users clk') = date_of (utcnow_users clk) ->
   users_csv out' = users_csv out) /\
  (utcnow_events clk' = utcnow_events clk -> events_jsonl out' = events_jsonl out) /\
  (date_of (utcnow_users clk') = date_of (utcnow_users clk) ->
   utcnow_events clk' = utcnow_events clk -> out' = out).
Proof.
  intros H H'.
  set (ddate := date_of (utcnow_users clk') - date_of (utcnow_users clk)).
  set (dtime := utcnow_events clk' - utcnow_events clk).
  assert (Hout : outputs_up_to_clock ddate dtime out out').
  { rewrite write_outputs_seeded in H, H'.
    bind_inv H u w0 Hs. bind_inv H' u' w0' Hs'.
    assert (Hw0 : same_up_to_clock ddate dtime w0 w0')
      by (eapply seeded_same_up_to_clock; [exact Hs | exact Hs']).
    replace (utcnow_events clk') with (utcnow_events clk + dtime) in H'
      by (unfold dtime; lia).
    match type of H with
    | ?m _ = _ =>
        match type of H' with
        | ?m' _ = _ =>
            assert (Hsim : sim ddate dtime (outputs_up_to_clock ddate dtime) m m')
        end
    end.
    { eapply sim_bind; [apply sim_generate_users; unfold ddate; lia |].
      intros users_df users_df' ->. cbv beta.
      eapply sim_bind; [apply sim_generate_videos |].
      intros videos_df videos_df' <-.
      eapply sim_bind.
      { apply sim_generate_events. rewrite map_map. apply map_ext.
        intros r. reflexivity. }
      intros events events' ->.
      apply sim_ret. unfold outputs_up_to_clock. cbn. repeat split. }
    exact (proj1 (Hsim _ _ _ _ _ _ Hw0 H H')). }
  split; [exact Hout |].
  destruct Hout as (Hu & Hv & Hd & He).
  assert (Hu0 : date_of (utcnow_users clk') = date_of (utcnow_users clk) ->
                users_csv out' = users_csv out).
  { intros E. rewrite Hu. replace ddate with 0 by (unfold ddate; lia).
    apply map_shift_signup_0. }
  assert (He0 : utcnow_events clk' = utcnow_events clk ->
                events_jsonl out' = events_jsonl out).
  { intros E. rewrite He. replace dtime with 0 by (unfold dtime; lia).
    apply map_shift_timestamp_0. }
  split; [exact Hu0 |]. split; [exact He0 |].
  intros E1 E2. specialize (Hu0 E1). specialize (He0 E2).
  destruct out, out'. cbn in *. congruence.
Qed.

Lemma outputs_fixed_up_to_the_clock_witness :
  fst demo_run = Ok demo_outputs /\
  fst next_day_run = Ok next_day_outputs /\
  outputs_up_to_clock 1 us_per_day demo_outputs next_day_outputs.
Proof.
  assert (H : fst demo_run = Ok demo_outputs) by (vm_compute; reflexivity).
  assert (H' : fst next_day_run = Ok next_day_outputs) by (vm_compute; reflexivity).
  split; [exact H |]. split; [exact H' |].
  apply pair_of_fst in H. apply pair_of_fst in H'.
  assert (Hd : date_of (utcnow_users next_day_clock) - date_of (utcnow_users demo_clock) = 1)
    by (vm_compute; reflexivity).
  assert (Ht : utcnow_events next_day_clock - utcnow_events demo_clock = us_per_day)
    by (vm_compute; reflexivity).
  rewrite <- Hd, <- Ht.
  exact (proj1 (outputs_fixed_up_to_the_clock _ _ _ _ _ _ _ _ _ _ _ _ _ _ _ _ H H')).
Defined.

(** C2 as stated fails: the same configuration run on 2024-01-01 and on
    2024-01-02 gives different signup dates in users.csv. *)
Lemma outputs_depend_on_the_clock : ~ outputs_fixed_by_configuration.
Proof.
  intros H.
  specialize (H demo_seeding demo_config demo_clock next_day_clock
                (fun _ => 0%N) 0%nat (fun _ => 0%N) 0%nat
                (fun _ => 0%N) 0%nat (fun _ => 0%N) 0%nat).
  assert (Hlt : first_signup_date
                  (fst (write_outputs demo_seeding demo_clock demo_config
                          (process (fun _ => 0%N) 0 (fun _ => 0%N) 0)))
                < first_signup_date
                    (fst (write_outputs demo_seeding next_day_clock demo_config
                            (process (fun _ => 0%N) 0 (fun _ => 0%N) 0))))
    by (vm_compute; reflexivity).
  rewrite H in Hlt. lia.
Qed.

(* ------------------------------------------------------------------ *)
(** ** The parts of a successful run *)

Lemma write_outputs_parts sd clk cfg out w w' :
  write_outputs sd clk cfg w = (Ok out, w') ->
  0 <= seed cfg < 2 ^ 32 /\
  devices_csv out = generate_devices /\
  exists w1 w2 w3,
    generate_users cfg (utcnow_users clk) w1 = (Ok (users_csv out), w2) /\
    generate_videos cfg w2 = (Ok (videos_csv out), w3) /\
    generate_events cfg (utcnow_events clk) (users_csv out) (videos_csv out) w3
    = (Ok (events_jsonl out), w').
Proof.
  unfold write_outputs. intros H.
  bind_inv H u1 v1 S1.
  bind_inv H u2 v2 S2.
  bind_inv H users_df v3 S3.
  bind_inv H videos_df v4 S4.
  bind_inv H events v5 S5.
  apply ret_Ok in H. destruct H as [-> ->]. simpl.
  split.
  - unfold np_random_seed in S2.
    destruct ((0 <=? seed cfg) && (seed cfg <? 2 ^ 32)) eqn:E; [| discriminate S2].
    apply andb_true_iff in E. destruct E as [E1 E2].
    apply Z.leb_le in E1. apply Z.ltb_lt in E2. split; assumption.
  - split; [reflexivity |]. exists v2, v3, v4. repeat split; assumption.
Qed.

(* ------------------------------------------------------------------ *)
(** ** users.csv and videos.csv *)

Lemma date_sub_days today k r :
  date_sub today (k * us_per_day) = Ok r -> r = today - k.
Proof.
  unfold date_sub. rewrite Z.div_mul by (compute; discriminate).
  destruct ((1 <=? today - k) && (today - k <=? MAX_ORDINAL));
    intros H; inversion H; reflexivity.
Qed.

Lemma generate_users_body_Ok cfg today i u w w' :
  generate_users_body cfg today i tt w = (Ok u, w') ->
  exists r, user_row_ok cfg today i r /\ w_users w' = w_users w ++ [r].
Proof.
  unfold generate_users_body. intros B.
  bind_inv B k v1 S1. op_inv S1. destruct S1 as [Hk (S1 & _ & _)].
  bind_inv B td v2 S2. op_inv S2. destruct S2 as [-> ->].
  bind_inv B sgn v3 S3. apply lift_Ok in S3. destruct S3 as [S3 ->].
  apply date_sub_days in S3.
  bind_inv B tier v4 S4. op_inv S4. destruct S4 as [Htier (S4 & _ & _)].
  bind_inv B age v5 S5. op_inv S5. destruct S5 as [Hage (S5 & _ & _)].
  bind_inv B gnd v6 S6. op_inv S6. destruct S6 as [Hgnd (S6 & _ & _)].
  apply users_append_Ok in B.
  eexists. split; [| rewrite B, S6, S5, S4, S1; reflexivity].
  unfold user_row_ok. simpl.
  split; [reflexivity |].
  split; [exists k; split; assumption |].
  repeat split; assumption.
Qed.

Lemma users_loop_rows cfg today xs :
  forall u w w',
    for_each (generate_users_body cfg today) xs tt w = (Ok u, w') ->
    exists l, w_users w' = w_users w ++ l /\ Forall2 (user_row_ok cfg today) xs l.
Proof.
  induction xs as [| i xs IH]; intros u w w' H.
  - rewrite for_each_nil in H. apply ret_Ok in H. destruct H as [_ ->].
    exists []. rewrite app_nil_r. split; [reflexivity | constructor].
  - rewrite for_each_cons in H.
    bind_inv H u1 w1 B. destruct u1.
    apply generate_users_body_Ok in B. destruct B as (r & Hr & Hw).
    apply IH in H. destruct H as (l & Hl & Hall).
    exists (r :: l). split.
    + rewrite Hl, Hw, <- app_assoc. reflexivity.
    + constructor; assumption.
Qed.

Lemma generate_users_rows cfg utcnow df w w' :
  generate_users cfg utcnow w = (Ok df, w') ->
  Forall2 (user_row_ok cfg (date_of utcnow)) (range (users cfg)) df.
Proof.
  unfold generate_users. intros H.
  bind_inv H u1 w1 S1.
  bind_inv H u2 w2 S2.
  apply users_loop_rows in S2. destruct S2 as (l & Hl & Hall).
  unfold get_users in H. inversion H; subst df w'; clear H.
  unfold set_users in S1. inversion S1; subst w1; clear S1.
  simpl in Hl. rewrite Hl. exact Hall.
Qed.

Lemma generate_videos_body_Ok i u w w' :
  generate_videos_body i tt w = (Ok u, w') ->
  exists r, video_row_ok i r /\ w_videos w' = w_videos w ++ [r].
Proof.
  unfold generate_videos_body. intros B.
  bind_inv B gnr v1 S1. op_inv S1. destruct S1 as [Hg (_ & S1 & _)].
  bind_inv B dur v2 S2. op_inv S2. destruct S2 as [Hd (_ & S2 & _)].
  bind_inv B p v3 S3. op_inv S3. destruct S3 as [Hp (_ & S3 & _)].
  apply videos_append_Ok in B.
  eexists. split; [| rewrite B, S3, S2, S1; reflexivity].
  unfold video_row_ok. simpl.
  split; [reflexivity |]. split; [reflexivity |].
  split; [assumption |]. split; [assumption |].
  exists p. split; [assumption | reflexivity].
Qed.

Lemma videos_loop_rows xs :
  forall u w w',
    for_each generate_videos_body xs tt w = (Ok u, w') ->
    exists l, w_videos w' = w_videos w ++ l /\ Forall2 video_row_ok xs l.
Proof.
  induction xs as [| i xs IH]; intros u w w' H.
  - rewrite for_each_nil in H. apply ret_Ok in H. destruct H as [_ ->].
    exists []. rewrite app_nil_r. split; [reflexivity | constructor].
  - rewrite for_each_cons in H.
    bind_inv H u1 w1 B. destruct u1.
    apply generate_videos_body_Ok in B. destruct B as (r & Hr & Hw).
    apply IH in H. destruct H as (l & Hl & Hall).
    exists (r :: l). split.
    + rewrite Hl, Hw, <- app_assoc. reflexivity.
    + constructor; assumption.
Qed.

Lemma generate_videos_rows cfg df w w' :
  generate_videos cfg w = (Ok df, w') ->
  Forall2 video_row_ok (range (videos cfg)) df.
Proof.
  unfold generate_videos. intros H.
  bind_inv H u1 w1 S1.
  bind_inv H u2 w2 S2.
  apply videos_loop_rows in S2. destruct S2 as (l & Hl & Hall).
  unfold get_videos in H. inversion H; subst df w'; clear H.
  unfold set_videos in S1. inversion S1; subst w1; clear S1.
  simpl in Hl. rewrite Hl. exact Hall.
Qed.

Lemma video_id_of_inj i j : video_id_of i = video_id_of j -> i = j.
Proof.
  unfold video_id_of. simpl. intros H. inversion H as [H1].
  apply fmt_0d_inj in H1. exact H1.
Qed.

Lemma video_ids_NoDup n : NoDup (map video_id_of (range n)).
Proof.
  apply Finite.Injective_map_NoDup.
  - intros i j. apply video_id_of_inj.
  - apply seq_NoDup.
Qed.

(** X1. users.csv has [max(0, users)] rows; row [i] carries the id
    [u_<i on 5 digits>], a signup date 1 to [days + 7] days before the
    date of the clock reading, and a tier, an age group and a gender of
    the fixed lists; the ids are pairwise distinct. *)
Theorem users_table sd clk cfg w out w' :
  write_outputs sd clk cfg w = (Ok out, w') ->
  List.length (users_csv out) = Z.to_nat (users cfg) /\
  Forall2 (user_row_ok cfg (date_of (utcnow_users clk)))
          (range (users cfg)) (users_csv out) /\
  NoDup (map u_user_id (users_csv out)).
Proof.
  intros H. pose proof (write_outputs_Ok _ _ _ _ _ _ H) as (Hids & _).
  apply write_outputs_parts in H.
  destruct H as (_ & _ & w1 & w2 & w3 & Hu & _ & _).
  apply generate_users_rows in Hu.
  split; [| split; [exact Hu |]].
  - rewrite <- (Forall2_length Hu). apply range_length.
  - rewrite Hids. apply user_ids_NoDup.
Qed.

Lemma users_table_witness :
  fst demo_run = Ok demo_outputs /\
  List.length (users_csv demo_outputs) = Z.to_nat (users demo_config) /\
  Forall2 (user_row_ok demo_config (date_of (utcnow_users demo_clock)))
          (range (users demo_config)) (users_csv demo_outputs) /\
  NoDup (map u_user_id (users_csv demo_outputs)).
Proof.
  assert (H : fst demo_run = Ok demo_outputs) by (vm_compute; reflexivity).
  split; [exact H |].
  apply pair_of_fst in H.
  exact (users_table _ _ _ _ _ _ H).
Defined.

(** X2. videos.csv has [max(0, videos)] rows; row [i] carries the id
    [v_<i on 5 digits>], the title [Video <i>], a genre of the fixed list,
    a duration of 30 to 3600 seconds and a patent id [pat_<p>] with
    1000 <= p <= 9999; the ids are pairwise distinct. *)
Theorem videos_table sd clk cfg w out w' :
  write_outputs sd clk cfg w = (Ok out, w') ->
  List.length (videos_csv out) = Z.to_nat (videos cfg) /\
  Forall2 video_row_ok (range (videos cfg)) (videos_csv out) /\
  NoDup (map v_video_id (videos_csv out)).
Proof.
  intros H. pose proof (write_outputs_Ok _ _ _ _ _ _ H) as (_ & Hids & _).
  apply write_outputs_parts in H.
  destruct H as (_ & _ & w1 & w2 & w3 & _ & Hv & _).
  apply generate_videos_rows in Hv.
  split; [| split; [exact Hv |]].
  - rewrite <- (Forall2_length Hv). apply range_length.
  - rewrite Hids. apply video_ids_NoDup.
Qed.

Lemma videos_table_witness :
  fst demo_run = Ok demo_outputs /\
  List.length (videos_csv demo_outputs) = Z.to_nat (videos demo_config) /\
  Forall2 video_row_ok (range (videos demo_config)) (videos_csv demo_outputs) /\
  NoDup (map v_video_id (videos_csv demo_outputs)).
Proof.
  assert (H : fst demo_run = Ok demo_outputs) by (vm_compute; reflexivity).
  split; [exact H |].
  apply pair_of_fst in H.
  exact (videos_table _ _ _ _ _ _ H).
Defined.

(* ------------------------------------------------------------------ *)
(** ** devices.csv *)

Lemma NoDup_flat_map {A B} (f : A -> list B) xs :
  NoDup xs ->
  (forall x, In x xs -> NoDup (f x)) ->
  (forall x y b, In x xs -> In y xs -> In b (f x) -> In b (f y) -> x = y) ->
  NoDup (flat_map f xs).
Proof.
  induction xs as [| x xs IH]; intros Hnd Hf Hdisj; simpl; [constructor |].
  inversion Hnd as [| x' xs' Hnotin Hnd']; subst.
  apply NoDup_app.
  - apply Hf. left. reflexivity.
  - apply IH; [exact Hnd' | |].
    + intros y Hy. apply Hf. right. exact Hy.
    + intros y z b Hy Hz. apply Hdisj; right; assumption.
  - intros b Hb Hb'. apply in_flat_map in Hb'. destruct Hb' as (y & Hy & Hb').
    apply Hnotin.
    rewrite (Hdisj x y b (or_introl eq_refl) (or_intror Hy) Hb Hb'). exact Hy.
Qed.

Lemma generate_devices_In r :
  In r generate_devices <->
  In (d_device r) device_types /\
  In (d_device_model r) device_models /\
  In (d_os_version r) os_versions.
Proof.
  unfold generate_devices. fold device_types device_models os_versions.
  rewrite in_flat_map. split.
  - intros (d & Hd & H). apply in_flat_map in H. destruct H as (m & Hm & H).
    apply in_map_iff in H. destruct H as (o & <- & Ho). simpl.
    repeat split; assumption.
  - intros (Hd & Hm & Ho). exists (d_device r). split; [exact Hd |].
    apply in_flat_map. exists (d_device_model r). split; [exact Hm |].
    apply in_map_iff. exists (d_os_version r). split; [| exact Ho].
    destruct r; reflexivity.
Qed.

Lemma generate_devices_NoDup : NoDup generate_devices.
Proof.
  unfold generate_devices. fold device_types device_models os_versions.
  apply NoDup_flat_map.
  - unfold device_types. repeat constructor; simpl; intuition discriminate.
  - intros d _. apply NoDup_flat_map.
    + unfold device_models. repeat constructor; simpl; intuition discriminate.
    + intros m _. apply Finite.Injective_map_NoDup.
      * intros o o' E. inversion E. reflexivity.
      * unfold os_versions. repeat constructor; simpl; intuition discriminate.
    + intros m m' b _ _ Hb Hb'.
      apply in_map_iff in Hb. destruct Hb as (o & <- & _).
      apply in_map_iff in Hb'. destruct Hb' as (o' & E & _).
      inversion E. reflexivity.
  - intros d d' b _ _ Hb Hb'.
    apply in_flat_map in Hb. destruct Hb as (m & _ & Hb).
    apply in_map_iff in Hb. destruct Hb as (o & <- & _).
    apply in_flat_map in Hb'. destruct Hb' as (m' & _ & Hb').
    apply in_map_iff in Hb'. destruct Hb' as (o' & E & _).
    inversion E. reflexivity.
Qed.

(** X3. devices.csv of every successful run is the cross product of the
    3 device types, 5 models and 4 OS versions: 60 rows, pairwise
    distinct, one for each combination, whatever the configuration. *)
Theorem devices_table sd clk cfg w out w' :
  write_outputs sd clk cfg w = (Ok out, w') ->
  List.length (devices_csv out) = 60%nat /\
  NoDup (devices_csv out) /\
  forall r, In r (devices_csv out) <->
            In (d_device r) device_types /\
            In (d_device_model r) device_models /\
            In (d_os_version r) os_versions.
Proof.
  intros H. apply write_outputs_parts in H. destruct H as (_ & -> & _).
  split; [reflexivity |]. split; [apply generate_devices_NoDup |].
  apply generate_devices_In.
Qed.

Lemma devices_table_witness :
  fst demo_run = Ok demo_outputs /\
  List.length (devices_csv demo_outputs) = 60%nat /\
  NoDup (devices_csv demo_outputs) /\
  forall r, In r (devices_csv demo_outputs) <->
            In (d_device r) device_types /\
            In (d_device_model r) device_models /\
            In (d_os_version r) os_versions.
Proof.
  assert (H : fst demo_run = Ok demo_outputs) by (vm_compute; reflexivity).
  split; [exact H |].
  apply pair_of_fst in H.
  exact (devices_table _ _ _ _ _ _ H).
Defined.

(* ------------------------------------------------------------------ *)
(** ** More facts about a well-shaped log *)

Lemma fields_of_row sf ts vid name val : fields_of (row sf ts vid name val) = sf.
Proof. destruct sf. reflexivity. Qed.

Lemma session_rows_fields e x : In e (session_rows x) -> fields_of e = ss_fields x.
Proof.
  intros H. apply in_session_rows in H.
  destruct H as [[_ ->] | [-> | [(c & _ & H) | ->]]]; try apply fields_of_row.
  unfold chunk_rows, reaction_rows in H.
  destruct H as [<- | H]; [apply fields_of_row |].
  destruct (ck_reaction c) as [[vid name] |]; [| destruct H].
  destruct H as [<- | []]. apply fields_of_row.
Qed.

Lemma selection_In population l v : selection population l -> In v l -> In v population.
Proof.
  intros (rest & Hperm) Hv. eapply Permutation_in; [exact Hperm |].
  apply in_or_app. left. exact Hv.
Qed.

Lemma selection_NoDup population l : selection population l -> NoDup population -> NoDup l.
Proof.
  intros (rest & Hperm) Hnd.
  apply Permutation_sym in Hperm.
  apply (Permutation_NoDup Hperm) in Hnd.
  eapply NoDup_app_remove_r. exact Hnd.
Qed.

Lemma chunk_times_grid base_dt cs :
  forall t, chunk_times t cs -> on_grid base_dt 0 t ->
    forall c, In c cs -> on_grid base_dt 1 (ck_time c).
Proof.
  induction cs as [| c cs IH]; intros t Ht Hg c' Hc; [destruct Hc |].
  destruct Ht as [(d & Hd & Htc) Ht].
  assert (Hc0 : on_grid base_dt 1 (ck_time c)).
  { destruct Hg as (n & Hn & E). exists (n + d). split; [lia |].
    rewrite Htc, E. lia. }
  destruct Hc as [<- | Hc]; [exact Hc0 |].
  eapply IH; [exact Ht | | exact Hc].
  destruct Hc0 as (n & Hn & E). exists n. split; [lia | exact E].
Qed.

Lemma session_rows_grid base_dt video_ids x e :
  session_ok video_ids x -> on_grid base_dt 0 (ss_start x) ->
  In e (session_rows x) -> on_grid base_dt (-300) (timestamp e).
Proof.
  intros Hok Hg He.
  pose proof Hok as (_ & Htimes & Hall & (slack & Hslack & Hend) & _).
  pose proof (watch_seconds_lower _ _ Hall) as Hws.
  apply in_session_rows in He.
  destruct He as [[_ ->] | [-> | [(c & Hc & He) | ->]]].
  - destruct Hg as (n & Hn & E). exists (n - 300). split; [lia |].
    unfold login_row, row. cbn [timestamp]. rewrite E. lia.
  - destruct Hg as (n & Hn & E). exists n. split; [lia | exact E].
  - pose proof (chunk_times_grid base_dt _ _ Htimes Hg c Hc) as (n & Hn & E).
    unfold chunk_rows, reaction_rows in He.
    destruct He as [<- | He]; [exists n; split; [lia | exact E] |].
    destruct (ck_reaction c) as [[vid name] |]; [| destruct He].
    destruct He as [<- | []]. exists (n + 1). split; [lia |].
    unfold row. cbn [timestamp]. rewrite E. lia.
  - destruct Hg as (n & Hn & E).
    exists (n + watch_seconds (ss_chunks x) + slack). split; [lia |].
    unfold end_row, row. cbn [timestamp]. rewrite Hend, E. lia.
Qed.

Lemma sessions_from_grid base_dt video_ids user ss :
  forall s fl t,
    sessions_from user s fl t ss -> Forall (session_ok video_ids) ss ->
    on_grid base_dt 0 t ->
    forall x, In x ss -> on_grid base_dt 0 (ss_start x).
Proof.
  induction ss as [| y ss IH]; intros s fl t H Hall Hg x Hx; [destruct Hx |].
  simpl in H. destruct H as (_ & _ & _ & Hstart & gap & Hgap & H).
  inversion Hall as [| y' ss' Hy Hall']; subst.
  destruct Hx as [<- | Hx]; [exact Hg |].
  eapply IH; [exact H | exact Hall' | | exact Hx].
  pose proof Hy as (_ & _ & Hch & (slack & Hslack & Hend) & _).
  pose proof (watch_seconds_lower _ _ Hch) as Hws.
  destruct Hg as (n & Hn & E).
  exists (n + watch_seconds (ss_chunks y) + slack + gap * 60). split; [lia |].
  rewrite Hend, E. lia.
Qed.

(** The activity rows of [n] chunks come within [50 * n] seconds of the
    start, one second more for a like or a heart. *)
Lemma chunk_rows_upper sf watched cs :
  forall t,
    chunk_times t cs -> Forall (chunk_ok watched) cs ->
    Forall (fun e =>
              timestamp e <= t + (50 * Z.of_nat (List.length cs) + 1) * us_per_second /\
              (event_name e = "watch_time"%string ->
               timestamp e <= t + 50 * Z.of_nat (List.length cs) * us_per_second))
           (flat_map (chunk_rows sf) cs).
Proof.
  induction cs as [| c cs IH]; intros t Ht Hall.
  - constructor.
  - destruct Ht as [(d & Hd & Htc) Ht]. inversion Hall as [| c' cs' Hc Hall']; subst.
    specialize (IH _ Ht Hall').
    cbn [flat_map List.length]. rewrite Nat2Z.inj_succ.
    unfold chunk_rows at 1. cbn [app].
    constructor.
    + unfold watch_row, row. cbn [timestamp event_name].
      unfold us_per_second in *. split; [lia | intros _; lia].
    + apply Forall_app. split.
      * unfold reaction_rows.
        destruct (ck_reaction c) as [[vid name] |] eqn:E; constructor; [| constructor].
        destruct Hc as (_ & _ & Hr). destruct (Hr vid name E) as [_ Hname].
        unfold row. cbn [timestamp event_name].
        unfold us_per_second in *. split; [lia |].
        intros Hw. destruct Hname; subst name; discriminate.
      * eapply Forall_impl; [| exact IH]. cbv beta. intros e [H1 H2].
        unfold us_per_second in *. split; [lia | intros Hw; specialize (H2 Hw); lia].
Qed.

Section LogFacts.

Variable cfg : GeneratorConfig.
Variable base_dt : Z.
Variable video_ids : list string.
Variable blocks : list user_block.
Hypothesis blocks_ok : Forall (block_ok cfg base_dt video_ids) blocks.
Hypothesis users_NoDup : NoDup (map ub_user blocks).

Let log : list event := flat_map block_rows blocks.

Lemma start_rows_of_log :
  filter (named "session_start") log = map start_row (all_sessions blocks).
Proof.
  unfold log. rewrite log_by_session, filter_flat_map.
  pose proof (all_sessions_ok _ _ _ _ blocks_ok) as Hok.
  induction (all_sessions blocks) as [| x xs IH]; [reflexivity |].
  cbn [flat_map map].
  rewrite (filter_session_start video_ids x) by (apply Hok; left; reflexivity).
  rewrite IH; [reflexivity |]. intros y Hy. apply Hok. right. exact Hy.
Qed.

Lemma log_session_ids_unique : session_ids_unique log.
Proof.
  split.
  - rewrite start_rows_of_log, map_map.
    apply (all_sessions_NoDup _ _ _ _ blocks_ok users_NoDup).
  - intros e He.
    destruct (log_row_indexed _ _ _ _ blocks_ok e He) as (b & k & y & _ & _ & _ & Hsid & Hu).
    exists k. rewrite Hu. exact Hsid.
Qed.

Lemma log_watch_values_positive : watch_values_positive log.
Proof.
  intros e He Hn.
  destruct (log_row_session _ e He) as (x & Hx & Hin).
  pose proof (all_sessions_ok _ _ _ _ blocks_ok x Hx) as (_ & _ & Hall & _).
  apply in_session_rows in Hin.
  destruct Hin as [[_ ->] | [-> | [(c & Hc & Hin) | ->]]]; try discriminate Hn.
  rewrite Forall_forall in Hall. pose proof (Hall c Hc) as Hcok.
  apply (in_chunk_rows _ _ _ _ Hcok) in Hin.
  destruct Hin as [-> | (vid & name & _ & _ & [-> | ->] & ->)]; try discriminate Hn.
  exists (ck_value c). split; [reflexivity | apply Hcok].
Qed.

Lemma log_session_fields_constant : session_fields_constant log.
Proof.
  intros e1 e2 H1 H2 Hsid.
  destruct (log_row_session _ e1 H1) as (x & Hx & Hin1).
  assert (Hin2 : In e2 (session_rows x)).
  { apply (row_of_session _ _ _ _ blocks_ok users_NoDup x e2 Hx H2).
    apply session_rows_ids in Hin1. destruct Hin1 as [E _]. unfold sid_of. congruence. }
  rewrite (session_rows_fields _ _ Hin1), (session_rows_fields _ _ Hin2). reflexivity.
Qed.

Lemma session_row_video x e v :
  session_ok video_ids x -> In e (session_rows x) -> video_id e = Some v ->
  In v (ss_watched x).
Proof.
  intros (_ & _ & Hall & _) Hin Hv. apply in_session_rows in Hin.
  destruct Hin as [[_ ->] | [-> | [(c & Hc & Hin) | ->]]]; try discriminate Hv.
  rewrite Forall_forall in Hall. pose proof (Hall c Hc) as Hcok.
  apply (in_chunk_rows _ _ _ _ Hcok) in Hin.
  destruct Hin as [-> | (vid & name & _ & Hvid & _ & ->)]; simpl in Hv;
    inversion Hv; subst v; [apply Hcok | exact Hvid].
Qed.

Lemma log_references_resolve :
  references_resolve (map ub_user blocks) video_ids log.
Proof.
  intros e He. split.
  - apply (log_users _ _ _ _ blocks_ok). exists e. split; [exact He | reflexivity].
  - intros v Hv.
    destruct (log_row_session _ e He) as (x & Hx & Hin).
    pose proof (all_sessions_ok _ _ _ _ blocks_ok x Hx) as Hok.
    pose proof (session_row_video x e v Hok Hin Hv) as Hw.
    destruct Hok as (_ & _ & _ & _ & Hsel & _).
    eapply selection_In; eassumption.
Qed.

Lemma log_few_videos_per_session :
  NoDup video_ids -> few_videos_per_session video_ids log.
Proof.
  intros Hnd sid Hocc.
  destruct (occurs_session_inv _ sid Hocc) as (x & Hx & Hsid).
  pose proof (all_sessions_ok _ _ _ _ blocks_ok x Hx) as Hok.
  pose proof Hok as (_ & _ & _ & _ & Hsel & k & Hk & Hlen).
  exists (ss_watched x). split; [| split; [| split]].
  - eapply selection_NoDup; eassumption.
  - lia.
  - intros v Hv. eapply selection_In; eassumption.
  - intros e v He Hse Hv.
    apply (session_row_video x e v Hok); [| exact Hv].
    apply (row_of_session _ _ _ _ blocks_ok users_NoDup x e Hx He). congruence.
Qed.

Lemma block_rows_nonempty b : In b blocks -> block_rows b <> [].
Proof.
  intros Hb.
  destruct (block_head _ _ _ _ blocks_ok b Hb) as (x0 & rest & h & Hss & Hlogin & _).
  unfold block_rows. rewrite Hss. cbn [flat_map].
  rewrite session_rows_eq, Hlogin. discriminate.
Qed.

Lemma log_grouped_by_user : grouped_by_user (map ub_user blocks) log.
Proof.
  exists (map block_rows blocks). split.
  - unfold log. apply flat_map_concat_map.
  - pose proof (fun b Hb => conj (block_rows_nonempty b Hb)
                                 (fun e => block_rows_user _ _ _ _ blocks_ok b e Hb)) as H.
    clear - H. induction blocks as [| b bs IH]; simpl; constructor.
    + apply H. left. reflexivity.
    + apply IH. intros b' Hb'. apply H. right. exact Hb'.
Qed.

Lemma log_nil_iff : log = [] <-> blocks = [].
Proof.
  split.
  - intros H.
    assert (G : forall bs, (forall b, In b bs -> block_rows b <> []) ->
                           flat_map block_rows bs = [] -> bs = []).
    { intros [| b bs] Hne Hnil; [reflexivity |]. exfalso.
      cbn [flat_map] in Hnil. apply app_eq_nil in Hnil. destruct Hnil as [Hnil _].
      revert Hnil. apply Hne. left. reflexivity. }
    apply G; [exact block_rows_nonempty | exact H].
  - intros H. unfold log. rewrite H. reflexivity.
Qed.

Lemma reaction_rows_length sf cs :
  (List.length (flat_map (fun c => [] ++ reaction_rows sf c) cs) <= List.length cs)%nat.
Proof.
  induction cs as [| c cs IH]; [simpl; lia |].
  cbn [flat_map]. rewrite length_app. cbn [List.length].
  assert (H1 : (List.length ([] ++ reaction_rows sf c) <= 1)%nat).
  { unfold reaction_rows. destruct (ck_reaction c) as [[vid name] |]; simpl; lia. }
  lia.
Qed.

Lemma log_reactions_at_most_watches : reactions_at_most_watches log.
Proof.
  intros sid. unfold count. rewrite !filter_andb.
  destruct (filter (in_session sid) log) as [| e l] eqn:E; [simpl; lia |].
  assert (Hocc : occurs_session sid log).
  { assert (He : In e (filter (in_session sid) log)) by (rewrite E; left; reflexivity).
    apply filter_In in He. destruct He as [He Hs]. exists e. split; [exact He |].
    apply String.eqb_eq. exact Hs. }
  rewrite <- E. clear E e l.
  destruct (occurs_session_inv _ sid Hocc) as (x & Hx & <-).
  pose proof (all_sessions_ok _ _ _ _ blocks_ok x Hx) as Hok.
  unfold log. rewrite (session_filter _ _ _ _ blocks_ok users_NoDup x Hx).
  rewrite (filter_watch_time video_ids x Hok), length_map.
  unfold is_reaction, named.
  rewrite (filter_session_rows
             (fun m => String.eqb m "like" || String.eqb m "heart")
             video_ids x Hok eq_refl).
  rewrite andb_false_r. cbn [orb String.eqb Ascii.eqb Bool.eqb app].
  rewrite app_nil_r. apply reaction_rows_length.
Qed.

Lemma log_timestamps_on_grid : timestamps_on_grid base_dt log.
Proof.
  intros e He.
  destruct (log_row_indexed _ _ _ _ blocks_ok e He) as (b & k & y & Hb & Hk & Hin & _).
  pose proof blocks_ok as Hall. rewrite Forall_forall in Hall.
  destruct (Hall b Hb) as (_ & Hsok & h & Hh & Hfrom).
  eapply session_rows_grid; [| | exact Hin].
  - eapply block_session_ok; eassumption.
  - eapply sessions_from_grid; [exact Hfrom | exact Hsok | | eapply nth_error_In; exact Hk].
    exists (h * 3600). split; lia.
Qed.

Lemma log_activity_soon_after_start : activity_soon_after_start log.
Proof.
  intros es e Hes He Hsid Hn Hact.
  destruct (log_row_session _ es Hes) as (x & Hx & Hesx).
  pose proof (all_sessions_ok _ _ _ _ blocks_ok x Hx) as Hok.
  assert (Hsx : session_id es = sid_of x).
  { apply session_rows_ids in Hesx. destruct Hesx as [Hs _]. exact Hs. }
  rewrite (start_row_of_session _ _ _ _ blocks_ok users_NoDup x es Hx Hes Hsx Hn).
  assert (Hin : In e (filter is_activity (session_rows x))).
  { apply filter_In. split; [| exact Hact].
    apply (row_of_session _ _ _ _ blocks_ok users_NoDup x e Hx He). congruence. }
  rewrite (filter_activity video_ids x Hok) in Hin.
  destruct Hok as (Hlen & Htimes & Hall & _).
  pose proof (chunk_rows_upper (ss_fields x) _ _ _ Htimes Hall) as Hup.
  rewrite Forall_forall in Hup. destruct (Hup e Hin) as [H1 H2].
  unfold start_row, row. cbn [timestamp].
  unfold us_per_second in *. split; [lia | intros Hw; specialize (H2 Hw); lia].
Qed.

End LogFacts.

(* ------------------------------------------------------------------ *)
(** ** More properties of the log of a run *)

(** X4. Every session id of the log is [s_<user id>_<index>] for the
    user of its row, and no two sessions of the log share a session id:
    the session ids of the session_start rows are pairwise distinct. *)
Theorem session_ids_identify_sessions sd clk cfg w out w' :
  write_outputs sd clk cfg w = (Ok out, w') ->
  session_ids_unique (events_jsonl out).
Proof.
  intros H. apply run_log in H. destruct H as (blocks & -> & _ & Hok & Hnd).
  eapply log_session_ids_unique; eassumption.
Qed.

Lemma session_ids_identify_sessions_witness :
  fst demo_run = Ok demo_outputs /\ session_ids_unique (events_jsonl demo_outputs).
Proof.
  assert (H : fst demo_run = Ok demo_outputs) by (vm_compute; reflexivity).
  split; [exact H |].
  apply pair_of_fst in H.
  exact (session_ids_identify_sessions _ _ _ _ _ _ H).
Defined.

(** X5. Every watch_time row carries a value, and the value is at least 1. *)
Theorem watch_time_value_at_least_one sd clk cfg w out w' :
  write_outputs sd clk cfg w = (Ok out, w') ->
  watch_values_positive (events_jsonl out).
Proof.
  intros H. apply run_log in H. destruct H as (blocks & -> & _ & Hok & Hnd).
  eapply log_watch_values_positive; eassumption.
Qed.

Lemma watch_time_value_at_least_one_witness :
  fst demo_run = Ok demo_outputs /\ watch_values_positive (events_jsonl demo_outputs).
Proof.
  assert (H : fst demo_run = Ok demo_outputs) by (vm_compute; reflexivity).
  split; [exact H |].
  apply pair_of_fst in H.
  exact (watch_time_value_at_least_one _ _ _ _ _ _ H).
Defined.

(** X6. Two rows with the same session id agree on account_id, user_id,
    device, device_os, app_version, network_type, ip and country. *)
Theorem session_scoped_fields_constant sd clk cfg w out w' :
  write_outputs sd clk cfg w = (Ok out, w') ->
  session_fields_constant (events_jsonl out).
Proof.
  intros H. apply run_log in H. destruct H as (blocks & -> & _ & Hok & Hnd).
  eapply log_session_fields_constant; eassumption.
Qed.

Lemma session_scoped_fields_constant_witness :
  fst demo_run = Ok demo_outputs /\ session_fields_constant (events_jsonl demo_outputs).
Proof.
  assert (H : fst demo_run = Ok demo_outputs) by (vm_compute; reflexivity).
  split; [exact H |].
  apply pair_of_fst in H.
  exact (session_scoped_fields_constant _ _ _ _ _ _ H).
Defined.

(** X7. Every user_id of the log is a user_id of users.csv and every
    non-null video_id of the log is a video_id of videos.csv. *)
Theorem log_ids_are_in_the_tables sd clk cfg w out w' :
  write_outputs sd clk cfg w = (Ok out, w') ->
  references_resolve (map u_user_id (users_csv out)) (map v_video_id (videos_csv out))
    (events_jsonl out).
Proof.
  intros H. apply run_log in H. destruct H as (blocks & -> & <- & Hok & Hnd).
  eapply log_references_resolve; eassumption.
Qed.

Lemma log_ids_are_in_the_tables_witness :
  fst demo_run = Ok demo_outputs /\
  references_resolve (map u_user_id (users_csv demo_outputs))
    (map v_video_id (videos_csv demo_outputs)) (events_jsonl demo_outputs).
Proof.
  assert (H : fst demo_run = Ok demo_outputs) by (vm_compute; reflexivity).
  split; [exact H |].
  apply pair_of_fst in H.
  exact (log_ids_are_in_the_tables _ _ _ _ _ _ H).
Defined.

(** X8. The videos of the rows of one session all belong to a set of at
    most four pairwise distinct videos of videos.csv. *)
Theorem at_most_four_videos_per_session sd clk cfg w out w' :
  write_outputs sd clk cfg w = (Ok out, w') ->
  few_videos_per_session (map v_video_id (videos_csv out)) (events_jsonl out).
Proof.
  intros H. pose proof (write_outputs_Ok _ _ _ _ _ _ H) as (_ & Hv & _).
  apply run_log in H. destruct H as (blocks & -> & _ & Hok & Hnd).
  eapply log_few_videos_per_session; try eassumption.
  rewrite Hv. apply video_ids_NoDup.
Qed.

Lemma at_most_four_videos_per_session_witness :
  fst demo_run = Ok demo_outputs /\
  few_videos_per_session (map v_video_id (videos_csv demo_outputs))
    (events_jsonl demo_outputs).
Proof.
  assert (H : fst demo_run = Ok demo_outputs) by (vm_compute; reflexivity).
  split; [exact H |].
  apply pair_of_fst in H.
  exact (at_most_four_videos_per_session _ _ _ _ _ _ H).
Defined.

(** X9. The log is grouped by user: it is the concatenation of one
    non-empty run of rows per user of users.csv, in the order of
    users.csv, never interleaved; it is empty exactly when the user count
    is not positive. *)
Theorem log_grouped_by_user_in_table_order sd clk cfg w out w' :
  write_outputs sd clk cfg w = (Ok out, w') ->
  grouped_by_user (map u_user_id (users_csv out)) (events_jsonl out) /\
  (events_jsonl out = [] <-> users cfg <= 0).
Proof.
  intros H. pose proof (write_outputs_Ok _ _ _ _ _ _ H) as (Hu & _).
  apply run_log in H. destruct H as (blocks & -> & Hmap & Hok & Hnd).
  split.
  - rewrite <- Hmap. eapply log_grouped_by_user; eassumption.
  - rewrite (log_nil_iff _ _ _ _ Hok).
    rewrite Hu in Hmap. unfold range in Hmap.
    split.
    + intros ->. simpl in Hmap.
      destruct (Z.to_nat (users cfg)) eqn:E; [lia | discriminate Hmap].
    + intros Hle. replace (Z.to_nat (users cfg)) with 0%nat in Hmap by lia.
      simpl in Hmap. destruct blocks; [reflexivity | discriminate Hmap].
Qed.

Lemma log_grouped_by_user_in_table_order_witness :
  fst demo_run = Ok demo_outputs /\
  grouped_by_user (map u_user_id (users_csv demo_outputs)) (events_jsonl demo_outputs) /\
  (events_jsonl demo_outputs = [] <-> users demo_config <= 0).
Proof.
  assert (H : fst demo_run = Ok demo_outputs) by (vm_compute; reflexivity).
  split; [exact H |].
  apply pair_of_fst in H.
  exact (log_grouped_by_user_in_table_order _ _ _ _ _ _ H).
Defined.

(** X10. No session has more like and heart rows than watch_time rows. *)
Theorem at_most_one_reaction_per_watch sd clk cfg w out w' :
  write_outputs sd clk cfg w = (Ok out, w') ->
  reactions_at_most_watches (events_jsonl out).
Proof.
  intros H. apply run_log in H. destruct H as (blocks & -> & _ & Hok & Hnd).
  eapply log_reactions_at_most_watches; eassumption.
Qed.

Lemma at_most_one_reaction_per_watch_witness :
  fst demo_run = Ok demo_outputs /\ reactions_at_most_watches (events_jsonl demo_outputs).
Proof.
  assert (H : fst demo_run = Ok demo_outputs) by (vm_compute; reflexivity).
  split; [exact H |].
  apply pair_of_fst in H.
  exact (at_most_one_reaction_per_watch _ _ _ _ _ _ H).
Defined.

(** X11. Every timestamp of the log is the window start plus a whole
    number of seconds, and none is more than 5 minutes before the window
    start. *)
Theorem timestamps_whole_seconds_from_window_start sd clk cfg w out w' :
  write_outputs sd clk cfg w = (Ok out, w') ->
  timestamps_on_grid (window_start clk cfg) (events_jsonl out).
Proof.
  intros H. apply run_log in H. destruct H as (blocks & -> & _ & Hok & Hnd).
  eapply log_timestamps_on_grid; eassumption.
Qed.

Lemma timestamps_whole_seconds_from_window_start_witness :
  fst demo_run = Ok demo_outputs /\
  timestamps_on_grid (window_start demo_clock demo_config) (events_jsonl demo_outputs).
Proof.
  assert (H : fst demo_run = Ok demo_outputs) by (vm_compute; reflexivity).
  split; [exact H |].
  apply pair_of_fst in H.
  exact (timestamps_whole_seconds_from_window_start _ _ _ _ _ _ H).
Defined.

(** X18. A watch_time row is timestamped at most 500 seconds after the
    session_start of its session, and a like or heart row at most 501
    seconds after it, however late the session_end comes. *)
Theorem activity_within_501_seconds_of_start sd clk cfg w out w' :
  write_outputs sd clk cfg w = (Ok out, w') ->
  activity_soon_after_start (events_jsonl out).
Proof.
  intros H. apply run_log in H. destruct H as (blocks & -> & _ & Hok & Hnd).
  eapply log_activity_soon_after_start; eassumption.
Qed.

Lemma activity_within_501_seconds_of_start_witness :
  fst demo_run = Ok demo_outputs /\ activity_soon_after_start (events_jsonl demo_outputs).
Proof.
  assert (H : fst demo_run = Ok demo_outputs) by (vm_compute; reflexivity).
  split; [exact H |].
  apply pair_of_fst in H.
  exact (activity_within_501_seconds_of_start _ _ _ _ _ _ H).
Defined.

(* ------------------------------------------------------------------ *)
(** ** The session-scoped fields of the rows *)

(** A loop appends only rows with [P] when its body does. *)
Lemma for_each_appends {A S} (P : event -> Prop) (body : A -> S -> M S) :
  (forall x s w s' w',
     body x s w = (Ok s', w') ->
     exists new, w_rows w' = w_rows w ++ new /\ Forall P new) ->
  forall xs s w s' w',
    for_each body xs s w = (Ok s', w') ->
    exists new, w_rows w' = w_rows w ++ new /\ Forall P new.
Proof.
  intros Hbody. induction xs as [| x xs IH]; intros s w s' w' H.
  - rewrite for_each_nil in H. apply ret_Ok in H. destruct H as [_ ->].
    exists []. rewrite app_nil_r. split; [reflexivity | constructor].
  - rewrite for_each_cons in H. bind_inv H s1 w1 B.
    apply Hbody in B. destruct B as (new1 & E1 & H1).
    apply IH in H. destruct H as (new2 & E2 & H2).
    exists (new1 ++ new2). split.
    + rewrite E2, E1, <- app_assoc. reflexivity.
    + apply Forall_app. split; assumption.
Qed.

Lemma session_body_appends video_ids user s st st' w w' :
  session_body video_ids user s st w = (Ok st', w') ->
  exists new,
    w_rows w' = w_rows w ++ new /\
    Forall (fun e => fields_ok (fields_of e)) new.
Proof.
  destruct st as [t fl]. unfold session_body. intros H.
  bind_inv H acct w1 S1. op_inv S1. destruct S1 as [Hacct S1].
  bind_inv H dev w2 S2. op_inv S2. destruct S2 as [Hdev S2].
  bind_inv H dev_os w3 S3. op_inv S3. destruct S3 as [Hos S3].
  bind_inv H app_v w4 S4. op_inv S4. destruct S4 as [Happ S4].
  bind_inv H net w5 S5. op_inv S5. destruct S5 as [Hnet S5].
  bind_inv H ip1 w6 S6. op_inv S6. destruct S6 as [Hip1 S6].
  bind_inv H ip2 w7 S7. op_inv S7. destruct S7 as [Hip2 S7].
  bind_inv H ip3 w8 S8. op_inv S8. destruct S8 as [Hip3 S8].
  bind_inv H ctry w9 S9. op_inv S9. destruct S9 as [Hctry S9].
  match type of H with
  | context [row ?f _ None "session_start" None] => set (sf := f) in *
  end.
  assert (Hsf : fields_ok sf).
  { unfold fields_ok, sf. simpl. repeat (split; [assumption |]).
    exists ip1, ip2, ip3. repeat split; try lia. }
  assert (Hrow : forall ts vid name val, fields_ok (fields_of (row sf ts vid name val))).
  { intros. rewrite fields_of_row. exact Hsf. }
  bind_inv H u1 w10 L.
  bind_inv H u2 w11 S11. op_inv S11.
  bind_inv H num_chunks w12 S12. op_inv S12. destruct S12 as [_ S12].
  bind_inv H k w13 S13. op_inv S13. destruct S13 as [_ S13].
  bind_inv H watched w14 S14. apply sample_Ok in S14.
  destruct S14 as (_ & _ & _ & S14).
  bind_inv H st w15 C. destruct st as [tc sws].
  apply chunk_loop_Ok in C.
  destruct C as (cs & _ & Hall & _ & _ & Hrows).
  bind_inv H slack w16 S16. op_inv S16. destruct S16 as [_ S16].
  bind_inv H td w17 S17. op_inv S17. destruct S17 as [-> ->].
  bind_inv H end_time w18 S18. op_inv S18. destruct S18 as [-> ->].
  bind_inv H u3 w19 S19. op_inv S19.
  bind_inv H gap w20 S20. op_inv S20. destruct S20 as [_ S20].
  bind_inv H td2 w21 S21. op_inv S21. destruct S21 as [-> ->].
  bind_inv H t2 w22 S22. op_inv S22. destruct S22 as [-> ->].
  apply ret_Ok in H. destruct H as [_ ->].
  frames.
  assert (HL : exists pre, w_rows w10 = w_rows w ++ pre /\
                           Forall (fun e => fields_ok (fields_of e)) pre).
  { destruct (negb fl).
    - bind_inv L td5 v1 T1. op_inv T1. destruct T1 as [-> ->].
      bind_inv L ts v2 T2. op_inv T2. destruct T2 as [-> ->].
      op_inv L. eexists. split.
      + rewrite L, S9, S8, S7, S6, S5, S4, S3, S2, S1. reflexivity.
      + constructor; [apply Hrow | constructor].
    - apply ret_Ok in L. destruct L as [_ ->]. exists []. split.
      + rewrite S9, S8, S7, S6, S5, S4, S3, S2, S1, app_nil_r. reflexivity.
      + constructor. }
  destruct HL as (pre & HL & Hpre).
  eexists. split.
  - rewrite S20, S19, S16, Hrows, S14, S13, S12, S11, HL.
    rewrite <- !app_assoc. reflexivity.
  - apply Forall_app. split; [exact Hpre |].
    apply Forall_app. split; [constructor; [apply Hrow | constructor] |].
    apply Forall_app. split; [| constructor; [apply Hrow | constructor]].
    apply Forall_forall. intros e He. apply in_flat_map in He.
    destruct He as (c & _ & He).
    unfold chunk_rows, reaction_rows, watch_row in He.
    destruct He as [<- | He]; [apply Hrow |].
    destruct (ck_reaction c) as [[vid name] |]; [| destruct He].
    destruct He as [<- | []]. apply Hrow.
Qed.

Lemma user_body_appends cfg base_dt video_ids user u w u' w' :
  user_body cfg base_dt video_ids user u w = (Ok u', w') ->
  exists new,
    w_rows w' = w_rows w ++ new /\
    Forall (fun e => fields_ok (fields_of e)) new.
Proof.
  unfold user_body. intros H.
  bind_inv H p w1 S1. op_inv S1. destruct S1 as [_ S1].
  bind_inv H h w2 S2. op_inv S2. destruct S2 as [_ S2].
  bind_inv H td w3 S3. op_inv S3. destruct S3 as [-> ->].
  bind_inv H t0 w4 S4. op_inv S4. destruct S4 as [-> ->].
  bind_inv H st w5 L.
  apply ret_Ok in H. destruct H as [_ ->].
  apply (for_each_appends (fun e => fields_ok (fields_of e))) in L.
  - destruct L as (new & E & Hnew). frames.
    exists new. split; [rewrite E, S2, S1; reflexivity | exact Hnew].
  - intros x s0 v s0' v'. apply session_body_appends.
Qed.

Lemma generate_events_fields cfg utcnow users_df videos_df log w w' :
  generate_events cfg utcnow users_df videos_df w = (Ok log, w') ->
  row_fields_ok log.
Proof.
  unfold generate_events. intros H.
  bind_inv H td w1 S1. op_inv S1. destruct S1 as [-> ->].
  bind_inv H base_dt w2 S2. op_inv S2. destruct S2 as [-> ->].
  bind_inv H u1 w3 S3.
  bind_inv H u2 w4 S4.
  apply (for_each_appends (fun e => fields_ok (fields_of e))) in S4.
  - destruct S4 as (new & E & Hnew).
    unfold get_rows in H. inversion H; subst log w'; clear H.
    unfold set_rows in S3. inversion S3; subst w3; clear S3.
    simpl in E. rewrite E. intros e He.
    rewrite Forall_forall in Hnew. apply Hnew. exact He.
  - intros x s0 v s0' v'. apply user_body_appends.
Qed.

(** X12. In every row, account_id, device, device_os, app_version,
    network_type and country are values of the fixed lists, and ip is
    [10.a.b.c] with [a] and [b] in [0, 255] and [c] in [1, 254]. *)
Theorem session_fields_in_their_domains sd clk cfg w out w' :
  write_outputs sd clk cfg w = (Ok out, w') ->
  row_fields_ok (events_jsonl out).
Proof.
  intros H. apply write_outputs_parts in H.
  destruct H as (_ & _ & w1 & w2 & w3 & _ & _ & He).
  eapply generate_events_fields. exact He.
Qed.

Lemma session_fields_in_their_domains_witness :
  fst demo_run = Ok demo_outputs /\ row_fields_ok (events_jsonl demo_outputs).
Proof.
  assert (H : fst demo_run = Ok demo_outputs) by (vm_compute; reflexivity).
  split; [exact H |].
  apply pair_of_fst in H.
  exact (session_fields_in_their_domains _ _ _ _ _ _ H).
Defined.

(* ------------------------------------------------------------------ *)
(** ** Which exceptions a run can raise, and where *)

Lemma bind_cases {A B} (m : M A) (f : A -> M B) w r w' :
  bind m f w = (r, w') ->
  (exists e, m w = (Raise e, w') /\ r = Raise e) \/
  (exists a w1, m w = (Ok a, w1) /\ f a w1 = (r, w')).
Proof.
  unfold bind. destruct (m w) as [[a | e] w1]; intros H.
  - right. exists a, w1. split; [reflexivity | exact H].
  - left. exists e. inversion H. split; reflexivity.
Qed.

Section Never.

Variable e : exn.

Lemma quiet_never {A} (m : M A) : quiet e m -> never e m.
Proof. intros H w r w' E. apply (H w r w' E). Qed.

Lemma quiet_ret {A} (a : A) : quiet e (ret a).
Proof. intros w r w' H. inversion H. split; [reflexivity | discriminate]. Qed.

Lemma quiet_bind {A B} (m : M A) (f : A -> M B) :
  quiet e m -> (forall a, quiet e (f a)) -> quiet e (bind m f).
Proof.
  intros Hm Hf w r w' H. apply bind_cases in H.
  destruct H as [(e1 & H & ->) | (a & w1 & H & H')].
  - apply (Hm _ _ _ H).
  - destruct (Hm _ _ _ H) as [E _]. destruct (Hf a _ _ _ H') as [E' Hr].
    split; [congruence | exact Hr].
Qed.

Lemma quiet_py_next : quiet e py_next.
Proof. intros w r w' H. inversion H. split; [reflexivity | discriminate]. Qed.

Lemma quiet_np_next : quiet e np_next.
Proof. intros w r w' H. inversion H. split; [reflexivity | discriminate]. Qed.

Lemma quiet_randbelow n : quiet e (randbelow n).
Proof.
  unfold randbelow. apply quiet_bind; [apply quiet_py_next |].
  intros a. apply quiet_ret.
Qed.

Lemma quiet_random_random : quiet e random_random.
Proof.
  unfold random_random. apply quiet_bind; [apply quiet_py_next |].
  intros a. apply quiet_ret.
Qed.

Lemma quiet_np_random_poisson : quiet e np_random_poisson.
Proof.
  unfold np_random_poisson. apply quiet_bind; [apply quiet_np_next |].
  intros a. apply quiet_ret.
Qed.

Lemma quiet_int_np_random_exponential : quiet e int_np_random_exponential.
Proof.
  unfold int_np_random_exponential. apply quiet_bind; [apply quiet_np_next |].
  intros a. apply quiet_ret.
Qed.

Lemma quiet_lift {A} (x : result A) : raised x <> Some e -> quiet e (lift x).
Proof. intros Hx w r w' H. inversion H; subst. split; [reflexivity | exact Hx]. Qed.

Lemma never_bind {A B} (m : M A) (f : A -> M B) :
  never e m ->
  (forall w a w1, m w = (Ok a, w1) -> forall r w', f a w1 = (r, w') -> raised r <> Some e) ->
  never e (bind m f).
Proof.
  intros Hm Hf w r w' H. apply bind_cases in H.
  destruct H as [(e1 & H & ->) | (a & w1 & H & H')].
  - apply (Hm _ _ _ H).
  - eapply Hf; eassumption.
Qed.

Lemma never_then {A B} (m : M A) (f : A -> M B) :
  never e m -> (forall a, never e (f a)) -> never e (bind m f).
Proof.
  intros Hm Hf. apply never_bind; [exact Hm |].
  intros w a w1 _ r w'. apply Hf.
Qed.

Lemma never_bind_val {A B} (P : A -> Prop) (m : M A) (f : A -> M B) :
  never e m ->
  (forall w a w1, m w = (Ok a, w1) -> P a) ->
  (forall a, P a -> never e (f a)) ->
  never e (bind m f).
Proof.
  intros Hm HP Hf. apply never_bind; [exact Hm |].
  intros w a w1 H r w'. apply Hf. eapply HP. exact H.
Qed.

Lemma never_ret {A} (a : A) : never e (ret a).
Proof. apply quiet_never, quiet_ret. Qed.

Lemma never_for_each {A S} (body : A -> S -> M S) :
  (forall x s, never e (body x s)) ->
  forall xs s, never e (for_each body xs s).
Proof.
  intros Hbody. induction xs as [| x xs IH]; intros s.
  - rewrite for_each_nil. apply never_ret.
  - rewrite for_each_cons. apply never_then; [apply Hbody |]. apply IH.
Qed.

Lemma never_rows_append r : never e (rows_append r).
Proof. intros w r0 w' H. inversion H. discriminate. Qed.

Lemma never_users_append r : never e (users_append r).
Proof. intros w r0 w' H. inversion H. discriminate. Qed.

Lemma never_videos_append r : never e (videos_append r).
Proof. intros w r0 w' H. inversion H. discriminate. Qed.

Lemma never_set_users l : never e (set_users l).
Proof. intros w r0 w' H. inversion H. discriminate. Qed.

Lemma never_set_videos l : never e (set_videos l).
Proof. intros w r0 w' H. inversion H. discriminate. Qed.

Lemma never_set_rows l : never e (set_rows l).
Proof. intros w r0 w' H. inversion H. discriminate. Qed.

Lemma never_get_users : never e get_users.
Proof. intros w r0 w' H. inversion H. discriminate. Qed.

Lemma never_get_videos : never e get_videos.
Proof. intros w r0 w' H. inversion H. discriminate. Qed.

Lemma never_get_rows : never e get_rows.
Proof. intros w r0 w' H. inversion H. discriminate. Qed.

Lemma never_random_seed sd s : never e (random_seed sd s).
Proof. intros w r0 w' H. inversion H. discriminate. Qed.

(** [random.choice] on a non-empty list always returns. *)
Lemma choice_cons {A} (y : A) ys w :
  exists x w', choice (y :: ys) w = (Ok x, w') /\ w_rows w' = w_rows w.
Proof.
  unfold choice, randbelow, bind, py_next, ret.
  set (i := Z.of_N (py_draws w (py_used w)) mod Z.of_nat (List.length (y :: ys))).
  assert (Hi : 0 <= i < Z.of_nat (List.length (y :: ys))).
  { apply Z.mod_pos_bound. simpl List.length. lia. }
  destruct (nth_error (y :: ys) (Z.to_nat i)) as [x |] eqn:E.
  - exists x. eexists. split; reflexivity.
  - apply nth_error_None in E. lia.
Qed.

Lemma quiet_choice {A} (y : A) ys : quiet e (choice (y :: ys)).
Proof.
  intros w r w' H. destruct (choice_cons y ys w) as (x & w1 & E & Hrows).
  rewrite E in H. inversion H; subst. split; [exact Hrows | discriminate].
Qed.

End Never.

(** The exceptions of the library calls. *)
Lemma quiet_randint_other e a b : e <> ValueError -> quiet e (randint a b).
Proof.
  intros He. unfold randint. destruct (b <? a).
  - intros w r w' H. inversion H. split; [reflexivity |]. simpl. congruence.
  - apply quiet_bind; [apply quiet_randbelow |]. intros x. apply quiet_ret.
Qed.

Lemma quiet_randint e a b : a <= b -> quiet e (randint a b).
Proof.
  intros Hab. unfold randint.
  destruct (b <? a) eqn:E; [apply Z.ltb_lt in E; lia |].
  apply quiet_bind; [apply quiet_randbelow |]. intros x. apply quiet_ret.
Qed.

Lemma timedelta_us_raised us e :
  raised (timedelta_us us) = Some e -> e = OverflowError.
Proof.
  unfold timedelta_us.
  destruct ((- MAX_DELTA_DAYS <=? us / us_per_day) && (us / us_per_day <=? MAX_DELTA_DAYS));
    simpl; intros H; inversion H; reflexivity.
Qed.

Lemma datetime_add_raised dt td e :
  raised (datetime_add dt td) = Some e -> e = OverflowError.
Proof.
  unfold datetime_add.
  destruct ((0 <=? dt + td) && (dt + td <? MAX_ORDINAL * us_per_day));
    simpl; intros H; inversion H; reflexivity.
Qed.

Lemma date_sub_raised d td e :
  raised (date_sub d td) = Some e -> e = OverflowError.
Proof.
  unfold date_sub.
  destruct ((1 <=? d - td / us_per_day) && (d - td / us_per_day <=? MAX_ORDINAL));
    simpl; intros H; inversion H; reflexivity.
Qed.

Section NotOverflow.

Variable e : exn.
Hypothesis e_not_overflow : e <> OverflowError.

Lemma quiet_lift_seconds n : quiet e (lift (timedelta_seconds n)).
Proof.
  apply quiet_lift. intros H. apply timedelta_us_raised in H. congruence.
Qed.

Lemma quiet_lift_minutes n : quiet e (lift (timedelta_minutes n)).
Proof.
  apply quiet_lift. intros H. apply timedelta_us_raised in H. congruence.
Qed.

Lemma quiet_lift_hours n : quiet e (lift (timedelta_hours n)).
Proof.
  apply quiet_lift. intros H. apply timedelta_us_raised in H. congruence.
Qed.

Lemma quiet_lift_days n : quiet e (lift (timedelta_days n)).
Proof.
  apply quiet_lift. intros H. apply timedelta_us_raised in H. congruence.
Qed.

Lemma quiet_lift_datetime_add dt td : quiet e (lift (datetime_add dt td)).
Proof.
  apply quiet_lift. intros H. apply datetime_add_raised in H. congruence.
Qed.

Lemma quiet_lift_datetime_sub dt td : quiet e (lift (datetime_sub dt td)).
Proof.
  apply quiet_lift. intros H. apply datetime_add_raised in H. congruence.
Qed.

Lemma quiet_lift_date_sub d td : quiet e (lift (date_sub d td)).
Proof.
  apply quiet_lift. intros H. apply date_sub_raised in H. congruence.
Qed.

End NotOverflow.

Lemma IndexError_not_overflow : IndexError <> OverflowError.
Proof. discriminate. Qed.

Lemma ValueError_not_overflow : ValueError <> OverflowError.
Proof. discriminate. Qed.

(** [random.sample] never raises IndexError: its positions are in range;
    it raises ValueError only for a size out of range. *)
Lemma sample_loop_quiet {A} e k :
  forall (pool : list A), (k <= List.length pool)%nat -> quiet e (sample_loop k pool).
Proof.
  induction k as [| k IH]; intros pool Hk; simpl sample_loop.
  - apply quiet_ret.
  - intros w r w' H. apply bind_cases in H.
    destruct H as [(e1 & H & ->) | (j & w1 & H & H')].
    + apply (quiet_randbelow e _ _ _ _ H).
    + destruct (quiet_randbelow e _ _ _ _ H) as [E _].
      assert (Hj : 0 <= j < Z.of_nat (List.length pool)).
      { apply randbelow_Ok in H; [apply H | lia]. }
      destruct (nth_error pool (Z.to_nat j)) as [x |] eqn:Ex.
      * assert (Hq : quiet e (rest <- sample_loop k (remove_at (Z.to_nat j) pool) ;;
                              ret (x :: rest))).
        { apply quiet_bind; [| intros a; apply quiet_ret].
          apply IH. unfold remove_at.
          rewrite length_app, length_firstn, length_skipn. lia. }
        destruct (Hq _ _ _ H') as [E' Hr]. split; [congruence | exact Hr].
      * apply nth_error_None in Ex. lia.
Qed.

Lemma quiet_sample_IndexError {A} (population : list A) k :
  quiet IndexError (sample population k).
Proof.
  unfold sample.
  destruct ((k <? 0) || (Z.of_nat (List.length population) <? k)) eqn:E.
  - intros w r w' H. inversion H. split; [reflexivity | discriminate].
  - apply orb_false_iff in E. destruct E as [E1 E2].
    apply Z.ltb_ge in E1, E2. apply sample_loop_quiet. lia.
Qed.

Lemma quiet_sample_ValueError {A} (population : list A) k :
  0 <= k <= Z.of_nat (List.length population) ->
  quiet ValueError (sample population k).
Proof.
  intros Hk. unfold sample.
  destruct ((k <? 0) || (Z.of_nat (List.length population) <? k)) eqn:E.
  - apply orb_true_iff in E. destruct E as [E | E]; apply Z.ltb_lt in E; lia.
  - apply sample_loop_quiet. lia.
Qed.

(** Chain the binds of a goal [never e (x <- m ;; k)], closing each step
    with the matching fact; the steps that need a side condition are
    left. *)
Ltac never_step :=
  first
    [ apply never_ret
    | apply never_rows_append | apply never_users_append | apply never_videos_append
    | apply never_set_users | apply never_set_videos | apply never_set_rows
    | apply never_get_users | apply never_get_videos | apply never_get_rows
    | apply never_random_seed
    | apply quiet_never;
      first [ apply quiet_randint; lia
            | apply quiet_randint_other; discriminate
            | apply quiet_choice | apply quiet_random_random
            | apply quiet_np_random_poisson | apply quiet_int_np_random_exponential
            | apply quiet_lift_seconds; discriminate
            | apply quiet_lift_minutes; discriminate
            | apply quiet_lift_hours; discriminate
            | apply quiet_lift_days; discriminate
            | apply quiet_lift_datetime_add; discriminate
            | apply quiet_lift_datetime_sub; discriminate
            | apply quiet_lift_date_sub; discriminate
            | apply quiet_sample_IndexError
            | apply quiet_ret ]
    | (apply never_then; [ | let a := fresh "a" in intros a ]) ].

Ltac never_tac := repeat never_step.

Lemma generate_users_body_IndexError cfg today i u :
  never IndexError (generate_users_body cfg today i u).
Proof. unfold generate_users_body. cbv zeta. never_tac. Qed.

Lemma generate_users_body_ValueError cfg today i u :
  -6 <= days cfg -> never ValueError (generate_users_body cfg today i u).
Proof. intros Hd. unfold generate_users_body. cbv zeta. never_tac. Qed.

Lemma generate_videos_body_never e i u : never e (generate_videos_body i u).
Proof. unfold generate_videos_body, genres. cbv zeta. never_tac. Qed.

Lemma generate_users_IndexError cfg utcnow : never IndexError (generate_users cfg utcnow).
Proof.
  unfold generate_users. cbv zeta.
  apply never_then; [apply never_set_users | intros _].
  apply never_then; [| intros _; apply never_get_users].
  apply never_for_each. intros i u. apply generate_users_body_IndexError.
Qed.

Lemma generate_users_ValueError cfg utcnow :
  -6 <= days cfg -> never ValueError (generate_users cfg utcnow).
Proof.
  intros Hd. unfold generate_users. cbv zeta.
  apply never_then; [apply never_set_users | intros _].
  apply never_then; [| intros _; apply never_get_users].
  apply never_for_each. intros i u. apply generate_users_body_ValueError. exact Hd.
Qed.

Lemma generate_videos_never e cfg : never e (generate_videos cfg).
Proof.
  unfold generate_videos.
  apply never_then; [apply never_set_videos | intros _].
  apply never_then; [| intros _; apply never_get_videos].
  apply never_for_each. intros i u. apply generate_videos_body_never.
Qed.

Lemma chunk_body_IndexError sf y ys i st :
  never IndexError (chunk_body sf (y :: ys) i st).
Proof.
  destruct st as [t sws]. unfold chunk_body. cbv zeta.
  do 7 (apply never_then; [never_step | intros ?]).
  apply never_then; [| intros ?; apply never_ret].
  destruct (lt_0_12 _); never_tac.
Qed.

Lemma chunk_body_ValueError sf watched i st :
  never ValueError (chunk_body sf watched i st).
Proof.
  destruct st as [t sws]. unfold chunk_body. cbv zeta.
  apply never_then; [never_step | intros d].
  apply never_then; [never_step | intros td].
  apply never_then; [never_step | intros t'].
  apply never_then; [never_step | intros x].
  apply never_then; [| intros vid].
  { destruct watched; [intros w r w' H; inversion H; discriminate |].
    apply quiet_never, quiet_choice. }
  apply never_then; [never_step | intros ?].
  apply never_then; [never_step | intros ?].
  apply never_then; [| intros ?; apply never_ret].
  destruct (lt_0_12 _); [| never_tac].
  apply never_then; [never_step | intros ?].
  apply never_then; [never_step | intros ?].
  apply never_then; [| intros ?].
  { destruct watched; [intros w r w' H; inversion H; discriminate |].
    apply quiet_never, quiet_choice. }
  never_tac.
Qed.

(** What the drawn subset is like. *)
Lemma watched_nonempty (video_ids watched : list string) k w w' :
  video_ids <> [] -> 1 <= k ->
  sample video_ids (Z.min (Z.of_nat (List.length video_ids)) k) w = (Ok watched, w') ->
  watched <> [].
Proof.
  intros Hv Hk H. apply sample_Ok in H. destruct H as (_ & Hlen & _).
  intros ->. simpl in Hlen. destruct video_ids; [congruence |].
  simpl List.length in Hlen. lia.
Qed.

Lemma session_body_IndexError video_ids user s st :
  video_ids <> [] -> never IndexError (session_body video_ids user s st).
Proof.
  intros Hv. destruct st as [t fl]. unfold session_body. cbv zeta.
  do 9 (apply never_then; [never_step | intros ?]).
  apply never_then; [destruct (negb fl); never_tac | intros ?].
  apply never_then; [never_step | intros ?].
  apply never_then; [never_step | intros num_chunks].
  apply (never_bind_val _ (fun k => 1 <= k <= 4)); [never_step | |].
  { intros w0 k w1 Hk. apply randint_Ok in Hk. apply Hk. }
  intros k Hk.
  apply (never_bind_val _ (fun watched : list string => watched <> [])); [never_step | |].
  { intros w0 watched w1 Hw. eapply watched_nonempty; [exact Hv | | exact Hw]. lia. }
  intros [| y ys] Hw; [congruence |].
  apply never_then; [| intros [tc sws]; never_tac].
  apply never_for_each. intros i st. apply chunk_body_IndexError.
Qed.

Lemma session_body_ValueError video_ids user s st :
  never ValueError (session_body video_ids user s st).
Proof.
  destruct st as [t fl]. unfold session_body. cbv zeta.
  do 9 (apply never_then; [never_step | intros ?]).
  apply never_then; [destruct (negb fl); never_tac | intros ?].
  apply never_then; [never_step | intros ?].
  apply never_then; [never_step | intros num_chunks].
  apply (never_bind_val _ (fun k => 1 <= k <= 4)); [never_step | |].
  { intros w0 k w1 Hk. apply randint_Ok in Hk. apply Hk. }
  intros k Hk.
  apply never_then; [apply quiet_never, quiet_sample_ValueError; lia | intros watched].
  apply never_then; [| intros [tc sws]; never_tac].
  apply never_for_each. intros i st. apply chunk_body_ValueError.
Qed.

Lemma user_body_IndexError cfg base_dt video_ids user u :
  video_ids <> [] -> never IndexError (user_body cfg base_dt video_ids user u).
Proof.
  intros Hv. unfold user_body. cbv zeta.
  do 4 (apply never_then; [never_step | intros ?]).
  apply never_then; [| intros ?; apply never_ret].
  apply never_for_each. intros s st. apply session_body_IndexError. exact Hv.
Qed.

Lemma user_body_ValueError cfg base_dt video_ids user u :
  0 <= days cfg -> never ValueError (user_body cfg base_dt video_ids user u).
Proof.
  intros Hd. unfold user_body. cbv zeta.
  do 4 (apply never_then; [never_step | intros ?]).
  apply never_then; [| intros ?; apply never_ret].
  apply never_for_each. intros s st. apply session_body_ValueError.
Qed.

Lemma generate_events_IndexError cfg utcnow users_df videos_df :
  videos_df <> [] -> never IndexError (generate_events cfg utcnow users_df videos_df).
Proof.
  intros Hv. unfold generate_events. cbv zeta.
  do 3 (apply never_then; [never_step | intros ?]).
  apply never_then; [| intros ?; apply never_get_rows].
  apply never_for_each. intros user u. apply user_body_IndexError.
  destruct videos_df; [congruence | discriminate].
Qed.

Lemma generate_events_ValueError cfg utcnow users_df videos_df :
  0 <= days cfg -> never ValueError (generate_events cfg utcnow users_df videos_df).
Proof.
  intros Hd. unfold generate_events. cbv zeta.
  do 3 (apply never_then; [never_step | intros ?]).
  apply never_then; [| intros ?; apply never_get_rows].
  apply never_for_each. intros user u. apply user_body_ValueError. exact Hd.
Qed.

Lemma never_np_random_seed sd s : 0 <= s < 2 ^ 32 -> never ValueError (np_random_seed sd s).
Proof.
  intros Hs w r w'. unfold np_random_seed.
  destruct ((0 <=? s) && (s <? 2 ^ 32)) eqn:E.
  - intros H. inversion H. discriminate.
  - apply andb_false_iff in E. destruct E as [E | E];
      [apply Z.leb_gt in E | apply Z.ltb_ge in E]; lia.
Qed.

Lemma np_random_seed_IndexError sd s : never IndexError (np_random_seed sd s).
Proof.
  intros w r w'. unfold np_random_seed.
  destruct ((0 <=? s) && (s <? 2 ^ 32)); intros H; inversion H; discriminate.
Qed.

Lemma write_outputs_IndexError sd clk cfg :
  1 <= videos cfg -> never IndexError (write_outputs sd clk cfg).
Proof.
  intros Hv. unfold write_outputs. cbv zeta.
  apply never_then; [apply never_random_seed | intros _].
  apply never_then; [apply np_random_seed_IndexError | intros _].
  apply never_then; [apply generate_users_IndexError | intros users_df].
  apply (never_bind_val _ (fun videos_df : list video_row => videos_df <> []));
    [apply generate_videos_never | |].
  { intros w df w1 H. apply generate_videos_Ok in H. intros ->.
    unfold range in H. destruct (Z.to_nat (videos cfg)) eqn:E; [lia | discriminate H]. }
  intros videos_df Hne.
  apply never_then; [| intros ?; apply never_ret].
  apply generate_events_IndexError. exact Hne.
Qed.

Lemma write_outputs_ValueError sd clk cfg :
  0 <= days cfg -> 0 <= seed cfg < 2 ^ 32 ->
  never ValueError (write_outputs sd clk cfg).
Proof.
  intros Hd Hs. unfold write_outputs. cbv zeta.
  apply never_then; [apply never_random_seed | intros _].
  apply never_then; [apply never_np_random_seed; exact Hs | intros _].
  apply never_then; [apply generate_users_ValueError; lia | intros users_df].
  apply never_then; [apply generate_videos_never | intros videos_df].
  apply never_then; [| intros ?; apply never_ret].
  apply generate_events_ValueError. exact Hd.
Qed.

(** X13. A run on a configuration with at least one video, a day count
    that is not negative and a seed in [0, 2^32) raises nothing but
    OverflowError, the error of a date or a duration out of range. *)
Theorem only_overflow_can_stop_a_valid_run sd clk cfg w r w' :
  1 <= videos cfg -> 0 <= days cfg -> 0 <= seed cfg < 2 ^ 32 ->
  write_outputs sd clk cfg w = (r, w') ->
  forall e, raised r = Some e -> e = OverflowError.
Proof.
  intros Hv Hd Hs H e He.
  pose proof (write_outputs_IndexError sd clk cfg Hv w r w' H) as H1.
  pose proof (write_outputs_ValueError sd clk cfg Hd Hs w r w' H) as H2.
  destruct e; congruence.
Qed.

Lemma only_overflow_can_stop_a_valid_run_witness :
  1 <= videos far_config /\ 0 <= days far_config /\ 0 <= seed far_config < 2 ^ 32 /\
  raised (fst far_run) = Some OverflowError /\
  forall e, raised (fst far_run) = Some e -> e = OverflowError.
Proof.
  assert (Hv : 1 <= videos far_config) by (simpl; lia).
  assert (Hd : 0 <= days far_config) by (simpl; lia).
  assert (Hs : 0 <= seed far_config < 2 ^ 32) by (simpl; lia).
  split; [exact Hv |]. split; [exact Hd |]. split; [exact Hs |].
  split; [vm_compute; reflexivity |].
  exact (only_overflow_can_stop_a_valid_run
           demo_seeding demo_clock far_config demo_process (fst far_run) (snd far_run)
           Hv Hd Hs (surjective_pairing far_run)).
Defined.

(* ------------------------------------------------------------------ *)
(** ** An empty catalogue *)

Lemma stops_after_quiet {A B} rows0 (m : M A) (f : A -> M B) w r w' :
  quiet IndexError m ->
  bind m f w = (r, w') ->
  (forall a w1, m w = (Ok a, w1) -> w_rows w1 = w_rows w -> f a w1 = (r, w') ->
     stops_after rows0 r (w_rows w')) ->
  stops_after rows0 r (w_rows w').
Proof.
  intros Hq H Hk. apply bind_cases in H.
  destruct H as [(e & H & ->) | (a & w1 & H & H')].
  - destruct (Hq _ _ _ H) as [_ Hr]. exists e. split; [reflexivity |].
    intros ->. exfalso. apply Hr. reflexivity.
  - destruct (Hq _ _ _ H) as [E _]. eapply Hk; eassumption.
Qed.

Lemma bind_rows_append {B} e (f : unit -> M B) w :
  bind (rows_append e) f w =
  f tt (mk_world (py_draws w) (py_used w) (np_draws w) (np_used w)
                 (w_users w) (w_videos w) (w_rows w ++ [e])).
Proof. reflexivity. Qed.

Lemma sample_nil k w : 1 <= k -> sample (@nil string) (Z.min (Z.of_nat 0) k) w = (Ok [], w).
Proof.
  intros Hk. replace (Z.min (Z.of_nat 0) k) with 0 by lia. reflexivity.
Qed.

(** With no video to choose from, a chunk stops before it appends
    anything. *)
Lemma chunk_body_no_video sf i st w r w' :
  chunk_body sf [] i st w = (r, w') ->
  exists e, raised r = Some e /\ w_rows w' = w_rows w.
Proof.
  destruct st as [t sws]. unfold chunk_body. cbv zeta. intros H.
  apply bind_cases in H. destruct H as [(e & H & ->) | (d & w1 & S1 & H)].
  { exists e. split; [reflexivity | apply (quiet_randint_other IndexError 1 50 ltac:(discriminate) _ _ _ H)]. }
  destruct (quiet_randint_other IndexError 1 50 ltac:(discriminate) _ _ _ S1) as [E1 _].
  apply bind_cases in H. destruct H as [(e & H & ->) | (td & w2 & S2 & H)].
  { exists e. split; [reflexivity |]. inversion H; subst. exact E1. }
  inversion S2; subst w2.
  apply bind_cases in H. destruct H as [(e & H & ->) | (t' & w3 & S3 & H)].
  { exists e. split; [reflexivity |]. inversion H; subst. exact E1. }
  inversion S3; subst w3.
  apply bind_cases in H. destruct H as [(e & H & ->) | (x & w4 & S4 & H)].
  { destruct (quiet_int_np_random_exponential IndexError _ _ _ H) as [E _].
    exists e. split; [reflexivity | congruence]. }
  destruct (quiet_int_np_random_exponential IndexError _ _ _ S4) as [E4 _].
  apply bind_cases in H. destruct H as [(e & H & ->) | (vid & w5 & S5 & H)].
  - inversion H; subst. exists IndexError. split; [reflexivity | congruence].
  - discriminate S5.
Qed.

Lemma session_body_no_video user s t w r w' :
  session_body [] user s (t, false) w = (r, w') ->
  stops_after (w_rows w) r (w_rows w').
Proof.
  unfold session_body. cbv zeta. intros H.
  eapply stops_after_quiet; [apply quiet_choice | exact H | clear H; intros acct w1 _ E1 H].
  eapply stops_after_quiet; [apply quiet_choice | exact H | clear H; intros dev w2 _ E2 H].
  eapply stops_after_quiet; [apply quiet_choice | exact H | clear H; intros dev_os w3 _ E3 H].
  eapply stops_after_quiet; [apply quiet_choice | exact H | clear H; intros app_v w4 _ E4 H].
  eapply stops_after_quiet; [apply quiet_choice | exact H | clear H; intros net w5 _ E5 H].
  eapply stops_after_quiet;
    [apply quiet_randint_other; discriminate | exact H | clear H; intros ip1 w6 _ E6 H].
  eapply stops_after_quiet;
    [apply quiet_randint_other; discriminate | exact H | clear H; intros ip2 w7 _ E7 H].
  eapply stops_after_quiet;
    [apply quiet_randint_other; discriminate | exact H | clear H; intros ip3 w8 _ E8 H].
  eapply stops_after_quiet; [apply quiet_choice | exact H | clear H; intros ctry w9 _ E9 H].
  cbn [negb] in H.
  match type of H with
  | context [row ?f _ None "session_start" None] => set (sf := f) in *
  end.
  assert (E : w_rows w9 = w_rows w) by congruence. clear E1 E2 E3 E4 E5 E6 E7 E8 E9.
  (* the first_login row *)
  apply bind_cases in H. destruct H as [(e & H & ->) | (u1 & w10 & L & H)].
  { exists e. split; [reflexivity |]. intros ->. exfalso.
    revert H.
    match goal with
    | |- ?m w9 = _ -> False =>
        assert (Hn : never IndexError m) by never_tac
    end.
    intros H. apply (Hn _ _ _ H). reflexivity. }
  bind_inv L td v1 T1. apply lift_Ok in T1. destruct T1 as [_ ->].
  bind_inv L ts v2 T2. apply lift_Ok in T2. destruct T2 as [_ ->].
  apply rows_append_Ok in L.
  (* the session_start row *)
  rewrite bind_rows_append in H.
  eapply stops_after_quiet;
    [apply quiet_randint_other; discriminate | exact H | clear H; intros n w12 Hn E12 H].
  apply randint_Ok in Hn. destruct Hn as [Hn _].
  eapply stops_after_quiet;
    [apply quiet_randint_other; discriminate | exact H | clear H; intros k w13 Hk E13 H].
  apply randint_Ok in Hk. destruct Hk as [Hk _].
  cbn [List.length] in H. unfold bind at 1 in H. rewrite sample_nil in H by lia.
  (* the first chunk *)
  unfold range in H. destruct (Z.to_nat n) as [| n'] eqn:En; [lia |].
  cbn [seq] in H. rewrite for_each_cons in H.
  apply bind_cases in H. destruct H as [(e & H & ->) | (st & w15 & C & H)].
  - apply bind_cases in H. destruct H as [(e' & H & He) | (st & w14 & C & H)].
    + inversion He; subst e'. apply chunk_body_no_video in H.
      destruct H as (e0 & He0 & Hrows). simpl in He0. inversion He0; subst e0.
      exists e. split; [reflexivity |]. intros _.
      exists (row sf ts None "first_login" None), (row sf t None "session_start" None).
      split; [| split; reflexivity].
      rewrite Hrows, E13, E12. cbn [w_rows]. rewrite L, E, <- app_assoc. reflexivity.
    + apply chunk_body_no_video in C. destruct C as (e0 & He0 & _). discriminate He0.
  - apply bind_cases in C. destruct C as [(e' & C & He) | (st0 & w14 & C & C')].
    + discriminate He.
    + apply chunk_body_no_video in C. destruct C as (e0 & He0 & _). discriminate He0.
Qed.

Lemma stops_after_never {A B} rows0 (m : M A) (f : A -> M B) w r w' :
  never IndexError m ->
  bind m f w = (r, w') ->
  (forall a w1, m w = (Ok a, w1) -> f a w1 = (r, w') ->
     stops_after rows0 r (w_rows w')) ->
  stops_after rows0 r (w_rows w').
Proof.
  intros Hq H Hk. apply bind_cases in H.
  destruct H as [(e & H & ->) | (a & w1 & H & H')].
  - pose proof (Hq _ _ _ H) as Hr. exists e. split; [reflexivity |].
    intros ->. exfalso. apply Hr. reflexivity.
  - eapply Hk; eassumption.
Qed.

(** A computation that always stops makes the bind it heads stop. *)
Lemma stops_after_head {A B} rows0 (m : M A) (f : A -> M B) w r w' :
  (forall r1 w1, m w = (r1, w1) -> stops_after rows0 r1 (w_rows w1)) ->
  bind m f w = (r, w') ->
  stops_after rows0 r (w_rows w').
Proof.
  intros Hm H. apply bind_cases in H.
  destruct H as [(e & H & ->) | (a & w1 & H & H')].
  - apply (Hm _ _ H).
  - destruct (Hm _ _ H) as (e & He & _). discriminate He.
Qed.

Lemma user_body_no_video cfg base_dt user u w r w' :
  user_body cfg base_dt [] user u w = (r, w') ->
  stops_after (w_rows w) r (w_rows w').
Proof.
  unfold user_body. cbv zeta. intros H.
  eapply stops_after_quiet;
    [apply quiet_np_random_poisson | exact H | clear H; intros p w1 Hp E1 H].
  apply np_random_poisson_Ok in Hp. destruct Hp as [Hp _].
  eapply stops_after_quiet;
    [apply quiet_randint_other; discriminate | exact H | clear H; intros h w2 _ E2 H].
  eapply stops_after_quiet;
    [apply quiet_lift_hours; discriminate | exact H | clear H; intros td w3 _ E3 H].
  eapply stops_after_quiet;
    [apply quiet_lift_datetime_add; discriminate | exact H | clear H; intros t w4 _ E4 H].
  replace (w_rows w) with (w_rows w4) by congruence.
  eapply stops_after_head; [| exact H].
  intros r1 v1 L. unfold range in L.
  destruct (Z.to_nat (p + 1)) as [| n'] eqn:En; [lia |].
  cbn [seq] in L. rewrite for_each_cons in L.
  eapply stops_after_head; [| exact L].
  intros r2 v2. apply session_body_no_video.
Qed.

Lemma generate_events_no_video cfg utcnow u us w r w' :
  generate_events cfg utcnow (u :: us) [] w = (r, w') ->
  stops_after [] r (w_rows w').
Proof.
  unfold generate_events. cbv zeta. intros H.
  eapply stops_after_quiet;
    [apply quiet_lift_days; discriminate | exact H | clear H; intros td w1 _ E1 H].
  eapply stops_after_quiet;
    [apply quiet_lift_datetime_sub; discriminate | exact H | clear H; intros t w2 _ E2 H].
  unfold bind at 1, set_rows at 1 in H.
  eapply stops_after_head; [| exact H].
  intros r1 v1 L. cbn [map] in L. rewrite for_each_cons in L.
  eapply stops_after_head; [| exact L].
  intros r2 v2 B. apply user_body_no_video in B. exact B.
Qed.

(** X14. With at least one user and an empty catalogue (videos <= 0) a run
    never completes; when the exception is IndexError, it comes from the
    first watch chunk: [rows] then holds exactly the first_login and the
    session_start row of the first session. *)
Theorem empty_catalogue_stops_the_run sd clk cfg w r w' :
  1 <= users cfg -> videos cfg <= 0 ->
  write_outputs sd clk cfg w = (r, w') ->
  exists e, raised r = Some e /\
    (e = IndexError ->
     exists e1 e2,
       w_rows w' = [e1; e2] /\
       event_name e1 = "first_login"%string /\
       event_name e2 = "session_start"%string).
Proof.
  intros Hu Hv H.
  change (stops_after [] r (w_rows w')).
  unfold write_outputs in H.
  eapply stops_after_never; [apply never_random_seed | exact H | clear H; intros u1 w1 _ H].
  eapply stops_after_never;
    [apply np_random_seed_IndexError | exact H | clear H; intros u2 w2 _ H].
  eapply stops_after_never;
    [apply generate_users_IndexError | exact H | clear H; intros users_df w3 Hus H].
  eapply stops_after_never;
    [apply generate_videos_never | exact H | clear H; intros videos_df w4 Hvs H].
  apply generate_users_Ok in Hus. apply generate_videos_Ok in Hvs.
  unfold range in Hus, Hvs.
  replace (Z.to_nat (videos cfg)) with 0%nat in Hvs by lia.
  destruct (Z.to_nat (users cfg)) as [| n] eqn:En; [lia |].
  destruct videos_df as [| v vs]; [| discriminate Hvs].
  destruct users_df as [| u us]; [discriminate Hus |].
  eapply stops_after_head; [| exact H].
  intros r1 v1. apply generate_events_no_video.
Qed.

Lemma empty_catalogue_stops_the_run_witness :
  1 <= users no_video_config /\ videos no_video_config <= 0 /\
  raised (fst no_video_run) = Some IndexError /\
  exists e, raised (fst no_video_run) = Some e /\
    (e = IndexError ->
     exists e1 e2,
       w_rows (snd no_video_run) = [e1; e2] /\
       event_name e1 = "first_login"%string /\
       event_name e2 = "session_start"%string).
Proof.
  assert (Hu : 1 <= users no_video_config) by (simpl; lia).
  assert (Hv : videos no_video_config <= 0) by (simpl; lia).
  split; [exact Hu |]. split; [exact Hv |].
  split; [vm_compute; reflexivity |].
  exact (empty_catalogue_stops_the_run
           demo_seeding demo_clock no_video_config demo_process
           (fst no_video_run) (snd no_video_run) Hu Hv (surjective_pairing no_video_run)).
Defined.

(* ------------------------------------------------------------------ *)
(** ** No user *)

Lemma never_all_Ok {A} (m : M A) :
  (forall e, never e m) -> forall w, exists a w', m w = (Ok a, w').
Proof.
  intros H w. destruct (m w) as [[a | e] w'] eqn:E.
  - exists a, w'. reflexivity.
  - exfalso. apply (H e _ _ _ E). reflexivity.
Qed.

Lemma timedelta_days_in_range d :
  - MAX_DELTA_DAYS <= d <= MAX_DELTA_DAYS -> timedelta_days d = Ok (d * us_per_day).
Proof.
  intros Hd. unfold timedelta_days, timedelta_us.
  rewrite Z.div_mul by (compute; discriminate).
  destruct (- MAX_DELTA_DAYS <=? d) eqn:E1; [| apply Z.leb_gt in E1; lia].
  destruct (d <=? MAX_DELTA_DAYS) eqn:E2; [| apply Z.leb_gt in E2; lia].
  reflexivity.
Qed.

Lemma datetime_sub_in_range dt td :
  0 <= dt - td < MAX_ORDINAL * us_per_day -> datetime_sub dt td = Ok (dt - td).
Proof.
  intros Hr. unfold datetime_sub, datetime_add.
  replace (dt + - td) with (dt - td) by lia.
  destruct (0 <=? dt - td) eqn:E1; [| apply Z.leb_gt in E1; lia].
  destruct (dt - td <? MAX_ORDINAL * us_per_day) eqn:E2; [| apply Z.ltb_ge in E2; lia].
  reflexivity.
Qed.

Lemma generate_users_no_user cfg utcnow w :
  users cfg <= 0 ->
  exists w', generate_users cfg utcnow w = (Ok [], w').
Proof.
  intros Hu. unfold generate_users, range.
  replace (Z.to_nat (users cfg)) with 0%nat by lia.
  eexists. reflexivity.
Qed.

Lemma generate_events_no_user cfg utcnow videos_df w :
  - MAX_DELTA_DAYS <= days cfg <= MAX_DELTA_DAYS ->
  0 <= utcnow - days cfg * us_per_day < MAX_ORDINAL * us_per_day ->
  exists w', generate_events cfg utcnow [] videos_df w = (Ok [], w').
Proof.
  intros Hd Hr. unfold generate_events.
  rewrite (timedelta_days_in_range _ Hd).
  unfold lift at 1, bind at 1.
  rewrite (datetime_sub_in_range _ _ Hr).
  eexists. reflexivity.
Qed.

(** X15. A configuration with no user (users <= 0) is accepted: when numpy
    accepts the seed and the window start is a representable datetime,
    the run completes with an empty users.csv, an empty events.jsonl
    and the [max(0, videos)] rows of videos.csv. *)
Theorem run_without_users_completes sd clk cfg w :
  users cfg <= 0 ->
  0 <= seed cfg < 2 ^ 32 ->
  - MAX_DELTA_DAYS <= days cfg <= MAX_DELTA_DAYS ->
  0 <= window_start clk cfg < MAX_ORDINAL * us_per_day ->
  exists out w',
    write_outputs sd clk cfg w = (Ok out, w') /\
    users_csv out = [] /\ events_jsonl out = [] /\
    List.length (videos_csv out) = Z.to_nat (videos cfg).
Proof.
  intros Hu Hs Hd Hr. unfold write_outputs.
  unfold bind at 1, random_seed at 1.
  unfold bind at 1, np_random_seed at 1.
  destruct (0 <=? seed cfg) eqn:E1; [| apply Z.leb_gt in E1; lia].
  destruct (seed cfg <? 2 ^ 32) eqn:E2; [| apply Z.ltb_ge in E2; lia].
  cbn [andb].
  match goal with
  | |- context [bind (generate_users _ _) _ ?w0] =>
      destruct (generate_users_no_user cfg (utcnow_users clk) w0 Hu) as (w1 & Hgu)
  end.
  rewrite (bind_step _ _ _ _ _ Hgu).
  destruct (never_all_Ok (generate_videos cfg)
              (fun e => generate_videos_never e cfg) w1) as (videos_df & w2 & Hgv).
  rewrite (bind_step _ _ _ _ _ Hgv).
  destruct (generate_events_no_user cfg (utcnow_events clk) videos_df w2 Hd Hr)
    as (w3 & Hge).
  rewrite (bind_step _ _ _ _ _ Hge).
  eexists. eexists. split; [reflexivity |]. simpl.
  split; [reflexivity |]. split; [reflexivity |].
  apply generate_videos_rows in Hgv. rewrite <- (Forall2_length Hgv).
  apply range_length.
Qed.

Lemma run_without_users_completes_witness :
  users no_user_config <= 0 /\
  0 <= seed no_user_config < 2 ^ 32 /\
  - MAX_DELTA_DAYS <= days no_user_config <= MAX_DELTA_DAYS /\
  0 <= window_start demo_clock no_user_config < MAX_ORDINAL * us_per_day /\
  exists out w',
    no_user_run = (Ok out, w') /\
    users_csv out = [] /\ events_jsonl out = [] /\
    List.length (videos_csv out) = Z.to_nat (videos no_user_config).
Proof.
  assert (Hu : users no_user_config <= 0) by (simpl; lia).
  assert (Hs : 0 <= seed no_user_config < 2 ^ 32) by (simpl; lia).
  assert (Hd : - MAX_DELTA_DAYS <= days no_user_config <= MAX_DELTA_DAYS)
    by (vm_compute; split; discriminate).
  assert (Hr : 0 <= window_start demo_clock no_user_config < MAX_ORDINAL * us_per_day)
    by (vm_compute; split; [discriminate | reflexivity]).
  split; [exact Hu |]. split; [exact Hs |]. split; [exact Hd |]. split; [exact Hr |].
  exact (run_without_users_completes demo_seeding demo_clock no_user_config demo_process
           Hu Hs Hd Hr).
Defined.

(* ------------------------------------------------------------------ *)
(** ** A negative day count *)

Lemma randint_empty a b w : b < a -> randint a b w = (Raise ValueError, w).
Proof.
  intros H. unfold randint. apply Z.ltb_lt in H. rewrite H. reflexivity.
Qed.

Lemma bind_raise {A B} (m : M A) (f : A -> M B) w e w' :
  m w = (Raise e, w') -> bind m f w = (Raise e, w').
Proof. unfold bind. intros ->. reflexivity. Qed.

Lemma generate_users_days_too_negative cfg utcnow w :
  1 <= users cfg -> days cfg <= -7 ->
  exists w', generate_users cfg utcnow w = (Raise ValueError, w') /\ w_users w' = [].
Proof.
  intros Hu Hd. unfold generate_users, range. cbv zeta.
  destruct (Z.to_nat (users cfg)) as [| n] eqn:En; [lia |].
  cbn [seq]. unfold bind at 1, set_users at 1.
  eexists. split.
  - apply bind_raise. rewrite for_each_cons. apply bind_raise.
    unfold generate_users_body. cbv zeta. apply bind_raise.
    apply randint_empty. lia.
  - reflexivity.
Qed.

(** X16. With at least one user, a negative day count never lets a run
    complete; when days <= -7 and numpy accepts the seed, the run raises
    ValueError in the first iteration of [generate_users], before any
    row of users.csv is built. *)
Theorem negative_days_stop_the_run sd clk cfg w r w' :
  1 <= users cfg -> days cfg < 0 ->
  write_outputs sd clk cfg w = (r, w') ->
  (exists e, raised r = Some e) /\
  (days cfg <= -7 -> 0 <= seed cfg < 2 ^ 32 ->
   raised r = Some ValueError /\ w_users w' = []).
Proof.
  intros Hu Hd H. split.
  - destruct r as [out | e]; [| exists e; reflexivity]. exfalso.
    pose proof (write_outputs_Ok _ _ _ _ _ _ H) as (Hids & _).
    apply run_log in H. destruct H as (blocks & _ & Hmap & Hok & _).
    rewrite Hids in Hmap. unfold range in Hmap.
    destruct (Z.to_nat (users cfg)) as [| n] eqn:En; [lia |].
    destruct blocks as [| b blocks]; [discriminate Hmap |].
    inversion Hok as [| b' bs' Hb _]; subst.
    destruct Hb as (_ & _ & h & Hh & _). lia.
  - intros Hd7 Hs. unfold write_outputs in H.
    unfold bind at 1, random_seed at 1 in H.
    unfold bind at 1, np_random_seed at 1 in H.
    destruct (0 <=? seed cfg) eqn:E1; [| apply Z.leb_gt in E1; lia].
    destruct (seed cfg <? 2 ^ 32) eqn:E2; [| apply Z.ltb_ge in E2; lia].
    cbn [andb] in H.
    match type of H with
    | bind (generate_users _ _) _ ?w0 = _ =>
        destruct (generate_users_days_too_negative cfg (utcnow_users clk) w0 Hu Hd7)
          as (w1 & Hgu & Hw1)
    end.
    rewrite (bind_raise _ _ _ _ _ Hgu) in H. inversion H; subst.
    split; [reflexivity | exact Hw1].
Qed.

Lemma negative_days_stop_the_run_witness :
  1 <= users negative_days_config /\ days negative_days_config < 0 /\
  (exists e, raised (fst negative_days_run) = Some e) /\
  (days negative_days_config <= -7 -> 0 <= seed negative_days_config < 2 ^ 32 ->
   raised (fst negative_days_run) = Some ValueError /\
   w_users (snd negative_days_run) = []).
Proof.
  assert (Hu : 1 <= users negative_days_config) by (simpl; lia).
  assert (Hd : days negative_days_config < 0) by (simpl; lia).
  split; [exact Hu |]. split; [exact Hd |].
  exact (negative_days_stop_the_run
           demo_seeding demo_clock negative_days_config demo_process
           (fst negative_days_run) (snd negative_days_run) Hu Hd
           (surjective_pairing negative_days_run)).
Defined.

(* ------------------------------------------------------------------ *)
(** ** When a run completes *)

Lemma returns_ret {A} (a : A) w (Q : A -> Prop) : Q a -> returns (ret a) w Q.
Proof. intros H. exists a, w. repeat split. exact H. Qed.

Lemma returns_bind {A B} (m : M A) (f : A -> M B) w (Q : A -> Prop) (R : B -> Prop) :
  returns m w Q ->
  (forall a w1, np_draws w1 = np_draws w -> Q a -> returns (f a) w1 R) ->
  returns (bind m f) w R.
Proof.
  intros (a & w1 & Hm & Hnp & Ha) Hf.
  destruct (Hf a w1 Hnp Ha) as (b & w2 & Hfa & Hnp' & Hb).
  exists b, w2. split; [| split; [congruence | exact Hb]].
  unfold bind. rewrite Hm. exact Hfa.
Qed.

Lemma returns_weaken {A} (m : M A) w (Q R : A -> Prop) :
  returns m w Q -> (forall a, Q a -> R a) -> returns m w R.
Proof.
  intros (a & w' & H & Hnp & Ha) HQR. exists a, w'. repeat split; auto.
Qed.

Lemma returns_randbelow n w : 0 < n -> returns (randbelow n) w (fun r => 0 <= r < n).
Proof.
  intros Hn. unfold randbelow, bind, py_next, ret.
  eexists. eexists. split; [reflexivity |]. split; [reflexivity |].
  apply Z.mod_pos_bound. exact Hn.
Qed.

Lemma returns_randint a b w : a <= b -> returns (randint a b) w (fun r => a <= r <= b).
Proof.
  intros Hab. unfold randint.
  destruct (b <? a) eqn:E; [apply Z.ltb_lt in E; lia |].
  eapply returns_bind; [apply returns_randbelow; lia |].
  intros r w1 _ Hr. cbv beta in Hr. apply returns_ret. lia.
Qed.

Lemma returns_choice {A} (y : A) ys w :
  returns (choice (y :: ys)) w (fun x => In x (y :: ys)).
Proof.
  unfold choice.
  eapply returns_bind; [apply returns_randbelow; simpl List.length; lia |].
  intros i w1 _ Hi. cbv beta in Hi.
  destruct (nth_error (y :: ys) (Z.to_nat i)) as [x |] eqn:E.
  - apply returns_ret. eapply nth_error_In. exact E.
  - apply nth_error_None in E. lia.
Qed.

Lemma returns_random_random w : returns random_random w (fun _ => True).
Proof.
  unfold random_random, bind, py_next, ret.
  eexists. eexists. repeat split.
Qed.

Lemma returns_np_next B w :
  np_bounded B w -> returns np_next w (fun r => 0 <= Z.of_N r <= B).
Proof.
  intros Hb. unfold np_next. eexists. eexists.
  split; [reflexivity |]. split; [reflexivity |].
  split; [apply N2Z.is_nonneg | apply Hb].
Qed.

Lemma returns_np_random_poisson B w :
  np_bounded B w -> returns np_random_poisson w (fun r => 0 <= r <= B).
Proof.
  intros Hb. unfold np_random_poisson.
  eapply returns_bind; [apply returns_np_next; exact Hb |].
  intros r w1 _ Hr. apply returns_ret. exact Hr.
Qed.

Lemma returns_int_np_random_exponential B w :
  np_bounded B w -> returns int_np_random_exponential w (fun r => 0 <= r <= B).
Proof.
  intros Hb. unfold int_np_random_exponential.
  eapply returns_bind; [apply returns_np_next; exact Hb |].
  intros r w1 _ Hr. apply returns_ret. exact Hr.
Qed.

Lemma returns_lift {A} (x : result A) (a : A) w : x = Ok a -> returns (lift x) w (eq a).
Proof. intros ->. exists a, w. repeat split. Qed.

Lemma returns_rows_append e w : returns (rows_append e) w (fun _ => True).
Proof. eexists. eexists. repeat split. Qed.

Lemma returns_users_append r w : returns (users_append r) w (fun _ => True).
Proof. eexists. eexists. repeat split. Qed.

Lemma returns_videos_append r w : returns (videos_append r) w (fun _ => True).
Proof. eexists. eexists. repeat split. Qed.

Lemma np_bounded_frame B w w1 :
  np_bounded B w -> np_draws w1 = np_draws w -> np_bounded B w1.
Proof. intros H E n. rewrite E. apply H. Qed.

(** A duration of less than the whole range of datetimes is accepted. *)
Lemma timedelta_us_in_range us :
  0 <= us < DATETIME_END -> timedelta_us us = Ok us.
Proof.
  intros Hus. unfold timedelta_us.
  assert (H : 0 <= us / us_per_day < MAX_ORDINAL).
  { split.
    - apply Z.div_pos; [lia | reflexivity].
    - apply Z.div_lt_upper_bound; [reflexivity |].
      unfold DATETIME_END in Hus. lia. }
  assert (Hm : MAX_ORDINAL <= MAX_DELTA_DAYS) by (compute; discriminate).
  destruct (- MAX_DELTA_DAYS <=? us / us_per_day) eqn:E1;
    [| apply Z.leb_gt in E1; unfold MAX_DELTA_DAYS in *; lia].
  destruct (us / us_per_day <=? MAX_DELTA_DAYS) eqn:E2;
    [| apply Z.leb_gt in E2; lia].
  reflexivity.
Qed.

Lemma datetime_add_in_range dt td :
  0 <= dt + td < DATETIME_END -> datetime_add dt td = Ok (dt + td).
Proof.
  intros Hr. unfold datetime_add. fold DATETIME_END.
  destruct (0 <=? dt + td) eqn:E1; [| apply Z.leb_gt in E1; lia].
  destruct (dt + td <? DATETIME_END) eqn:E2; [| apply Z.ltb_ge in E2; lia].
  reflexivity.
Qed.

Lemma returns_timedelta_seconds n w :
  0 <= n * us_per_second < DATETIME_END ->
  returns (lift (timedelta_seconds n)) w (eq (n * us_per_second)).
Proof.
  intros H. apply returns_lift. unfold timedelta_seconds.
  apply timedelta_us_in_range. exact H.
Qed.

Lemma returns_datetime_add dt td w :
  0 <= dt + td < DATETIME_END ->
  returns (lift (datetime_add dt td)) w (eq (dt + td)).
Proof. intros H. apply returns_lift. apply datetime_add_in_range. exact H. Qed.

Lemma DATETIME_END_value : DATETIME_END = 315537897600000000.
Proof. reflexivity. Qed.

Ltac step L :=
  eapply returns_bind;
  [ L
  | let a := fresh "a" in
    let w1 := fresh "w" in
    let Hnp := fresh "Hnp" in
    let H := fresh "H" in
    intros a w1 Hnp H; cbv beta in H ].

Ltac lift_step L := step L; [| match goal with H : _ = _ |- _ => subst end ].

Lemma remove_at_length {A} (xs : list A) j x :
  nth_error xs j = Some x -> S (List.length (remove_at j xs)) = List.length xs.
Proof.
  intros E. apply remove_at_Permutation in E.
  apply Permutation_length in E. exact E.
Qed.

Lemma returns_sample_loop {A} (k : nat) : forall (pool : list A) w,
  (k <= List.length pool)%nat ->
  returns (sample_loop k pool) w (fun l => List.length l = k).
Proof.
  induction k as [| k IH]; intros pool w Hk.
  - apply returns_ret. reflexivity.
  - cbn [sample_loop].
    step ltac:(apply returns_randbelow; lia).
    destruct (nth_error pool (Z.to_nat a)) as [x |] eqn:E.
    + pose proof (remove_at_length _ _ _ E) as Hl.
      step ltac:(apply IH; lia).
      apply returns_ret. simpl. congruence.
    + apply nth_error_None in E. lia.
Qed.

Lemma returns_sample {A} (population : list A) k w :
  0 <= k <= Z.of_nat (List.length population) ->
  returns (sample population k) w (fun l => List.length l = Z.to_nat k).
Proof.
  intros Hk. unfold sample.
  destruct (k <? 0) eqn:E1; [apply Z.ltb_lt in E1; lia |].
  destruct (Z.of_nat (List.length population) <? k) eqn:E2;
    [apply Z.ltb_lt in E2; lia |].
  cbn [orb]. apply returns_sample_loop. lia.
Qed.

Ltac step_as L a H :=
  eapply returns_bind;
  [ L
  | let w1 := fresh "w" in
    let Hnp := fresh "Hnp" in
    intros a w1 Hnp H; cbv beta in H ].

Ltac step_eq L :=
  eapply returns_bind;
  [ L
  | let a := fresh "a" in
    let w1 := fresh "w" in
    let Hnp := fresh "Hnp" in
    let H := fresh "H" in
    intros a w1 Hnp H; cbv beta in H; subst a ].

Ltac bounded_now :=
  repeat (eapply np_bounded_frame; [| eassumption]); assumption.

Ltac time_arith :=
  rewrite ?DATETIME_END_value in *; unfold us_per_day, us_per_second in *; lia.

Section Completion.

Variable B : Z.
Hypothesis B_nonneg : 0 <= B.

Lemma chunk_body_returns sf y ys i t sws w :
  np_bounded B w ->
  0 <= t -> t + 51 * us_per_second < DATETIME_END ->
  returns (chunk_body sf (y :: ys) i (t, sws)) w
    (fun st => t <= fst st <= t + 50 * us_per_second /\
               sws <= snd st <= sws + (B + 1)).
Proof.
  intros Hb Ht Hend. unfold chunk_body.
  step ltac:(apply returns_randint; lia).
  step ltac:(apply returns_timedelta_seconds; time_arith).
  subst a0.
  step ltac:(apply returns_datetime_add; time_arith).
  subst a0.
  step ltac:(apply returns_int_np_random_exponential;
             repeat (eapply np_bounded_frame; [| eassumption]); exact Hb).
  step ltac:(apply returns_choice).
  step ltac:(apply returns_rows_append).
  step ltac:(apply returns_random_random).
  eapply returns_bind with (Q := fun _ => True).
  - destruct (lt_0_12 a3); [| apply returns_ret; exact I].
    step ltac:(apply returns_timedelta_seconds; time_arith).
    subst a4.
    step ltac:(apply returns_datetime_add; time_arith).
    step ltac:(apply returns_choice).
    step ltac:(apply (returns_choice "like"%string ["heart"%string])).
    apply returns_rows_append.
  - intros _ w7 _ _. apply returns_ret. cbn [fst snd]. time_arith.
Qed.

Lemma chunk_loop_returns sf y ys (xs : list nat) : forall t sws w,
  np_bounded B w ->
  0 <= t ->
  t + (50 * Z.of_nat (List.length xs) + 1) * us_per_second < DATETIME_END ->
  returns (for_each (chunk_body sf (y :: ys)) xs (t, sws)) w
    (fun st => t <= fst st <= t + 50 * Z.of_nat (List.length xs) * us_per_second /\
               sws <= snd st <= sws + Z.of_nat (List.length xs) * (B + 1)).
Proof.
  induction xs as [| x xs IH]; intros t sws w Hb Ht Hend.
  - rewrite for_each_nil. apply returns_ret. cbn [fst snd List.length]. lia.
  - rewrite for_each_cons.
    cbn [List.length] in *. rewrite Nat2Z.inj_succ in *.
    step ltac:(apply chunk_body_returns; [exact Hb | exact Ht | time_arith]).
    destruct a as [t1 sws1]. cbn [fst snd] in H.
    eapply returns_weaken.
    + apply IH; [bounded_now | lia | time_arith].
    + intros [t2 sws2]. cbn [fst snd]. intros Hst.
      rewrite Z.mul_succ_l. time_arith.
Qed.

Lemma session_body_returns v vs user_id s t fl w :
  np_bounded B w ->
  5 * 60 * us_per_second <= t ->
  t + session_span B * us_per_second < DATETIME_END ->
  returns (session_body (v :: vs) user_id s (t, fl)) w
    (fun st => t <= fst st <= t + session_span B * us_per_second).
Proof.
  intros Hb Ht Hend. unfold session_span in *. unfold session_body.
  step ltac:(apply returns_choice).
  step ltac:(apply returns_choice).
  step ltac:(apply returns_choice).
  step ltac:(apply returns_choice).
  step ltac:(apply returns_choice).
  step ltac:(apply returns_randint; lia).
  step ltac:(apply returns_randint; lia).
  step ltac:(apply returns_randint; lia).
  step ltac:(apply returns_choice).
  eapply returns_bind with (Q := fun _ => True).
  { destruct (negb fl); [| apply returns_ret; exact I].
    step_eq ltac:(apply returns_lift; unfold timedelta_minutes;
                  apply timedelta_us_in_range; time_arith).
    step ltac:(unfold datetime_sub; apply returns_datetime_add; time_arith).
    apply returns_rows_append. }
  intros _ w9 Hnp9 _.
  step ltac:(apply returns_rows_append).
  step_as ltac:(apply returns_randint; lia) num_chunks Hchunks.
  step_as ltac:(apply returns_randint; lia) k Hk.
  step_as ltac:(apply returns_sample; cbn [List.length]; lia) watched Hwatched.
  destruct watched as [| y ys].
  { exfalso. cbn [List.length] in Hwatched.
    assert (Z.to_nat (Z.min (Z.of_nat (S (List.length vs))) k) <> 0)%nat by lia.
    congruence. }
  assert (Hlen : Z.of_nat (List.length (range num_chunks)) <= 10).
  { rewrite range_length. lia. }
  step_as ltac:(apply chunk_loop_returns; [bounded_now | time_arith | time_arith])
          st Hst.
  destruct st as [t1 sws]. cbn [fst snd] in Hst.
  assert (Hsws : 0 <= sws <= 10 * (B + 1)) by nia.
  step_as ltac:(apply returns_randint; lia) slack Hslack.
  step_eq ltac:(apply returns_timedelta_seconds; time_arith).
  step_eq ltac:(apply returns_datetime_add; time_arith).
  step ltac:(apply returns_rows_append).
  step_as ltac:(apply returns_randint; lia) gap Hgap.
  step_eq ltac:(apply returns_lift; unfold timedelta_minutes;
                apply timedelta_us_in_range; time_arith).
  step_eq ltac:(apply returns_datetime_add; time_arith).
  apply returns_ret. cbn [fst snd]. time_arith.
Qed.

Lemma session_span_pos : 0 < session_span B.
Proof. unfold session_span. lia. Qed.

Lemma session_loop_returns v vs user_id (xs : list nat) : forall t fl w,
  np_bounded B w ->
  5 * 60 * us_per_second <= t ->
  t + Z.of_nat (List.length xs) * session_span B * us_per_second < DATETIME_END ->
  returns (for_each (session_body (v :: vs) user_id) xs (t, fl)) w (fun _ => True).
Proof.
  pose proof session_span_pos as Hsp.
  induction xs as [| x xs IH]; intros t fl w Hb Ht Hend.
  - rewrite for_each_nil. apply returns_ret. exact I.
  - rewrite for_each_cons.
    cbn [List.length] in Hend. rewrite Nat2Z.inj_succ, Z.mul_succ_l in Hend.
    assert (Hn : 0 <= Z.of_nat (List.length xs) * session_span B) by nia.
    step_as ltac:(apply session_body_returns; [exact Hb | exact Ht | time_arith])
            st Hst.
    destruct st as [t1 fl1]. cbn [fst snd] in Hst.
    apply IH; [bounded_now | time_arith | time_arith].
Qed.

Lemma user_body_returns cfg base_dt v vs user_id w :
  np_bounded B w ->
  0 <= days cfg ->
  5 * 60 * us_per_second <= base_dt ->
  base_dt + days cfg * us_per_day
    + (B + 1) * session_span B * us_per_second < DATETIME_END ->
  returns (user_body cfg base_dt (v :: vs) user_id tt) w (fun _ => True).
Proof.
  intros Hb Hd Hbase Hend. pose proof session_span_pos as Hsp.
  assert (Hn : 0 <= (B + 1) * session_span B) by nia.
  unfold user_body.
  step_as ltac:(apply returns_np_random_poisson; exact Hb) p Hp.
  step_as ltac:(apply returns_randint; lia) h Hh.
  step_eq ltac:(apply returns_lift; unfold timedelta_hours;
                apply timedelta_us_in_range; time_arith).
  step_eq ltac:(apply returns_datetime_add; time_arith).
  assert (Hlen : Z.of_nat (List.length (range (p + 1))) * session_span B
                 <= (B + 1) * session_span B).
  { rewrite range_length. apply Z.mul_le_mono_nonneg_r; lia. }
  step ltac:(apply session_loop_returns; [bounded_now | time_arith | time_arith]).
  apply returns_ret. exact I.
Qed.

Lemma user_loop_returns cfg base_dt v vs (user_ids : list string) : forall w,
  np_bounded B w ->
  0 <= days cfg ->
  5 * 60 * us_per_second <= base_dt ->
  base_dt + days cfg * us_per_day
    + (B + 1) * session_span B * us_per_second < DATETIME_END ->
  returns (for_each (user_body cfg base_dt (v :: vs)) user_ids tt) w (fun _ => True).
Proof.
  intros w Hb Hd Hbase Hend. revert w Hb.
  induction user_ids as [| u us IH]; intros w Hb.
  - rewrite for_each_nil. apply returns_ret. exact I.
  - rewrite for_each_cons.
    step_as ltac:(apply user_body_returns; assumption) u1 Hu1.
    destruct u1. apply IH. bounded_now.
Qed.

Lemma generate_events_returns cfg utcnow users_df v videos_df w :
  np_bounded B w ->
  0 <= days cfg ->
  days cfg * us_per_day + 5 * 60 * us_per_second <= utcnow ->
  utcnow + (B + 1) * session_span B * us_per_second < DATETIME_END ->
  returns (generate_events cfg utcnow users_df (v :: videos_df)) w (fun _ => True).
Proof.
  intros Hb Hd Hlow Hend. pose proof session_span_pos as Hsp.
  assert (Hn : 0 <= (B + 1) * session_span B) by nia.
  unfold generate_events.
  step_eq ltac:(apply returns_lift; unfold timedelta_days;
                apply timedelta_us_in_range; time_arith).
  step_eq ltac:(unfold datetime_sub; apply returns_datetime_add; time_arith).
  eapply returns_bind with (Q := fun _ => True).
  { eexists. eexists. split; [reflexivity |]. split; [reflexivity | exact I]. }
  intros _ w2 Hnp2 _. cbn [map].
  step ltac:(apply user_loop_returns; [bounded_now | exact Hd | time_arith | time_arith]).
  eexists. eexists. split; [reflexivity |]. split; [reflexivity | exact I].
Qed.

End Completion.

Lemma generate_users_body_returns cfg today i w :
  0 <= days cfg ->
  days cfg + 8 <= today <= MAX_ORDINAL ->
  returns (generate_users_body cfg today i tt) w (fun _ => True).
Proof.
  intros Hd Ht. unfold generate_users_body.
  assert (Hm : MAX_ORDINAL = 3652059) by reflexivity.
  step_as ltac:(apply returns_randint; lia) k Hk.
  step_eq ltac:(apply returns_lift; unfold timedelta_days;
                apply timedelta_us_in_range; time_arith).
  step ltac:(apply (returns_lift _ (today - k)); unfold date_sub;
             rewrite Z.div_mul by discriminate).
  - destruct (1 <=? today - k) eqn:E1; [| apply Z.leb_gt in E1; lia].
    destruct (today - k <=? MAX_ORDINAL) eqn:E2; [| apply Z.leb_gt in E2; lia].
    reflexivity.
  - step ltac:(apply returns_choice).
    step ltac:(apply returns_choice).
    step ltac:(apply returns_choice).
    apply returns_users_append.
Qed.

Lemma generate_users_returns cfg utcnow w :
  0 <= days cfg ->
  days cfg + 8 <= date_of utcnow <= MAX_ORDINAL ->
  returns (generate_users cfg utcnow) w (fun _ => True).
Proof.
  intros Hd Ht. unfold generate_users.
  eapply returns_bind with (Q := fun _ => True).
  { eexists. eexists. split; [reflexivity |]. split; [reflexivity | exact I]. }
  intros _ w1 _ _.
  eapply returns_bind with (Q := fun _ => True).
  { clear w. generalize w1. generalize (range (users cfg)).
    induction l as [| i l IH]; intros w.
    - rewrite for_each_nil. apply returns_ret. exact I.
    - rewrite for_each_cons.
      step_as ltac:(apply generate_users_body_returns; assumption) u Hu.
      destruct u. apply IH. }
  intros _ w2 _ _.
  eexists. eexists. split; [reflexivity |]. split; [reflexivity | exact I].
Qed.

Lemma generate_videos_returns cfg w :
  returns (generate_videos cfg) w (fun _ => True).
Proof.
  unfold generate_videos.
  eapply returns_bind with (Q := fun _ => True).
  { eexists. eexists. split; [reflexivity |]. split; [reflexivity | exact I]. }
  intros _ w1 _ _.
  eapply returns_bind with (Q := fun _ => True).
  { generalize w1. generalize (range (videos cfg)).
    induction l as [| i l IH]; intros w0.
    - rewrite for_each_nil. apply returns_ret. exact I.
    - rewrite for_each_cons.
      eapply returns_bind with (Q := fun _ => True).
      + unfold generate_videos_body.
        step ltac:(apply returns_choice).
        step ltac:(apply returns_randint; lia).
        step ltac:(apply returns_randint; lia).
        apply returns_videos_append.
      + intros [] w2 _ _. apply IH. }
  intros _ w2 _ _.
  eexists. eexists. split; [reflexivity |]. split; [reflexivity | exact I].
Qed.

(** X17. A run completes, with [users] rows in users.csv and [videos]
    rows in videos.csv, when the seed is in [0, 2^32), the catalogue has
    at least one video, the day count is not negative, the first clock
    reading is more than [days + 7] days after 0001-01-01, and the second
    one leaves room for the window before it and, after it, for the
    longest possible run of sessions: with every numpy draw at most [B],
    a user has at most [B + 1] sessions of at most [session_span B]
    seconds each, gap included. *)
Theorem run_completes_within_the_calendar sd clk cfg w B :
  0 <= seed cfg < 2 ^ 32 ->
  1 <= videos cfg ->
  0 <= days cfg ->
  (forall n, Z.of_N (np_random_stream sd (seed cfg) n) <= B) ->
  days cfg + 8 <= date_of (utcnow_users clk) <= MAX_ORDINAL ->
  days cfg * us_per_day + 5 * 60 * us_per_second <= utcnow_events clk ->
  utcnow_events clk + (B + 1) * session_span B * us_per_second < DATETIME_END ->
  exists out w',
    write_outputs sd clk cfg w = (Ok out, w') /\
    List.length (users_csv out) = Z.to_nat (users cfg) /\
    List.length (videos_csv out) = Z.to_nat (videos cfg).
Proof.
  intros Hs Hv Hd HB Hu Hlow Hend.
  assert (HB0 : 0 <= B).
  { pose proof (HB 0%nat). pose proof (N2Z.is_nonneg (np_random_stream sd (seed cfg) 0)).
    lia. }
  unfold write_outputs.
  unfold bind at 1, random_seed at 1.
  unfold bind at 1, np_random_seed at 1.
  destruct (0 <=? seed cfg) eqn:E1; [| apply Z.leb_gt in E1; lia].
  destruct (seed cfg <? 2 ^ 32) eqn:E2; [| apply Z.ltb_ge in E2; lia].
  cbn [andb].
  match goal with
  | |- context [bind (generate_users _ _) _ ?w0] =>
      assert (Hb0 : np_bounded B w0) by exact HB;
      destruct (generate_users_returns cfg (utcnow_users clk) w0 Hd Hu)
        as (users_df & w1 & Hgu & Hnp1 & _)
  end.
  rewrite (bind_step _ _ _ _ _ Hgu).
  destruct (generate_videos_returns cfg w1) as (videos_df & w2 & Hgv & Hnp2 & _).
  rewrite (bind_step _ _ _ _ _ Hgv).
  pose proof (generate_users_rows _ _ _ _ _ Hgu) as Hur.
  pose proof (generate_videos_rows _ _ _ _ Hgv) as Hvr.
  apply Forall2_length in Hur, Hvr. rewrite range_length in Hur, Hvr.
  destruct videos_df as [| v videos_df]; [simpl in Hvr; lia |].
  assert (Hb2 : np_bounded B w2) by bounded_now.
  destruct (generate_events_returns B HB0 cfg (utcnow_events clk) users_df v videos_df
              w2 Hb2 Hd Hlow Hend) as (events & w3 & Hge & _ & _).
  cbv zeta. rewrite (bind_step _ _ _ _ _ Hge).
  eexists. eexists. split; [reflexivity |].
  cbn [users_csv videos_csv]. split; congruence.
Qed.

Lemma run_completes_within_the_calendar_witness :
  0 <= seed small_config < 2 ^ 32 /\
  1 <= videos small_config /\
  0 <= days small_config /\
  (forall n, Z.of_N (np_random_stream stuck_seeding (seed small_config) n) <= 0) /\
  days small_config + 8 <= date_of (utcnow_users demo_clock) <= MAX_ORDINAL /\
  days small_config * us_per_day + 5 * 60 * us_per_second <= utcnow_events demo_clock /\
  utcnow_events demo_clock + (0 + 1) * session_span 0 * us_per_second < DATETIME_END /\
  exists out w',
    stuck_run = (Ok out, w') /\
    List.length (users_csv out) = Z.to_nat (users small_config) /\
    List.length (videos_csv out) = Z.to_nat (videos small_config).
Proof.
  assert (Hs : 0 <= seed small_config < 2 ^ 32) by (simpl; lia).
  assert (Hv : 1 <= videos small_config) by (simpl; lia).
  assert (Hd : 0 <= days small_config) by (simpl; lia).
  assert (HB : forall n,
             Z.of_N (np_random_stream stuck_seeding (seed small_config) n) <= 0)
    by (intros n; simpl; lia).
  assert (Hu : days small_config + 8 <= date_of (utcnow_users demo_clock) <= MAX_ORDINAL)
    by (vm_compute; split; discriminate).
  assert (Hlow : days small_config * us_per_day + 5 * 60 * us_per_second
                 <= utcnow_events demo_clock)
    by (vm_compute; discriminate).
  assert (Hend : utcnow_events demo_clock + (0 + 1) * session_span 0 * us_per_second
                 < DATETIME_END)
    by (vm_compute; reflexivity).
  split; [exact Hs |]. split; [exact Hv |]. split; [exact Hd |].
  split; [exact HB |].
  split; [exact Hu |]. split; [exact Hlow |]. split; [exact Hend |].
  exact (run_completes_within_the_calendar stuck_seeding demo_clock small_config
           demo_process 0 Hs Hv Hd HB Hu Hlow Hend).
Defined.
